(** * Xray test export: pagination and row flattening

    A shallow embedding of [xray_export.py]: the GraphQL helper [gql],
    the paginated fetcher [fetch_all_tests], the custom-field formatter
    [_format_jira_field_value] and the flattener [flatten_rows].

    The program is dynamically typed and works on decoded JSON, so the
    embedding carries a small model of the Python values it touches:

    - a Python [str] is a list of Unicode code points ([pystr]);
    - a decoded JSON document is a [pyval]: [None], [bool], [int]
      (unbounded, hence [Z]), [str], [list] and [dict].  A [dict] is an
      association list in insertion order, because [str()] of a dict and
      the column order of a row depend on that order.  JSON numbers with
      a fractional part (Python [float]) are outside the model;
    - an operation that Python may refuse ([x.get], [x.strip], iteration,
      [<], [+=]) returns a [result]: [Ok] or [Raise] with the exception;
    - the remote endpoint is a [service]: the reply to the n-th POST.
      The requests a run issues are collected in a log;
    - the [while] loop of the fetcher runs on fuel; [None] is "still
      running when the fuel ran out".

    Not modelled: the progress bar, the message printed when the first
    page fails and the pause between pages; none of them changes what
    [fetch_all_tests] returns or which requests it sends. *)

From Stdlib Require Import List ZArith NArith Bool Lia String Ascii.
From Stdlib Require Import DecimalString.
Set Warnings "-register-all".
Import ListNotations.
Local Open Scope Z_scope.

(* ================================================================== *)
(** * Python strings *)
(* ================================================================== *)

Module PyStr.

(** A code point. *)
Definition char := N.

Definition pystr := list char.

(** A literal: the code points of an ASCII string. *)
Definition lit (s : string) : pystr :=
  List.map N_of_ascii (list_ascii_of_string s).

Fixpoint eqb (a b : pystr) : bool :=
  match a, b with
  | [], [] => true
  | x :: a', y :: b' => N.eqb x y && eqb a' b'
  | _, _ => false
  end.

(** [sep.join(parts)] for a list of [str]. *)
Fixpoint join (sep : pystr) (parts : list pystr) : pystr :=
  match parts with
  | [] => []
  | [p] => p
  | p :: rest => p ++ sep ++ join sep rest
  end.

(** [str.isspace] on one code point (CPython's [Py_UNICODE_ISSPACE]):
    the separators [str.split()] and [str.strip()] use. *)
Definition is_space (c : char) : bool :=
  (((9 <=? c) && (c <=? 13)) || ((28 <=? c) && (c <=? 32))
   || (c =? 133) || (c =? 160) || (c =? 5760)
   || ((8192 <=? c) && (c <=? 8202))
   || (c =? 8232) || (c =? 8233) || (c =? 8239) || (c =? 8287)
   || (c =? 12288))%N.

Fixpoint lstrip (s : pystr) : pystr :=
  match s with
  | c :: s' => if is_space c then lstrip s' else s
  | [] => []
  end.

(** [s.strip()] *)
Definition strip (s : pystr) : pystr := rev (lstrip (rev (lstrip s))).

(** [s.split()] with no argument: the maximal runs of non-space code
    points, in order.  [cur] is the word being read, reversed. *)
Fixpoint split_aux (cur : pystr) (s : pystr) : list pystr :=
  match s with
  | [] => match cur with [] => [] | _ => [rev cur] end
  | c :: s' =>
      if is_space c
      then match cur with
           | [] => split_aux [] s'
           | _ => rev cur :: split_aux [] s'
           end
      else split_aux (c :: cur) s'
  end.

Definition split (s : pystr) : list pystr := split_aux [] s.

(** [s.lower()] on the ASCII letters.  Python also maps letters outside
    ASCII; none of those mappings yields a string of ASCII letters only,
    except U+212A (to "k"), so the comparison of [name.lower()] with
    "precondition", the only use of [lower] in the program, is the same. *)
Definition lower_char (c : char) : char :=
  if ((65 <=? c) && (c <=? 90))%N then (c + 32)%N else c.

Definition lower (s : pystr) : pystr := List.map lower_char s.

(** [needle in s] for two strings. *)
Fixpoint prefixb (p s : pystr) : bool :=
  match p, s with
  | [], _ => true
  | x :: p', y :: s' => N.eqb x y && prefixb p' s'
  | _ :: _, [] => false
  end.

Fixpoint contains (needle s : pystr) : bool :=
  prefixb needle s ||
  match s with
  | [] => false
  | _ :: s' => contains needle s'
  end.

(** [str(n)] for an [int]. *)
Definition of_Z (z : Z) : pystr := lit (NilZero.string_of_int (Z.to_int z)).

Definition hex_digit (n : N) : char :=
  (if n <? 10 then 48 + n else 87 + n)%N.

(** [repr(s)]: single quotes unless the string has a single quote and no
    double quote; the quote and the backslash are escaped, tab, newline
    and carriage return are written [\t], [\n], [\r], the other control
    characters of ASCII and the non-printable code points of Latin-1
    (U+007F to U+00A0, and U+00AD) [\xhh].  Code points above U+00FF are
    copied (Python escapes those its Unicode tables call non-printable). *)
Definition repr_char (quote : char) (c : char) : pystr :=
  (if (c =? quote) || (c =? 92) then [92; c]
   else if c =? 9 then [92; 116]
   else if c =? 10 then [92; 110]
   else if c =? 13 then [92; 114]
   else if (c <? 32) || ((127 <=? c) && (c <=? 160)) || (c =? 173)
        then [92; 120; hex_digit (c / 16); hex_digit (c mod 16)]
   else [c])%N.

Definition repr (s : pystr) : pystr :=
  let quote :=
    if existsb (N.eqb 39) s && negb (existsb (N.eqb 34) s) then 34%N else 39%N in
  quote :: flat_map (repr_char quote) s ++ [quote].

End PyStr.

Import PyStr.

Arguments lit : simpl never.

(* ================================================================== *)
(** * Python values and exceptions *)
(* ================================================================== *)

(** A decoded JSON document. *)
Inductive pyval : Type :=
| VNone
| VBool (b : bool)
| VInt (z : Z)
| VStr (s : pystr)
| VList (items : list pyval)
| VDict (entries : list (pystr * pyval)).

(** The exceptions the program can meet. *)
Inductive exn : Type :=
| AttributeError      (* method missing on the receiver: x.get, x.strip, ... *)
| TypeError           (* not iterable, not subscriptable, int + str, ... *)
| KeyError            (* d[k] with k missing *)
| RuntimeError        (* raised by gql on a GraphQL "errors" member *)
| HTTPError           (* raise_for_status on a 4xx or 5xx reply *)
| ConnectionError     (* the POST itself failed: no reply *)
| JSONDecodeError     (* the reply body is not JSON *)
| WriterError.        (* raised by pandas or openpyxl while the workbook is
                         built or saved: an OSError for a path that cannot
                         be written, a ValueError, ...; never an HTTPError *)

Inductive result (A : Type) : Type :=
| Ok (a : A)
| Raise (e : exn).

Arguments Ok {A} a.
Arguments Raise {A} e.

Definition bind {A B : Type} (r : result A) (k : A -> result B) : result B :=
  match r with
  | Ok a => k a
  | Raise e => Raise e
  end.

Declare Scope py_scope.
Delimit Scope py_scope with py.
Notation "x <- r ;; k" := (bind r (fun x => k))
  (at level 61, r at next level, right associativity) : py_scope.
Local Open Scope py_scope.

(** A loop [for x in xs: body] whose body may raise and updates [acc]. *)
Fixpoint for_each {A S : Type} (body : S -> A -> result S) (xs : list A) (acc : S)
  : result S :=
  match xs with
  | [] => Ok acc
  | x :: xs' => acc' <- body acc x ;; for_each body xs' acc'
  end.

Module Py.

(** [bool(v)] *)
Definition truthy (v : pyval) : bool :=
  match v with
  | VNone => false
  | VBool b => b
  | VInt z => negb (z =? 0)
  | VStr s => match s with [] => false | _ => true end
  | VList l => match l with [] => false | _ => true end
  | VDict d => match d with [] => false | _ => true end
  end.

(** [a or b] *)
Definition or_ (a b : pyval) : pyval := if truthy a then a else b.

Definition isinstance_dict (v : pyval) : bool :=
  match v with VDict _ => true | _ => false end.

Definition isinstance_list (v : pyval) : bool :=
  match v with VList _ => true | _ => false end.

(** Lookup in a dict: the binding of [k]. *)
Fixpoint lookup (k : pystr) (d : list (pystr * pyval)) : option pyval :=
  match d with
  | [] => None
  | (k', v) :: d' => if PyStr.eqb k k' then Some v else lookup k d'
  end.

(** [d[k] = v]: an existing key keeps its place, a new one goes last. *)
Fixpoint store (k : pystr) (v : pyval) (d : list (pystr * pyval))
  : list (pystr * pyval) :=
  match d with
  | [] => [(k, v)]
  | (k', v') :: d' =>
      if PyStr.eqb k k' then (k, v) :: d' else (k', v') :: store k v d'
  end.

(** [{**a, **b}]: the entries of [b] stored into [a] in order. *)
Definition update (a b : list (pystr * pyval)) : list (pystr * pyval) :=
  fold_left (fun acc kv => store (fst kv) (snd kv) acc) b a.

(** [x.get(k, default)]: only a dict has the method. *)
Definition get (x : pyval) (k : pystr) (default : pyval) : result pyval :=
  match x with
  | VDict d => Ok (match lookup k d with Some v => v | None => default end)
  | _ => Raise AttributeError
  end.

(** [k in x] for a string [k]. *)
Definition contains (k : pystr) (x : pyval) : result bool :=
  match x with
  | VDict d => Ok (match lookup k d with Some _ => true | None => false end)
  | VList l =>
      Ok (existsb (fun v => match v with VStr s => PyStr.eqb s k | _ => false end) l)
  | VStr s => Ok (PyStr.contains k s)
  | _ => Raise TypeError
  end.

(** [x[k]] for a string [k]. *)
Definition getitem (x : pyval) (k : pystr) : result pyval :=
  match x with
  | VDict d => match lookup k d with Some v => Ok v | None => Raise KeyError end
  | _ => Raise TypeError
  end.

(** The items [for item in x] visits. *)
Definition iter (x : pyval) : result (list pyval) :=
  match x with
  | VList l => Ok l
  | VStr s => Ok (List.map (fun c => VStr [c]) s)
  | VDict d => Ok (List.map (fun kv => VStr (fst kv)) d)
  | _ => Raise TypeError
  end.

(** The number behind an [int] or a [bool] ([True] is 1). *)
Definition as_int (x : pyval) : result Z :=
  match x with
  | VInt z => Ok z
  | VBool b => Ok (if b then 1 else 0)
  | _ => Raise TypeError
  end.

(** [n < x] and [n + x] for an int [n]. *)
Definition lt (n : Z) (x : pyval) : result bool :=
  z <- as_int x ;; Ok (n <? z).

Definition add (n : Z) (x : pyval) : result Z :=
  z <- as_int x ;; Ok (n + z).

(** [repr(v)], and [str(v)], which differs on strings only. *)
Fixpoint repr (v : pyval) : pystr :=
  match v with
  | VNone => lit "None"
  | VBool b => if b then lit "True" else lit "False"
  | VInt z => of_Z z
  | VStr s => PyStr.repr s
  | VList l =>
      lit "[" ++ join (lit ", ") (List.map repr l) ++ lit "]"
  | VDict d =>
      lit "{" ++
      join (lit ", ")
        (List.map (fun kv => PyStr.repr (fst kv) ++ lit ": " ++ repr (snd kv)) d)
      ++ lit "}"
  end.

Definition str (v : pyval) : pystr :=
  match v with
  | VStr s => s
  | _ => repr v
  end.

(** [x.strip()], [x.lower()], [x.split()]: methods of [str] only. *)
Definition strip (x : pyval) : result pystr :=
  match x with VStr s => Ok (PyStr.strip s) | _ => Raise AttributeError end.

Definition lower (x : pyval) : result pystr :=
  match x with VStr s => Ok (PyStr.lower s) | _ => Raise AttributeError end.

Definition split (x : pyval) : result (list pystr) :=
  match x with VStr s => Ok (PyStr.split s) | _ => Raise AttributeError end.

(** [sep.join(x)]: [x] is iterated and every item must be a [str]. *)
Definition join (sep : pystr) (x : pyval) : result pystr :=
  items <- iter x ;;
  parts <- for_each
             (fun acc item =>
                match item with
                | VStr s => Ok (acc ++ [s])
                | _ => Raise TypeError
                end) items [] ;;
  Ok (PyStr.join sep parts).

End Py.

(* ================================================================== *)
(** * The remote service and [gql] *)
(* ================================================================== *)

(** What one POST to the GraphQL endpoint carries: the bearer token and
    the query variables [jql], [limit], [start] (the query text is the
    constant [GQL_GET_TESTS]). *)
Record request : Type := {
  req_token : pystr;
  req_jql : pystr;
  req_limit : Z;
  req_start : Z
}.

(** What comes back: nothing (the transport failed), or a status code
    with a body, [None] when the body is not JSON. *)
Inductive reply : Type :=
| NoReply
| Reply (status : Z) (body : option pyval).

(** The endpoint: its reply to the n-th request it receives (from 0). *)
Definition service := nat -> request -> reply.

(** Code that talks to the service: it reads and extends the log of the
    requests sent so far, and may raise. *)
Definition io (A : Type) : Type := list request -> result A * list request.

Definition io_ret {A : Type} (r : result A) : io A := fun log => (r, log).

Definition io_bind {A B : Type} (m : io A) (k : A -> io B) : io B :=
  fun log =>
    match m log with
    | (Ok a, log') => k a log'
    | (Raise e, log') => (Raise e, log')
    end.

Notation "x <~ m ;; k" := (io_bind m (fun x => k))
  (at level 61, m at next level, right associativity) : py_scope.

(** [session.post(XRAY_GRAPHQL, ...)] *)
Definition post (srv : service) (rq : request) : io reply :=
  fun log => (Ok (srv (List.length log) rq), log ++ [rq]).

(** [resp.raise_for_status()] and [resp.json()] *)
Definition raise_for_status (status : Z) : result unit :=
  if (400 <=? status) && (status <? 600) then Raise HTTPError else Ok tt.

Definition resp_json (body : option pyval) : result pyval :=
  match body with
  | Some j => Ok j
  | None => Raise JSONDecodeError
  end.

(** Lines 75-79 of [gql]: what it makes of the reply. *)
Definition gql_decode (resp : reply) : result pyval :=
  match resp with
  | NoReply => Raise ConnectionError
  | Reply status body =>
      _ <- raise_for_status status ;;
      j <- resp_json body ;;
      has_errors <- Py.contains (lit "errors") j ;;
      if has_errors then
        errors <- Py.getitem j (lit "errors") ;;
        Raise RuntimeError
      else Py.getitem j (lit "data")
  end.

Definition gql (srv : service) (token : pystr) (variables : pystr * Z * Z)
  : io pyval :=
  let '(jql, limit, start) := variables in
  resp <~ post srv {| req_token := token; req_jql := jql;
                      req_limit := limit; req_start := start |} ;;
  io_ret (gql_decode resp).

(* ================================================================== *)
(** * [fetch_all_tests] *)
(* ================================================================== *)

(** [gql(s, token, GQL_GET_TESTS, {...})["getTests"]]: one page. *)
Definition get_tests_page (srv : service) (token jql : pystr) (limit start : Z)
  : io pyval :=
  data <~ gql srv token (jql, limit, start) ;;
  io_ret (Py.getitem data (lit "getTests")).

(** The variables the loop updates. *)
Record loop_state : Type := {
  out : list pyval;
  start : Z;
  batch : pyval
}.

(** Lines 97-99 and 104-107: take a page into [out] and move [start]. *)
Definition take_page (limit : Z) (data : pyval) (st : loop_state)
  : result loop_state :=
  results <- Py.get data (lit "results") VNone ;;
  let batch := Py.or_ results (VList []) in
  items <- Py.iter batch ;;
  step <- Py.get data (lit "limit") (VInt limit) ;;
  start' <- Py.add (start st) step ;;
  Ok {| out := out st ++ items; start := start'; batch := batch |}.

(** [start < total and batch] *)
Definition loop_cond (total : pyval) (st : loop_state) : result bool :=
  below <- Py.lt (start st) total ;;
  Ok (below && Py.truthy (batch st)).

Definition loop_body (srv : service) (token jql : pystr) (limit : Z)
  (st : loop_state) : io loop_state :=
  data <~ get_tests_page srv token jql limit (start st) ;;
  io_ret (take_page limit data st).

(** The [while] loop, then [return out]. *)
Fixpoint fetch_loop (fuel : nat) (srv : service) (token jql : pystr) (limit : Z)
  (total : pyval) (st : loop_state) (log : list request)
  : option (result (list pyval) * list request) :=
  match fuel with
  | O => None
  | S fuel' =>
      match loop_cond total st with
      | Raise e => Some (Raise e, log)
      | Ok false => Some (Ok (out st), log)
      | Ok true =>
          match loop_body srv token jql limit st log with
          | (Raise e, log') => Some (Raise e, log')
          | (Ok st', log') => fetch_loop fuel' srv token jql limit total st' log'
          end
      end
  end.

Definition fetch_all_tests (fuel : nat) (srv : service) (token jql : pystr)
  (limit : Z) : option (result (list pyval) * list request) :=
  match get_tests_page srv token jql limit 0 [] with
  | (Raise _, log) => Some (Ok [], log)          (* except Exception: return [] *)
  | (Ok data, log) =>
      match Py.get data (lit "total") (VInt 0) with
      | Raise e => Some (Raise e, log)
      | Ok total =>
          if negb (Py.truthy total) then Some (Ok [], log)
          else
            match take_page limit data {| out := []; start := 0; batch := VList [] |} with
            | Raise e => Some (Raise e, log)
            | Ok st => fetch_loop fuel srv token jql limit total st log
            end
      end
  end.

(* ================================================================== *)
(** * [_format_jira_field_value] *)
(* ================================================================== *)

(** [isinstance(x, dict) and 'value' in x] *)
Definition is_choice (x : pyval) : result bool :=
  if Py.isinstance_dict x then Py.contains (lit "value") x else Ok false.

Definition nonempty (s : pystr) : bool :=
  match s with [] => false | _ => true end.

Definition _format_jira_field_value (value : pyval) : result pystr :=
  single <- is_choice value ;;
  if single then
    v <- Py.get value (lit "value") (VStr []) ;;
    Ok (Py.str v)
  else if Py.isinstance_list value then
    items <- Py.iter value ;;
    str_values <-
      for_each
        (fun acc item =>
           choice <- is_choice item ;;
           if choice then
             v <- Py.get item (lit "value") (VStr []) ;;
             Ok (acc ++ [Py.str v])
           else Ok (acc ++ [Py.str item]))
        items [] ;;
    Ok (PyStr.join (lit ", ") (filter nonempty str_values))
  else if Py.truthy value then
    Ok (Py.str value)
  else Ok [].

(* ================================================================== *)
(** * [flatten_rows] *)
(* ================================================================== *)

Definition CUSTOM_FIELDS_TO_EXPORT : list (pystr * pystr) :=
  [ (lit "customfield_10138", lit "Components");
    (lit "customfield_10167", lit "Custom Field 2") ].

(** [' '.join(definition.split())] *)
Definition normalize_definition (definition : pyval) : result pystr :=
  words <- Py.split definition ;;
  Ok (PyStr.join (lit " ") words).

(** Lines 145-160: the loop over the issue preconditions; the state is
    [(pre_titles_list, pre_defs_list)]. *)
Definition precondition_body (acc : list pystr * list pystr) (p : pyval)
  : result (list pystr * list pystr) :=
  let '(pre_titles_list, pre_defs_list) := acc in
  if negb (Py.truthy p) then Ok acc
  else
    j <- Py.get p (lit "jira") VNone ;;
    let pre_jira := Py.or_ j (VDict []) in
    pre_key <- Py.get pre_jira (lit "key") VNone ;;
    pre_summary <- Py.get pre_jira (lit "summary") VNone ;;
    let pre_titles_list :=
      if Py.truthy pre_key && Py.truthy pre_summary
      then pre_titles_list ++ [Py.str pre_key ++ lit " - " ++ Py.str pre_summary]
      else pre_titles_list in
    definition <- Py.get p (lit "definition") VNone ;;
    if Py.truthy definition then
      normalized_def <- normalize_definition definition ;;
      Ok (pre_titles_list, pre_defs_list ++ [normalized_def])
    else Ok (pre_titles_list, pre_defs_list).

(** Lines 134-169: the record-level columns. *)
Definition base_row (test : pyval) : result (list (pystr * pyval)) :=
  j <- Py.get test (lit "jira") VNone ;;
  let jira_info := Py.or_ j (VDict []) in
  l <- Py.get jira_info (lit "labels") VNone ;;
  let labels := Py.or_ l (VList []) in
  custom_field_values <-
    for_each
      (fun acc (field : pystr * pystr) =>
         let (field_id, col_name) := field in
         field_value <- Py.get jira_info field_id VNone ;;
         s <- _format_jira_field_value field_value ;;
         Ok (Py.store col_name (VStr s) acc))
      CUSTOM_FIELDS_TO_EXPORT [] ;;
  pre <- Py.get test (lit "preconditions") VNone ;;
  res <- Py.get (Py.or_ pre (VDict [])) (lit "results") VNone ;;
  precondition_results <- Py.iter (Py.or_ res (VList [])) ;;
  lists <- for_each precondition_body precondition_results ([], []) ;;
  let (pre_titles_list, pre_defs_list) := lists : list pystr * list pystr in
  key <- Py.get jira_info (lit "key") (VStr []) ;;
  summary <- Py.get jira_info (lit "summary") (VStr []) ;;
  joined <- Py.join (lit ", ") labels ;;
  Ok (Py.store (lit "Issue Preconditions Definition")
        (VStr (PyStr.join (lit " | ") pre_defs_list))
     (Py.store (lit "Issue Preconditions (keys & titles)")
        (VStr (PyStr.join (lit "; ") pre_titles_list))
     (Py.update
        [ (lit "Test Key", key); (lit "Summary", summary);
          (lit "Labels", VStr joined) ]
        custom_field_values))).

(** Lines 178-183: the scan of a step's custom fields, with its [break]. *)
Fixpoint find_precondition (custom_fields : list pyval) : result pyval :=
  match custom_fields with
  | [] => Ok (VStr [])
  | cf :: rest =>
      hit <- (if Py.truthy cf then
                name <- Py.get cf (lit "name") (VStr []) ;;
                lowered <- Py.lower name ;;
                Ok (PyStr.eqb lowered (lit "precondition"))
              else Ok false) ;;
      if hit then
        v <- Py.get cf (lit "value") VNone ;;
        Ok (Py.or_ v (VStr []))
      else find_precondition rest
  end.

(** Lines 176-190: one step; the state is [(idx, rows)]. *)
Definition step_body (base : list (pystr * pyval)) (acc : Z * list pyval)
  (step : pyval) : result (Z * list pyval) :=
  let (idx, rows) := acc in
  cfs <- Py.get step (lit "customFields") VNone ;;
  custom_fields <- Py.iter (Py.or_ cfs (VList [])) ;;
  step_precondition <- find_precondition custom_fields ;;
  stripped <- Py.strip step_precondition ;;
  a <- Py.get step (lit "action") VNone ;;
  action <- Py.strip (Py.or_ a (VStr [])) ;;
  r <- Py.get step (lit "result") VNone ;;
  expected <- Py.strip (Py.or_ r (VStr [])) ;;
  Ok (idx + 1,
      rows ++
      [VDict (Py.update base
                [ (lit "Step #", VInt idx);
                  (lit "Step Precondition", VStr stripped);
                  (lit "Action", VStr action);
                  (lit "Expected Result", VStr expected) ])]).

(** The body of [for test in tests]. *)
Definition test_body (rows : list pyval) (test : pyval) : result (list pyval) :=
  base <- base_row test ;;
  s <- Py.get test (lit "steps") VNone ;;
  let steps := Py.or_ s (VList []) in
  if negb (Py.truthy steps) then
    Ok (rows ++
        [VDict (Py.update base
                  [ (lit "Step #", VStr []);
                    (lit "Step Precondition", VStr []);
                    (lit "Action", VStr []);
                    (lit "Expected Result", VStr []) ])])
  else
    items <- Py.iter steps ;;
    acc <- for_each (step_body base) items (1, rows) ;;
    Ok (snd acc).

Definition flatten_rows (tests : list pyval) : result (list pyval) :=
  for_each test_body tests [].

From Stdlib Require Import Sorted Permutation.

(* ================================================================== *)
(** * [get_token] *)
(* ================================================================== *)

(** The authentication endpoint: its reply to a POST of the two
    credentials. *)
Definition auth_service := pystr -> pystr -> reply.

(** Lines 64-69: the token is the JSON body, which must be a string. *)
Definition get_token (auth : auth_service) (client_id client_secret : pystr)
  : result pystr :=
  match auth client_id client_secret with
  | NoReply => Raise ConnectionError
  | Reply status body =>
      _ <- raise_for_status status ;;
      token <- resp_json body ;;
      match token with
      | VStr s => Ok s
      | _ => Raise RuntimeError
      end
  end.

(* ================================================================== *)
(** * [run_field_diagnostics] *)
(* ================================================================== *)

(** How a command ends: it completes, it calls [sys.exit(code)], or an
    exception escapes it. *)
Inductive outcome (A : Type) : Type :=
| Done (a : A)
| Exit (code : Z)
| Uncaught (e : exn).

Arguments Done {A} a.
Arguments Exit {A} code.
Arguments Uncaught {A} e.

(** The order of [str]: lexicographic on the code points. *)
Fixpoint str_compare (a b : pystr) : comparison :=
  match a, b with
  | [], [] => Eq
  | [], _ :: _ => Lt
  | _ :: _, [] => Gt
  | x :: a', y :: b' =>
      match N.compare x y with
      | Eq => str_compare a' b'
      | c => c
      end
  end.

Definition str_leb (a b : pystr) : bool :=
  match str_compare a b with
  | Gt => false
  | _ => true
  end.

(** [sorted(l)] for a list of [str]. *)
Fixpoint insert_sorted (x : pystr) (l : list pystr) : list pystr :=
  match l with
  | [] => [x]
  | y :: l' => if str_leb x y then x :: l else y :: insert_sorted x l'
  end.

Definition sorted (l : list pystr) : list pystr := fold_right insert_sorted [] l.

(** The elements of [{k for k in l}]: each string once.  (A Python set
    has no order of its own; the program sorts it before use.) *)
Fixpoint set_of (l : list pystr) : list pystr :=
  match l with
  | [] => []
  | x :: l' => if existsb (PyStr.eqb x) l' then set_of l' else x :: set_of l'
  end.

(** [x.keys()]: only a dict has the method. *)
Definition py_keys (x : pyval) : result (list pystr) :=
  match x with
  | VDict d => Ok (List.map fst d)
  | _ => Raise AttributeError
  end.

(** A dict keyed by arbitrary values (here: the test keys).  Lists and
    dicts cannot be keys; a bool and an int with the same number are the
    same key. *)
Definition hashable (k : pyval) : bool :=
  match k with
  | VList _ | VDict _ => false
  | _ => true
  end.

Definition key_eqb (a b : pyval) : bool :=
  match a, b with
  | VNone, VNone => true
  | VStr s, VStr t => PyStr.eqb s t
  | (VInt _ | VBool _), (VInt _ | VBool _) =>
      match Py.as_int a, Py.as_int b with
      | Ok x, Ok y => x =? y
      | _, _ => false
      end
  | _, _ => false
  end.

(** [row[k] = text]: an equal key keeps its place (and its first
    spelling), a new key goes last. *)
Fixpoint cell_store (k : pyval) (text : pystr) (row : list (pyval * pystr))
  : list (pyval * pystr) :=
  match row with
  | [] => [(k, text)]
  | (k', t') :: row' =>
      if key_eqb k k' then (k', text) :: row' else (k', t') :: cell_store k text row'
  end.

(** [diag_data]: field id -> (test key -> formatted value). *)
Definition diag_table := list (pystr * list (pyval * pystr)).

Fixpoint has_row (field_id : pystr) (diag : diag_table) : bool :=
  match diag with
  | [] => false
  | (f, _) :: diag' => PyStr.eqb field_id f || has_row field_id diag'
  end.

(** [diag_data[field_id][test_key] = text] on an existing row. *)
Fixpoint set_cell (field_id : pystr) (test_key : pyval) (text : pystr)
  (diag : diag_table) : diag_table :=
  match diag with
  | [] => []
  | (f, row) :: diag' =>
      if PyStr.eqb field_id f then (f, cell_store test_key text row) :: diag'
      else (f, row) :: set_cell field_id test_key text diag'
  end.

(** Lines 223-228: one field of one test. *)
Definition diagnose_field (jira_info test_key : pyval) (diag : diag_table)
  (field_id : pystr) : result diag_table :=
  let diag := if has_row field_id diag then diag else diag ++ [(field_id, [])] in
  value <- Py.get jira_info field_id VNone ;;
  text <- _format_jira_field_value value ;;
  if hashable test_key then Ok (set_cell field_id test_key text diag)
  else Raise TypeError.

(** Lines 219-228: one test. *)
Definition diagnose_test (custom_field_ids : list pystr) (diag : diag_table)
  (test : pyval) : result diag_table :=
  jira_info <- Py.get test (lit "jira") (VDict []) ;;
  test_key <- Py.get jira_info (lit "key") (VStr (lit "N/A")) ;;
  for_each (diagnose_field jira_info test_key) custom_field_ids diag.

(** Line 215: the [customfield_] keys of one test. *)
Definition custom_keys_body (acc : list pystr) (test : pyval)
  : result (list pystr) :=
  jira_info <- Py.get test (lit "jira") (VDict []) ;;
  keys <- py_keys jira_info ;;
  Ok (acc ++ filter (prefixb (lit "customfield_")) keys).

(** Lines 212-228: the table built from the sampled tests. *)
Definition field_diagnostics (tests : list pyval) : result diag_table :=
  all_custom_field_ids <- for_each custom_keys_body tests [] ;;
  let custom_field_ids := sorted (set_of all_custom_field_ids) in
  for_each (diagnose_test custom_field_ids) tests [].

(** What a run hands to the spreadsheet writer: the rows of the export
    with the columns to show and the file name, or the diagnostics
    table (for the file [field_diagnostics.xlsx]). *)
Inductive written : Type :=
| Sheet (columns : list pystr) (rows : list pyval) (file : pystr)
| Diagnostics (diag : diag_table).

(** The spreadsheet writer (pandas with openpyxl) is outside the program.
    What it does with a table is a parameter of the run: [true] when the
    workbook was built and saved, [false] when the writer raised. *)
Definition spreadsheet_writer : Type := written -> bool.

(** Lines 197-236: fetch one page of five tests, build the table and
    hand it to the spreadsheet writer. *)
Definition run_field_diagnostics (srv : service) (token jql : pystr)
  (writer : spreadsheet_writer) : outcome diag_table * list request :=
  let (page, log) := get_tests_page srv token jql 5 0 [] in
  match (data <- page ;;
         results <- Py.get data (lit "results") VNone ;;
         Ok (Py.or_ results (VList []))) with
  | Raise _ => (Exit 1, log)                     (* except Exception: sys.exit(1) *)
  | Ok tests =>
      if negb (Py.truthy tests) then (Exit 1, log)
      else
        match (items <- Py.iter tests ;; field_diagnostics items) with
        | Ok diag =>
            if writer (Diagnostics diag) then (Done diag, log)
            else (Uncaught WriterError, log)
        | Raise e => (Uncaught e, log)
        end
  end.

(* ================================================================== *)
(** * [main] *)
(* ================================================================== *)

(** The three environment variables ([None]: not set) and the
    command-line arguments. *)
Record environment : Type := {
  XRAY_CLIENT_ID : option pystr;
  XRAY_CLIENT_SECRET : option pystr;
  JIRA_JQL : option pystr
}.

Record arguments : Type := {
  outfile : pystr;
  limit_arg : Z;
  diagnose_fields : bool
}.

(** [s.strip(chars)] *)
Fixpoint lstrip_chars (chars s : pystr) : pystr :=
  match s with
  | c :: s' => if existsb (N.eqb c) chars then lstrip_chars chars s' else s
  | [] => []
  end.

Definition strip_chars (chars s : pystr) : pystr :=
  rev (lstrip_chars chars (rev (lstrip_chars chars s))).

(** [os.getenv(name) or EMPTY], EMPTY the empty string *)
Definition getenv_or_empty (v : option pystr) : pystr :=
  match v with
  | Some s => s
  | None => []
  end.

(** The two quote characters: the apostrophe (39) and the double
    quote (34). *)
Definition quotes : pystr := [39; 34]%N.

(** Lines 251-252: a credential, blanks and quotes around it removed. *)
Definition clean_credential (v : option pystr) : pystr :=
  strip_chars quotes (PyStr.strip (getenv_or_empty v)).

(** Lines 280-286: the columns of the sheet. *)
Definition sheet_columns : list pystr :=
  [lit "Test Key"; lit "Summary"; lit "Labels"]
  ++ List.map snd CUSTOM_FIELDS_TO_EXPORT
  ++ [ lit "Step #"; lit "Step Precondition"; lit "Action"; lit "Expected Result";
       lit "Issue Preconditions (keys & titles)";
       lit "Issue Preconditions Definition" ].

(** Lines 293-300: the width of a column from the values of its cells
    (the header cell included). *)
Definition cell_text (v : pyval) : pystr :=
  match v with
  | VNone => []
  | _ => Py.str v
  end.

Definition column_width (cells : list pyval) : Z :=
  let max_len :=
    fold_left
      (fun max_len c =>
         let v := cell_text c in
         if Z.of_nat (List.length v) >? max_len then Z.of_nat (List.length v)
         else max_len)
      cells 10 in
  Z.min (max_len + 2) 80.

(** What a run did to the outside: the credentials it posted to the
    authentication endpoint and the requests it sent to the GraphQL
    endpoint. *)
Record traffic : Type := {
  auth_calls : list (pystr * pystr);
  requests : list request
}.

(** Lines 242-302.  [Done w]: the writer wrote [w] and the run ended
    normally (in diagnostics mode through [sys.exit(0)]).  An exception
    of the writer escapes, like the others.  [None]: the pagination loop
    was still running when the fuel ran out. *)
Definition main (fuel : nat) (env : environment) (args : arguments)
  (auth : auth_service) (srv : service) (writer : spreadsheet_writer)
  : option (outcome written * traffic) :=
  let client_id := clean_credential (XRAY_CLIENT_ID env) in
  let client_secret := clean_credential (XRAY_CLIENT_SECRET env) in
  let jql := PyStr.strip (getenv_or_empty (JIRA_JQL env)) in
  if negb (nonempty client_id) || negb (nonempty client_secret) then
    Some (Exit 1, {| auth_calls := []; requests := [] |})
  else if negb (nonempty jql) then
    Some (Exit 1, {| auth_calls := []; requests := [] |})
  else
    let posted := [(client_id, client_secret)] in
    match get_token auth client_id client_secret with
    | Raise e => Some (Uncaught e, {| auth_calls := posted; requests := [] |})
    | Ok token =>
        if diagnose_fields args then
          let (o, log) := run_field_diagnostics srv token jql writer in
          Some (match o with
                | Done diag => Done (Diagnostics diag)
                | Exit code => Exit code
                | Uncaught e => Uncaught e
                end,
                {| auth_calls := posted; requests := log |})
        else
          match fetch_all_tests fuel srv token jql (limit_arg args) with
          | None => None
          | Some (Raise e, log) =>
              Some (Uncaught e, {| auth_calls := posted; requests := log |})
          | Some (Ok tests, log) =>
              match flatten_rows tests with
              | Raise e =>
                  Some (Uncaught e, {| auth_calls := posted; requests := log |})
              | Ok rows =>
                  let sheet := Sheet sheet_columns rows (outfile args) in
                  Some (if writer sheet then Done sheet
                        else Uncaught WriterError,
                        {| auth_calls := posted; requests := log |})
              end
          end
    end.

(** Lines 304-316: the exit status of the process. *)
Definition exit_status {A : Type} (o : outcome A) : Z :=
  match o with
  | Done _ => 0
  | Exit code => code
  | Uncaught HTTPError => 1
  | Uncaught _ => 2
  end.

(* ================================================================== *)
(** * Notions the properties are stated with *)
(* ================================================================== *)

(** A mapping with a [value] key: a single labelled choice. *)
Definition has_value_key (v : pyval) : bool :=
  match v with
  | VDict d => match Py.lookup (lit "value") d with Some _ => true | None => false end
  | _ => false
  end.

(** A plain scalar: a number, a boolean or a text. *)
Definition is_scalar (v : pyval) : bool :=
  match v with
  | VBool _ | VInt _ | VStr _ => true
  | _ => false
  end.

(** What an element of a multi-choice list contributes: the string form
    of its [value] if it is a choice mapping, else its own string form. *)
Definition item_text (item : pyval) : pystr :=
  match item with
  | VDict d =>
      match Py.lookup (lit "value") d with
      | Some x => Py.str x
      | None => Py.str item
      end
  | _ => Py.str item
  end.

(** A word: at least one code point, none of them a space. *)
Definition is_word (w : pystr) : bool :=
  nonempty w && forallb (fun c => negb (is_space c)) w.

(** Every space of the string is a plain U+0020 and the next code point
    exists and is not a space. *)
Fixpoint single_spaced (s : pystr) : bool :=
  match s with
  | [] => true
  | c :: s' =>
      (if is_space c
       then N.eqb c 32 &&
            match s' with
            | [] => false
            | d :: _ => negb (is_space d)
            end
       else true)
      && single_spaced s'
  end.

(** A whitespace-normalized string: no space at either end, and between
    two words exactly one plain space. *)
Definition is_normalized (s : pystr) : bool :=
  match s with
  | [] => true
  | c :: _ => negb (is_space c)
  end && single_spaced s.

(** ** The shape of a Record

    The flattener reads decoded JSON.  A _Record_ of the data model is a
    mapping whose members, when present and not empty, have the types
    the data model gives them: [jira] a mapping with [labels] a list of
    texts; [preconditions.results] a list of Preconditions, each with
    [jira] a mapping and [definition] a text; [steps] a list of Steps,
    each a mapping with [action] and [result] texts and [customFields] a
    list of named fields.  A member that is absent is read as [None]. *)

Definition member (d : list (pystr * pyval)) (k : string) : pyval :=
  match Py.lookup (lit k) d with
  | Some v => v
  | None => VNone
  end.

(** Empty (absent, [None], "", [], {}, 0, False) or of the given shape. *)
Definition empty_or (shape : pyval -> bool) (v : pyval) : bool :=
  negb (Py.truthy v) || shape v.

Definition nonempty_list (l : list pyval) : bool :=
  match l with [] => false | _ => true end.

Definition is_text (v : pyval) : bool :=
  match v with VStr _ => true | _ => false end.

Definition is_mapping (v : pyval) : bool :=
  match v with VDict _ => true | _ => false end.

Definition list_of (shape : pyval -> bool) (v : pyval) : bool :=
  match v with VList l => forallb shape l | _ => false end.

(** The text of a member: its string, or "" when it is empty. *)
Definition text_of (v : pyval) : pystr :=
  match v with VStr s => s | _ => [] end.

(** Equality of two texts up to the case of the ASCII letters. *)
Definition is_upper (c : char) : bool := ((65 <=? c) && (c <=? 90))%N.

Definition same_letter (x y : char) : bool :=
  ((x =? y) || (is_upper x && (y =? x + 32)) || (is_upper y && (x =? y + 32)))%N.

Fixpoint caseless_eqb (a b : pystr) : bool :=
  match a, b with
  | [], [] => true
  | x :: a', y :: b' => same_letter x y && caseless_eqb a' b'
  | _, _ => false
  end.

(** A custom field of a step that is named "precondition", in any case. *)
Definition names_precondition (cf : pyval) : bool :=
  match cf with
  | VDict d =>
      match Py.lookup (lit "name") d with
      | Some (VStr n) => caseless_eqb n (lit "precondition")
      | _ => false
      end
  | _ => false
  end.

(** A custom field: a mapping whose [name], if present, is a text, and
    whose [value] is a text or empty when the field is named
    "precondition" (any value otherwise). *)
Definition field_ok (cf : pyval) : bool :=
  match cf with
  | VDict d =>
      match Py.lookup (lit "name") d with
      | None => true
      | Some (VStr _) =>
          if names_precondition cf
          then empty_or is_text (member d "value")
          else true
      | Some _ => false
      end
  | _ => false
  end.

Definition step_ok (step : pyval) : bool :=
  match step with
  | VDict d =>
      empty_or (list_of (empty_or field_ok)) (member d "customFields")
      && empty_or is_text (member d "action")
      && empty_or is_text (member d "result")
  | _ => false
  end.

Definition precondition_ok (p : pyval) : bool :=
  match p with
  | VDict d =>
      empty_or is_mapping (member d "jira")
      && empty_or is_text (member d "definition")
  | _ => false
  end.

Definition jira_ok (j : pyval) : bool :=
  match j with
  | VDict d => empty_or (list_of is_text) (member d "labels")
  | _ => false
  end.

Definition preconditions_ok (p : pyval) : bool :=
  match p with
  | VDict d => empty_or (list_of (empty_or precondition_ok)) (member d "results")
  | _ => false
  end.

Definition record_ok (test : pyval) : bool :=
  match test with
  | VDict d =>
      empty_or jira_ok (member d "jira")
      && empty_or preconditions_ok (member d "preconditions")
      && empty_or (list_of step_ok) (member d "steps")
  | _ => false
  end.

(** The Steps of a Record and the custom fields of a Step, in order. *)
Definition items_of (v : pyval) : list pyval :=
  match v with VList l => l | _ => [] end.

Definition steps_of (test : pyval) : list pyval :=
  match test with
  | VDict d => items_of (member d "steps")
  | _ => []
  end.

Definition custom_fields_of (step : pyval) : list pyval :=
  match step with
  | VDict d => items_of (member d "customFields")
  | _ => []
  end.

Definition member_text (v : pyval) (k : string) : pystr :=
  match v with
  | VDict d => text_of (member d k)
  | _ => []
  end.

(** The Step Precondition the specification asks for: the trimmed value
    of the first custom field named "precondition", "" if there is none. *)
Definition first_precondition (step : pyval) : pystr :=
  match find names_precondition (custom_fields_of step) with
  | Some cf => PyStr.strip (member_text cf "value")
  | None => []
  end.

(** ** The record-level columns of a Record *)

(** The [jira] mapping of a test (empty when absent or null). *)
Definition jira_of (test : pyval) : list (pystr * pyval) :=
  match test with
  | VDict d =>
      match Py.or_ (member d "jira") (VDict []) with
      | VDict jd => jd
      | _ => []
      end
  | _ => []
  end.

Definition labels_of (test : pyval) : list pyval :=
  items_of (member (jira_of test) "labels").

Definition issue_preconditions_of (test : pyval) : list pyval :=
  match test with
  | VDict d =>
      match Py.or_ (member d "preconditions") (VDict []) with
      | VDict pd => items_of (member pd "results")
      | _ => []
      end
  | _ => []
  end.

(** A member read with the default "" ([d.get(k, "")]): the default
    stands in only for a missing key, not for a null. *)
Definition member_or_empty (d : list (pystr * pyval)) (k : string) : pyval :=
  match Py.lookup (lit k) d with
  | Some v => v
  | None => VStr []
  end.

(** The title "KEY - summary" of an issue precondition, when it has both
    a key and a summary. *)
Definition precondition_title (p : pyval) : option pystr :=
  match p with
  | VDict d =>
      match Py.or_ (member d "jira") (VDict []) with
      | VDict jd =>
          if Py.truthy (member jd "key") && Py.truthy (member jd "summary")
          then Some (Py.str (member jd "key") ++ lit " - "
                     ++ Py.str (member jd "summary"))
          else None
      | _ => None
      end
  | _ => None
  end.

(** The normalized definition of an issue precondition, when it has one. *)
Definition precondition_definition (p : pyval) : option pystr :=
  match p with
  | VDict d =>
      if Py.truthy (member d "definition")
      then Some (PyStr.join (lit " ") (PyStr.split (text_of (member d "definition"))))
      else None
  | _ => None
  end.

Definition opt_list {A : Type} (o : option A) : list A :=
  match o with Some x => [x] | None => [] end.

(** The values [f] gives on a list, in order, skipping the [None]s. *)
Definition choose {A B : Type} (f : A -> option B) (l : list A) : list B :=
  flat_map (fun x => opt_list (f x)) l.

(** The formatted text of a custom-field value. *)
Definition formatted (v : pyval) : pystr :=
  match _format_jira_field_value v with
  | Ok s => s
  | Raise _ => []
  end.

(** The seven record-level columns of a Record, in the order of the
    row: the issue's key and summary, the joined labels, the formatted
    custom fields, the joined titles and the joined normalized
    definitions of the issue preconditions. *)
Definition record_columns (test : pyval) : list (pystr * pyval) :=
  [ (lit "Test Key", member_or_empty (jira_of test) "key");
    (lit "Summary", member_or_empty (jira_of test) "summary");
    (lit "Labels",
     VStr (PyStr.join (lit ", ") (List.map text_of (labels_of test))));
    (lit "Components",
     VStr (formatted (member (jira_of test) "customfield_10138")));
    (lit "Custom Field 2",
     VStr (formatted (member (jira_of test) "customfield_10167")));
    (lit "Issue Preconditions (keys & titles)",
     VStr (PyStr.join (lit "; ")
             (choose precondition_title (issue_preconditions_of test))));
    (lit "Issue Preconditions Definition",
     VStr (PyStr.join (lit " | ")
             (choose precondition_definition (issue_preconditions_of test)))) ].

(** The four step columns of a row. *)
Definition step_columns : list pystr :=
  [lit "Step #"; lit "Step Precondition"; lit "Action"; lit "Expected Result"].

Definition column (row : pyval) (k : string) : option pyval :=
  match row with
  | VDict d => Py.lookup (lit k) d
  | _ => None
  end.

(** [row] has the record-level columns of [base]. *)
Definition shares_base (base : list (pystr * pyval)) (row : pyval) : Prop :=
  exists d, row = VDict d /\
    forall k, ~ In k step_columns -> Py.lookup k d = Py.lookup k base.

(** [row] is the row of step number [idx] (from 1) of a Record. *)
Definition row_of_step (base : list (pystr * pyval)) (idx : Z) (step row : pyval)
  : Prop :=
  shares_base base row /\
  column row "Step #" = Some (VInt idx) /\
  column row "Step Precondition" = Some (VStr (first_precondition step)) /\
  column row "Action" = Some (VStr (PyStr.strip (member_text step "action"))) /\
  column row "Expected Result"
    = Some (VStr (PyStr.strip (member_text step "result"))).

(** [row] is the single row of a Record without steps. *)
Definition row_without_step (base : list (pystr * pyval)) (row : pyval) : Prop :=
  shares_base base row /\
  column row "Step #" = Some (VStr []) /\
  column row "Step Precondition" = Some (VStr []) /\
  column row "Action" = Some (VStr []) /\
  column row "Expected Result" = Some (VStr []).

(** [block] is what one Record contributes to the output: one row
    without step for a Record without steps, else one row per step, in
    step order, numbered from 1; every row has the record-level columns
    of the Record, [record_columns]. *)
Definition block_of (test : pyval) (block : list pyval) : Prop :=
  match steps_of test with
  | [] => exists row, block = [row] /\ row_without_step (record_columns test) row
  | steps =>
      List.length block = List.length steps /\
      forall i step, nth_error steps i = Some step ->
        exists row, nth_error block i = Some row /\
                    row_of_step (record_columns test) (Z.of_nat i + 1) step row
  end.

(** ** Sample documents *)

Definition txt (s : string) : pyval := VStr (lit s).

Definition obj (members : list (string * pyval)) : pyval :=
  VDict (List.map (fun m => (lit (fst m), snd m)) members).

Open Scope string_scope.

(** The Record of the end-to-end example: TEST-1 with two steps. *)
Definition sample_record : pyval :=
  obj [ ("jira", obj [ ("key", txt "TEST-1"); ("summary", txt "Login works");
                       ("labels", VList [txt "smoke"; txt "ui"]) ]);
        ("steps", VList
           [ obj [ ("action", txt "Enter user"); ("result", txt "See dashboard") ];
             obj [ ("action", txt "Click logout"); ("result", txt "See login page") ] ]);
        ("preconditions", obj [ ("results", VList []) ]) ].

(** A Record without steps, with two issue preconditions and a
    multi-choice custom field. *)
Definition sample_record_no_steps : pyval :=
  obj [ ("jira", obj [ ("key", txt "TEST-2"); ("summary", txt "Empty");
                       ("customfield_10138",
                        VList [ obj [("value", txt "API")]; obj [("value", txt "")];
                                obj [("value", txt "UI")] ]) ]);
        ("steps", VNone);
        ("preconditions", obj [ ("results", VList
           [ obj [ ("jira", obj [("key", txt "PRE-1"); ("summary", txt "User exists")]);
                   ("definition", txt "  a user
   exists ") ];
             VNone;
             obj [ ("definition", txt "db is up") ] ]) ]) ].

(** A step with three custom fields, two of them named "precondition"
    in different cases. *)
Definition sample_step : pyval :=
  obj [ ("action", txt " Open page ");
        ("result", VNone);
        ("customFields", VList
           [ obj [ ("name", txt "Other"); ("value", VInt 5) ];
             obj [ ("name", txt "PRECONDITION"); ("value", txt "  logged in ") ];
             obj [ ("name", txt "precondition"); ("value", txt "second") ] ]) ].

Definition step_named (name : string) : pyval :=
  obj [ ("customFields", VList [ obj [ ("name", txt name); ("value", txt "p") ] ]) ].

Close Scope string_scope.

(** The Step Precondition column [step_body] computes for a step alone. *)
Definition step_precondition_column (step : pyval) : option pyval :=
  match step_body [] (1, []) step with
  | Ok (_, [row]) => column row "Step Precondition"
  | _ => None
  end.

(** ** Pages, traces and sample services *)

Definition the_request (token jql : pystr) (limit start : Z) : request :=
  {| req_token := token; req_jql := jql; req_limit := limit; req_start := start |}.

(** What [gql(...)["getTests"]] makes of the reply to request number [n]. *)
Definition page_at (srv : service) (n : nat) (rq : request) : result pyval :=
  data <- gql_decode (srv n rq) ;;
  Py.getitem data (lit "getTests").

(** The limit a page reports ([limit] when it reports none), as a number. *)
Definition reported_limit (limit : Z) (data : pyval) : result Z :=
  step <- Py.get data (lit "limit") (VInt limit) ;;
  Py.as_int step.

(** A page without records: [results] is absent, null or empty. *)
Definition no_records (data : pyval) : Prop :=
  exists r, Py.get data (lit "results") VNone = Ok r /\ Py.truthy r = false.





(** Every page of the service advances the offset: the limit it reports
    for a request with the given limit, when it is a number, is at
    least 1. *)
Definition advancing (srv : service) (limit : Z) : Prop :=
  forall n rq data step,
    req_limit rq = limit ->
    page_at srv n rq = Ok data ->
    reported_limit limit data = Ok step ->
    1 <= step.

(** Every page that carries records advances the offset: the limit it
    reports for a request with the given limit, when it is a number, is
    at least 1.  Nothing is asked of a page without records. *)
Definition advancing_with_records (srv : service) (limit : Z) : Prop :=
  forall n rq data results step,
    req_limit rq = limit ->
    page_at srv n rq = Ok data ->
    Py.get data (lit "results") VNone = Ok results ->
    Py.truthy results = true ->
    reported_limit limit data = Ok step ->
    1 <= step.

Open Scope string_scope.

(** The record number [i] of the remote collection. *)
Definition record_no (i : Z) : pyval := obj [("id", VInt i)].

Definition records_from (start count : Z) : list pyval :=
  List.map (fun k => record_no (start + Z.of_nat k)) (seq 0 (Z.to_nat count)).

(** A successful reply carrying one page. *)
Definition page_reply (total limit start : Z) (results : list pyval) : reply :=
  Reply 200
    (Some (obj [("data",
      obj [("getTests",
        obj [ ("total", VInt total); ("start", VInt start);
              ("limit", VInt limit); ("results", VList results) ])])])).

(** A service over [available] records that reports [total] records and
    serves pages of at most [cap] records, whatever larger limit is
    requested. *)
Definition paging_server (total available cap : Z) : service :=
  fun _ rq =>
    let limit := Z.min cap (req_limit rq) in
    page_reply total limit (req_start rq)
      (records_from (req_start rq)
                    (Z.min limit (available - req_start rq))).

(** The service that honours the requested limit. *)
Definition honest_server (total : Z) : service :=
  fun n rq => paging_server total total (req_limit rq) n rq.

(** A service that reports 250 records but has only 100. *)
Definition short_server : service :=
  fun n rq => paging_server 250 100 (req_limit rq) n rq.

(** A service that reports 250 records and a limit of 3 on its page at
    offset 0, which has three records; every other page is empty and
    reports the limit 0, so the offset no longer moves. *)
Definition drying_server : service :=
  fun _ rq =>
    if (req_start rq =? 0)%Z then page_reply 250 3 0 (records_from 0 3)
    else page_reply 250 0 (req_start rq) [].

(** A service that keeps sending one record and reports the limit 0. *)
Definition stuck_server : service :=
  fun _ rq => page_reply 2 0 (req_start rq) [record_no 0].

(** Services that fail: no reply at all; 401 on every request; a GraphQL
    error document; a body that is not JSON. *)
Definition down_server : service := fun _ _ => NoReply.

Definition unauthorized_server : service := fun _ _ => Reply 401 None.

Definition graphql_error_server : service :=
  fun _ _ => Reply 200 (Some (obj [("errors", VList [txt "bad jql"])])).

Definition garbage_server : service := fun _ _ => Reply 200 None.

(** The honest service, except that request number [k] gets a 500. *)
Definition failing_at (k : nat) (total : Z) : service :=
  fun n rq => if Nat.eqb n k then Reply 500 None else honest_server total n rq.

Close Scope string_scope.

(** ** Further notions: what a run collects *)

(** The records the page of request number [n] contributes: the items of
    its [results], none when the page did not arrive or has no usable
    [results]. *)
Definition page_items (srv : service) (n : nat) (rq : request) : list pyval :=
  match page_at srv n rq with
  | Ok data =>
      match Py.get data (lit "results") VNone with
      | Ok results =>
          match Py.iter (Py.or_ results (VList [])) with
          | Ok items => items
          | Raise _ => []
          end
      | Raise _ => []
      end
  | Raise _ => []
  end.

(** The records of all the pages of a log, in request order; [n] is the
    number of the first request of [log]. *)
Fixpoint collected (srv : service) (n : nat) (log : list request) : list pyval :=
  match log with
  | [] => []
  | rq :: rest => page_items srv n rq ++ collected srv (S n) rest
  end.

(** A request of the run for [token], [jql] and [limit]: only its offset
    is free. *)
Definition request_of (token jql : pystr) (limit : Z) (rq : request) : Prop :=
  req_token rq = token /\ req_jql rq = jql /\ req_limit rq = limit.

Open Scope string_scope.

(** A service whose first page reports no total but carries a record. *)
Definition untotalled_server : service :=
  fun _ _ =>
    Reply 200
      (Some (obj [("data", obj [("getTests",
         obj [ ("limit", VInt 100); ("results", VList [record_no 0]) ])])])).

(** A service whose [getTests] member is null. *)
Definition null_page_server : service :=
  fun _ _ => Reply 200 (Some (obj [("data", obj [("getTests", VNone)])])).

Close Scope string_scope.

(** A status [raise_for_status] lets through. *)
Definition status_ok (status : Z) : Prop := status < 400 \/ 600 <= status.

Open Scope string_scope.

(** A reply to a GraphQL POST with both [data] and [errors]. *)
Definition partial_error_reply : reply :=
  Reply 200 (Some (obj [ ("data", obj [("getTests", VNone)]);
                         ("errors", VList [txt "timeout"]) ])).

(** Authentication endpoints: one that issues a token, one that answers
    200 with an error document. *)
Definition granting_auth : auth_service :=
  fun _ _ => Reply 200 (Some (txt "eyJhbGciOi"))%string.

Definition refusing_auth : auth_service :=
  fun _ _ => Reply 200 (Some (obj [("error", txt "Invalid client")])).

Close Scope string_scope.

Open Scope string_scope.

(** Ill-typed records: a label that is a number, a step whose
    "precondition" field holds a number. *)
Definition record_with_numeric_label : pyval :=
  obj [ ("jira", obj [ ("key", txt "TEST-3"); ("labels", VList [VInt 7]) ]) ].

Definition record_with_numeric_precondition : pyval :=
  obj [ ("jira", obj [ ("key", txt "TEST-4") ]);
        ("steps", VList
           [ obj [ ("action", txt "a");
                   ("customFields", VList
                      [ obj [ ("name", txt "Precondition"); ("value", VInt 5) ] ]) ] ]) ].

Close Scope string_scope.

(** ** The shape of a row *)

(** The record-level columns, in the order [base_row] writes them; the
    three joined columns and the two custom-field columns are texts. *)
Definition base_shape (base : list (pystr * pyval)) : Prop :=
  exists key summary labels c1 c2 titles defs,
    base = [ (lit "Test Key", key); (lit "Summary", summary);
             (lit "Labels", VStr labels);
             (lit "Components", VStr c1); (lit "Custom Field 2", VStr c2);
             (lit "Issue Preconditions (keys & titles)", VStr titles);
             (lit "Issue Preconditions Definition", VStr defs) ].

(** A row: the seven record-level columns, then the four step columns;
    Step # is a number from 1 or the empty text, the other step columns
    are texts. *)
Definition row_shape (row : pyval) : Prop :=
  exists key summary labels c1 c2 titles defs number pre action expected,
    row = VDict
            [ (lit "Test Key", key); (lit "Summary", summary);
              (lit "Labels", VStr labels);
              (lit "Components", VStr c1); (lit "Custom Field 2", VStr c2);
              (lit "Issue Preconditions (keys & titles)", VStr titles);
              (lit "Issue Preconditions Definition", VStr defs);
              (lit "Step #", number); (lit "Step Precondition", VStr pre);
              (lit "Action", VStr action); (lit "Expected Result", VStr expected) ]
    /\ (number = VStr [] \/ exists i, 1 <= i /\ number = VInt i).

(** ** Further sample documents *)

Open Scope string_scope.

(** An issue whose key is null and which has no summary. *)
Definition record_with_null_key : pyval :=
  obj [ ("jira", obj [ ("key", VNone) ]) ].

Close Scope string_scope.

(** ** The diagnostics table *)

Definition str_lt (a b : pystr) : Prop := str_compare a b = Lt.

(** [f] is a [customfield_] key of the [jira] mapping of one of the tests. *)
Definition observed_field (tests : list pyval) (f : pystr) : Prop :=
  prefixb (lit "customfield_") f = true /\
  exists test jira keys,
    In test tests /\
    Py.get test (lit "jira") (VDict []) = Ok jira /\
    py_keys jira = Ok keys /\
    In f keys.

Open Scope string_scope.

Definition diag_test_1 : pyval :=
  obj [("jira", obj [ ("key", txt "T-1"); ("customfield_2", txt "b");
                      ("summary", txt "x");
                      ("customfield_10", obj [("value", txt "High")]) ])].

Definition diag_test_2 : pyval :=
  obj [("jira", obj [ ("key", txt "T-2"); ("customfield_1", VInt 3);
                      ("customfield_2", VNone) ])].

Close Scope string_scope.

(** What the diagnostics read of a test: its [jira] mapping, its key
    ("N/A" when it has none) and the value of a field (null when it has
    none). *)
Definition diag_jira (test : pyval) : pyval :=
  match Py.get test (lit "jira") (VDict []) with
  | Ok j => j
  | Raise _ => VNone
  end.

Definition diag_key (test : pyval) : pyval :=
  match Py.get (diag_jira test) (lit "key") (VStr (lit "N/A")) with
  | Ok k => k
  | Raise _ => VNone
  end.

Definition diag_value (test : pyval) (field_id : pystr) : pyval :=
  match Py.get (diag_jira test) field_id VNone with
  | Ok v => v
  | Raise _ => VNone
  end.

(** Reading the table: [diag_data[f]] and [row[k]]. *)
Fixpoint table_lookup (f : pystr) (diag : diag_table)
  : option (list (pyval * pystr)) :=
  match diag with
  | [] => None
  | (g, row) :: diag' => if PyStr.eqb f g then Some row else table_lookup f diag'
  end.

Fixpoint cell_lookup (k : pyval) (row : list (pyval * pystr)) : option pystr :=
  match row with
  | [] => None
  | (k', text) :: row' => if key_eqb k k' then Some text else cell_lookup k row'
  end.

(** The row of a field: the formatted value of each test, stored under
    the test's key, in test order. *)
Definition row_of_field (tests : list pyval) (f : pystr) (start : list (pyval * pystr))
  : list (pyval * pystr) :=
  fold_left
    (fun row test => cell_store (diag_key test) (formatted (diag_value test f)) row)
    tests start.

Definition row_or_empty (f : pystr) (diag : diag_table) : list (pyval * pystr) :=
  match table_lookup f diag with
  | Some row => row
  | None => []
  end.

(** ** Errors of the flattener *)

(** The two errors of dynamic typing: a method the value does not have,
    an operation its type does not support. *)
Definition typing_error (e : exn) : Prop := e = AttributeError \/ e = TypeError.

(** ** Runs of [main] *)

(** The cleaned configuration of a run. *)
Definition client_id_of (env : environment) : pystr :=
  clean_credential (XRAY_CLIENT_ID env).

Definition client_secret_of (env : environment) : pystr :=
  clean_credential (XRAY_CLIENT_SECRET env).

Definition jql_of (env : environment) : pystr :=
  PyStr.strip (getenv_or_empty (JIRA_JQL env)).

(** The limit of the requests of a run: 5 in diagnostics mode, the
    [--limit] argument otherwise. *)
Definition request_limit (args : arguments) : Z :=
  if diagnose_fields args then 5 else limit_arg args.

(** Two writers: one saves every workbook; the other raises on every
    one, as with an output directory that cannot be written. *)
Definition saving_writer : spreadsheet_writer := fun _ => true.

Definition failing_writer : spreadsheet_writer := fun _ => false.

Definition sample_env : environment :=
  {| XRAY_CLIENT_ID := Some (lit " 'abcd1234' ");
     XRAY_CLIENT_SECRET := Some (lit "s3cret");
     JIRA_JQL := Some (lit " project = X ") |}.


Definition export_args : arguments :=
  {| outfile := lit "xray_tests.xlsx"; limit_arg := 100; diagnose_fields := false |}.

Definition diagnose_args : arguments :=
  {| outfile := lit "xray_tests.xlsx"; limit_arg := 100; diagnose_fields := true |}.

(** A quote character. *)
Definition is_quote (c : char) : bool := existsb (N.eqb c) quotes.

(** The first and the last code point of a text. *)
Definition first_char (s : pystr) : option char :=
  match s with c :: _ => Some c | [] => None end.

Definition last_char (s : pystr) : option char := first_char (rev s).

Definition not_quote (o : option char) : Prop :=
  match o with Some c => is_quote c = false | None => True end.

(* ================================================================== *)
(** * Basic facts *)
(* ================================================================== *)

Lemma pystr_eqb_eq (a b : pystr) : PyStr.eqb a b = true <-> a = b.
Proof.
  revert b; induction a as [|x a IH]; intros [|y b]; simpl; split;
    try congruence; try reflexivity.
  - intros H. apply andb_true_iff in H as [Hx Hab].
    apply N.eqb_eq in Hx. apply IH in Hab. congruence.
  - intros H. injection H as -> ->.
    rewrite N.eqb_refl. simpl. apply IH. reflexivity.
Qed.

Lemma pystr_eqb_refl (a : pystr) : PyStr.eqb a a = true.
Proof. apply pystr_eqb_eq. reflexivity. Qed.

Lemma pystr_eqb_neq (a b : pystr) : PyStr.eqb a b = false <-> a <> b.
Proof.
  split.
  - intros H E. apply pystr_eqb_eq in E. congruence.
  - intros H. destruct (PyStr.eqb a b) eqn:E; [|reflexivity].
    apply pystr_eqb_eq in E. contradiction.
Qed.

(** A loop that only appends one computed item per round is a [map]. *)
Lemma for_each_append {A B : Type} (body : list B -> A -> result (list B))
  (f : A -> B) (xs : list A) :
  (forall acc x, body acc x = Ok (acc ++ [f x])) ->
  forall acc, for_each body xs acc = Ok (acc ++ List.map f xs).
Proof.
  intros Hbody. induction xs as [|x xs IH]; intros acc; simpl.
  - rewrite app_nil_r. reflexivity.
  - rewrite Hbody. simpl. rewrite IH, <- app_assoc. reflexivity.
Qed.

(** The string primitives on small inputs. *)
Example lit_abc : lit "abc" = [97; 98; 99]%N.
Proof. reflexivity. Qed.

Example of_Z_samples :
  of_Z 0 = lit "0" /\ of_Z 250 = lit "250" /\ of_Z (-5) = lit "-5".
Proof. repeat split; reflexivity. Qed.

Example split_sample :
  split (lit "  a  b c ") = [lit "a"; lit "b"; lit "c"].
Proof. reflexivity. Qed.

Example strip_sample : strip (lit "  a  b ") = lit "a  b".
Proof. reflexivity. Qed.

Example repr_samples :
  repr (lit "a'b") = [34; 97; 39; 98; 34]%N /\
  repr (lit "ab") = [39; 97; 98; 39]%N.
Proof. split; reflexivity. Qed.

Example lower_sample : PyStr.lower (lit "PreCondition 1") = lit "precondition 1".
Proof. reflexivity. Qed.

Example str_samples :
  Py.str (VList [VInt 1; VBool true; VNone; VStr (lit "x")])
    = lit "[1, True, None, 'x']" /\
  Py.str (VDict [(lit "a", VInt (-5))]) = lit "{'a': -5}" /\
  Py.str (VStr (lit "x")) = lit "x".
Proof. repeat split; reflexivity. Qed.

(* ================================================================== *)
(** * The custom-field formatter *)
(* ================================================================== *)

Lemma is_choice_spec (v : pyval) : is_choice v = Ok (has_value_key v).
Proof.
  destruct v; unfold is_choice; simpl; try reflexivity.
  all: destruct (Py.lookup _ _); reflexivity.
Qed.

Lemma format_choice (d : list (pystr * pyval)) (x : pyval) :
  Py.lookup (lit "value") d = Some x ->
  _format_jira_field_value (VDict d) = Ok (Py.str x).
Proof.
  intros H. unfold _format_jira_field_value.
  rewrite is_choice_spec. simpl. rewrite H. reflexivity.
Qed.

Lemma format_list (l : list pyval) :
  _format_jira_field_value (VList l)
  = Ok (PyStr.join (lit ", ") (filter nonempty (List.map item_text l))).
Proof.
  unfold _format_jira_field_value. rewrite is_choice_spec. simpl.
  rewrite (for_each_append _ item_text).
  - reflexivity.
  - intros acc item. rewrite is_choice_spec.
    destruct item; simpl; try reflexivity.
    destruct (Py.lookup _ _); reflexivity.
Qed.

Lemma format_other (v : pyval) :
  has_value_key v = false -> Py.isinstance_list v = false ->
  _format_jira_field_value v = Ok (if Py.truthy v then Py.str v else []).
Proof.
  intros Hc Hl. unfold _format_jira_field_value.
  rewrite is_choice_spec, Hc. simpl. rewrite Hl.
  destruct (Py.truthy v); reflexivity.
Qed.

Lemma format_total (v : pyval) : exists s, _format_jira_field_value v = Ok s.
Proof.
  destruct (has_value_key v) eqn:Hc.
  - destruct v; try discriminate. simpl in Hc.
    destruct (Py.lookup (lit "value") entries) eqn:E; [|discriminate].
    eexists. apply (format_choice _ _ E).
  - destruct (Py.isinstance_list v) eqn:Hl.
    + destruct v; try discriminate. eexists. apply format_list.
    + eexists. apply (format_other _ Hc Hl).
Qed.

(** C10: an input that is neither a mapping with a [value] key nor a list
    is formatted as the empty string whenever it is falsy; so the number
    0 and the boolean False give "" and not their string forms "0" and
    "False". *)
Theorem format_falsy_scalar_is_empty :
  (forall v, has_value_key v = false -> Py.isinstance_list v = false ->
             Py.truthy v = false ->
             _format_jira_field_value v = Ok []) /\
  _format_jira_field_value (VInt 0) = Ok [] /\
  _format_jira_field_value (VBool false) = Ok [] /\
  Py.str (VInt 0) = lit "0" /\ Py.str (VBool false) = lit "False".
Proof.
  split; [|repeat split; reflexivity].
  intros v Hc Hl Ht. rewrite (format_other _ Hc Hl), Ht. reflexivity.
Qed.

Lemma format_falsy_scalar_is_empty_witness :
  has_value_key VNone = false /\ Py.isinstance_list VNone = false /\
  Py.truthy VNone = false /\ _format_jira_field_value VNone = Ok [].
Proof.
  split; [reflexivity|]. split; [reflexivity|]. split; [reflexivity|].
  apply (proj1 format_falsy_scalar_is_empty VNone); reflexivity.
Defined.

(** C2, as stated, fails on a falsy scalar: the number 0 is a plain
    scalar, its string form is "0", and the formatter returns "". *)
Lemma format_scalar_zero_not_its_string :
  is_scalar (VInt 0) = true /\
  _format_jira_field_value (VInt 0) <> Ok (Py.str (VInt 0)).
Proof. split; [reflexivity | discriminate]. Qed.

(** C2 (amended): the formatter never raises, and: a mapping with a
    [value] key gives the string form of that value; a list gives the
    texts of its elements (for a choice mapping, the string form of its
    [value]) joined by ", " with the empty ones dropped; a truthy plain
    scalar gives its string form; every falsy input (None, "", [], {},
    and also 0 and False) gives the empty string. *)
Theorem format_discrimination_rule :
  (forall v, exists s, _format_jira_field_value v = Ok s) /\
  (forall d x, Py.lookup (lit "value") d = Some x ->
               _format_jira_field_value (VDict d) = Ok (Py.str x)) /\
  (forall l, _format_jira_field_value (VList l)
             = Ok (PyStr.join (lit ", ") (filter nonempty (List.map item_text l)))) /\
  (forall v, is_scalar v = true -> Py.truthy v = true ->
             _format_jira_field_value v = Ok (Py.str v)) /\
  (forall v, Py.truthy v = false -> _format_jira_field_value v = Ok []).
Proof.
  split; [exact format_total|].
  split; [exact format_choice|].
  split; [exact format_list|].
  split.
  - intros v Hs Ht. destruct v; try discriminate;
      rewrite format_other, Ht; reflexivity.
  - intros v Ht. destruct v as [|b|z|s|l|d].
    + reflexivity.
    + rewrite format_other, Ht; reflexivity.
    + rewrite format_other, Ht; reflexivity.
    + rewrite format_other, Ht; reflexivity.
    + destruct l; [reflexivity | discriminate].
    + destruct d; [reflexivity | discriminate].
Qed.

Lemma format_discrimination_rule_witness :
  _format_jira_field_value (VDict [(lit "value", VStr (lit "High"))])
    = Ok (lit "High") /\
  (is_scalar (VInt 7) = true /\ Py.truthy (VInt 7) = true /\
   _format_jira_field_value (VInt 7) = Ok (lit "7")) /\
  (Py.truthy (VStr []) = false /\ _format_jira_field_value (VStr []) = Ok []).
Proof.
  destruct format_discrimination_rule as (_ & Hchoice & _ & Hscalar & Hfalsy).
  split; [|split].
  - apply (Hchoice [(lit "value", VStr (lit "High"))] (VStr (lit "High"))).
    reflexivity.
  - split; [reflexivity|]. split; [reflexivity|].
    apply (Hscalar (VInt 7)); reflexivity.
  - split; [reflexivity|]. apply (Hfalsy (VStr [])); reflexivity.
Defined.

(* ================================================================== *)
(** * Whitespace normalization of a precondition definition *)
(* ================================================================== *)

Lemma join_cons (sep p : pystr) (rest : list pystr) :
  rest <> [] -> PyStr.join sep (p :: rest) = p ++ sep ++ PyStr.join sep rest.
Proof. destruct rest; [congruence | reflexivity]. Qed.

Lemma split_aux_nonspace (w cur rest : pystr) :
  forallb (fun c => negb (is_space c)) w = true ->
  split_aux cur (w ++ rest) = split_aux (rev w ++ cur) rest.
Proof.
  revert cur. induction w as [|c w IH]; intros cur Hw; simpl in *.
  - reflexivity.
  - apply andb_true_iff in Hw as [Hc Hw].
    apply negb_true_iff in Hc. rewrite Hc, IH by assumption.
    rewrite <- app_assoc. reflexivity.
Qed.

Lemma split_aux_nil_word (cur : pystr) :
  cur <> [] -> split_aux cur [] = [rev cur].
Proof. destruct cur; [congruence | reflexivity]. Qed.

Lemma split_aux_nonempty (s cur : pystr) : cur <> [] -> split_aux cur s <> [].
Proof.
  revert cur. induction s as [|c s IH]; intros cur Hcur.
  - rewrite split_aux_nil_word by assumption. discriminate.
  - simpl. destruct (is_space c).
    + destruct cur; [congruence | discriminate].
    + apply IH. discriminate.
Qed.

Lemma is_word_inv (w : pystr) :
  is_word w = true ->
  w <> [] /\ forallb (fun c => negb (is_space c)) w = true.
Proof.
  unfold is_word. intros H. apply andb_true_iff in H as [Hn Hw].
  split; [|assumption]. destruct w; [discriminate | discriminate].
Qed.

Lemma rev_nonempty {A : Type} (l : list A) : l <> [] -> rev l <> [].
Proof.
  intros H E. apply H. rewrite <- (rev_involutive l), E. reflexivity.
Qed.

(** Splitting words joined by single spaces gives the words back. *)
Lemma split_join (ws : list pystr) :
  forallb is_word ws = true -> split (PyStr.join (lit " ") ws) = ws.
Proof.
  unfold split. induction ws as [|w ws IH]; intros H.
  - reflexivity.
  - simpl in H. apply andb_true_iff in H as [Hw Hws].
    apply is_word_inv in Hw as [Hne Hns].
    destruct ws as [|w' ws].
    + simpl. rewrite <- (app_nil_r w) at 1.
      rewrite split_aux_nonspace, app_nil_r by assumption.
      rewrite split_aux_nil_word by (apply rev_nonempty; assumption).
      rewrite rev_involutive. reflexivity.
    + rewrite join_cons by discriminate.
      rewrite split_aux_nonspace, app_nil_r by assumption.
      change (lit " " ++ PyStr.join (lit " ") (w' :: ws))
        with (32%N :: PyStr.join (lit " ") (w' :: ws)).
      simpl split_aux at 1.
      destruct (rev w) eqn:E.
      * exfalso. apply (rev_nonempty w Hne E).
      * rewrite <- E, rev_involutive. f_equal. apply IH. assumption.
Qed.

(** What [split] returns are words. *)
Lemma split_aux_words (s cur : pystr) :
  forallb (fun c => negb (is_space c)) cur = true ->
  forallb is_word (split_aux cur s) = true.
Proof.
  assert (Hrev : forall cur : pystr, cur <> [] ->
            forallb (fun c => negb (is_space c)) cur = true ->
            is_word (rev cur) = true).
  { intros c Hne Hc. unfold is_word. apply andb_true_iff. split.
    - destruct (rev c) eqn:E; [|reflexivity].
      exfalso. apply (rev_nonempty c Hne E).
    - apply forallb_forall. intros x Hx. apply in_rev in Hx.
      rewrite forallb_forall in Hc. apply Hc. assumption. }
  revert cur. induction s as [|c s IH]; intros cur Hcur.
  - destruct cur as [|d cur]; [reflexivity|].
    cbn [split_aux forallb]. rewrite andb_true_r.
    apply Hrev; [discriminate | assumption].
  - cbn [split_aux]. destruct (is_space c) eqn:Ec.
    + destruct cur as [|d cur].
      * apply IH. reflexivity.
      * cbn [forallb]. apply andb_true_iff. split.
        -- apply Hrev; [discriminate | assumption].
        -- apply IH. reflexivity.
    + apply IH. cbn [forallb]. rewrite Ec. assumption.
Qed.

Lemma split_words (s : pystr) : forallb is_word (split s) = true.
Proof. apply split_aux_words. reflexivity. Qed.

(** On a normalized string, splitting and joining changes nothing. *)
Lemma join_split_aux (s cur : pystr) :
  single_spaced s = true ->
  (cur = [] -> match s with [] => True | c :: _ => is_space c = false end) ->
  PyStr.join (lit " ") (split_aux cur s) = rev cur ++ s.
Proof.
  revert cur. induction s as [|c s IH]; intros cur Hs Hstart.
  - destruct cur; [reflexivity|]. simpl split_aux. simpl PyStr.join.
    rewrite app_nil_r. reflexivity.
  - simpl in Hs. simpl split_aux. destruct (is_space c) eqn:Ec.
    + apply andb_true_iff in Hs as [Hc Hs].
      apply andb_true_iff in Hc as [Hc Hnext]. apply N.eqb_eq in Hc. subst c.
      destruct cur as [|d cur].
      { specialize (Hstart eq_refl). simpl in Hstart. congruence. }
      destruct s as [|e s]; [discriminate|].
      apply negb_true_iff in Hnext.
      rewrite join_cons.
      * rewrite IH; [reflexivity | assumption | intros _; assumption].
      * simpl split_aux. rewrite Hnext. apply split_aux_nonempty. discriminate.
    + rewrite IH.
      * simpl. rewrite <- app_assoc. reflexivity.
      * apply andb_true_iff in Hs as [_ Hs]. assumption.
      * discriminate.
Qed.

Lemma normalized_fixed (s : pystr) :
  is_normalized s = true -> PyStr.join (lit " ") (split s) = s.
Proof.
  unfold is_normalized, split. intros H.
  apply andb_true_iff in H as [Hstart Hs].
  rewrite join_split_aux; [reflexivity | assumption |].
  intros _. destruct s; [exact I|]. apply negb_true_iff. assumption.
Qed.

(** Words joined by single spaces form a normalized string. *)
Lemma single_spaced_word_then (w rest : pystr) :
  forallb (fun c => negb (is_space c)) w = true ->
  single_spaced rest = true -> single_spaced (w ++ rest) = true.
Proof.
  induction w as [|c w IH]; intros Hw Hrest; simpl in *.
  - assumption.
  - apply andb_true_iff in Hw as [Hc Hw]. apply negb_true_iff in Hc.
    rewrite Hc. simpl. apply IH; assumption.
Qed.

Lemma join_words_normalized (ws : list pystr) :
  forallb is_word ws = true ->
  is_normalized (PyStr.join (lit " ") ws) = true.
Proof.
  induction ws as [|w ws IH]; intros H.
  - reflexivity.
  - simpl in H. apply andb_true_iff in H as [Hw Hws].
    specialize (IH Hws).
    apply is_word_inv in Hw as [Hne Hns].
    destruct w as [|c w]; [congruence|].
    assert (Hc : is_space c = false).
    { simpl in Hns. apply andb_true_iff in Hns as [Hc _].
      apply negb_true_iff. assumption. }
    destruct ws as [|w' ws].
    + cbn [PyStr.join]. unfold is_normalized. cbv beta iota.
      rewrite Hc. cbn [negb andb].
      rewrite <- (app_nil_r (c :: w)).
      apply single_spaced_word_then; [assumption | reflexivity].
    + rewrite join_cons by discriminate.
      change ((c :: w) ++ lit " " ++ PyStr.join (lit " ") (w' :: ws))
        with (c :: (w ++ 32%N :: PyStr.join (lit " ") (w' :: ws))).
      unfold is_normalized. cbv beta iota. rewrite Hc. cbn [negb andb].
      change (c :: (w ++ 32%N :: PyStr.join (lit " ") (w' :: ws)))
        with ((c :: w) ++ 32%N :: PyStr.join (lit " ") (w' :: ws)).
      apply single_spaced_word_then; [assumption|].
      unfold is_normalized in IH. apply andb_true_iff in IH as [Hstart Hsingle].
      simpl in Hws. apply andb_true_iff in Hws as [Hw' _].
      apply is_word_inv in Hw' as [Hne' _].
      destruct (PyStr.join (lit " ") (w' :: ws)) as [|d rest] eqn:E.
      * exfalso. destruct w' as [|x w']; [congruence|].
        destruct ws; simpl in E; discriminate.
      * cbv beta iota in Hstart.
        change (single_spaced (32%N :: d :: rest)) with
          ((if is_space 32%N then N.eqb 32 32 && negb (is_space d) else true)
           && single_spaced (d :: rest)).
        rewrite Hsingle, Hstart. reflexivity.
Qed.

(** C8: whitespace normalization of a precondition definition is
    idempotent.  Normalizing any text gives a normalized text (single
    plain spaces between words, none at the ends), normalizing the result
    again returns it unchanged, and so does normalizing any text that is
    already in that form. *)
Theorem normalize_definition_idempotent :
  (forall s, exists n,
      normalize_definition (VStr s) = Ok n /\
      is_normalized n = true /\
      normalize_definition (VStr n) = Ok n) /\
  (forall s, is_normalized s = true -> normalize_definition (VStr s) = Ok s).
Proof.
  split.
  - intros s. exists (PyStr.join (lit " ") (split s)).
    split; [reflexivity|]. split.
    + apply join_words_normalized, split_words.
    + unfold normalize_definition. simpl.
      rewrite split_join by apply split_words. reflexivity.
  - intros s H. unfold normalize_definition. simpl.
    rewrite normalized_fixed by assumption. reflexivity.
Qed.

Lemma normalize_definition_idempotent_witness :
  is_normalized (lit "user is logged in") = true /\
  normalize_definition (VStr (lit "user is logged in"))
    = Ok (lit "user is logged in").
Proof.
  split; [reflexivity|].
  apply (proj2 normalize_definition_idempotent (lit "user is logged in")).
  reflexivity.
Defined.

(* ================================================================== *)
(** * Dictionaries *)
(* ================================================================== *)

Lemma lookup_store_same (k : pystr) (v : pyval) (d : list (pystr * pyval)) :
  Py.lookup k (Py.store k v d) = Some v.
Proof.
  induction d as [|[k' v'] d IH]; simpl.
  - rewrite pystr_eqb_refl. reflexivity.
  - destruct (PyStr.eqb k k') eqn:E; simpl.
    + rewrite pystr_eqb_refl. reflexivity.
    + rewrite E. assumption.
Qed.

Lemma lookup_store_other (k k' : pystr) (v : pyval) (d : list (pystr * pyval)) :
  k <> k' -> Py.lookup k (Py.store k' v d) = Py.lookup k d.
Proof.
  intros Hne. apply pystr_eqb_neq in Hne.
  induction d as [|[k0 v0] d IH]; simpl.
  - rewrite Hne. reflexivity.
  - destruct (PyStr.eqb k' k0) eqn:E; simpl.
    + apply pystr_eqb_eq in E. subst k0. rewrite Hne. reflexivity.
    + rewrite IH. reflexivity.
Qed.

(** Two literals that differ, decided by evaluation. *)
Ltac lit_neq := apply pystr_eqb_neq; vm_compute; reflexivity.

(** The four step columns of a row built by [{**base, "Step #": .., ..}]. *)
Lemma step_columns_of_update (base : list (pystr * pyval)) (n p a e : pyval) :
  let row := VDict (Py.update base
                      [ (lit "Step #", n); (lit "Step Precondition", p);
                        (lit "Action", a); (lit "Expected Result", e) ]) in
  shares_base base row /\
  column row "Step #" = Some n /\
  column row "Step Precondition" = Some p /\
  column row "Action" = Some a /\
  column row "Expected Result" = Some e.
Proof.
  cbv zeta. unfold Py.update, column. cbn [fold_left fst snd].
  split; [|repeat split].
  - eexists. split; [reflexivity|]. intros k Hk.
    unfold step_columns in Hk. cbn [In] in Hk.
    rewrite !lookup_store_other; [reflexivity | | | |];
      intros E; apply Hk; subst k; tauto.
  - rewrite !lookup_store_other by lit_neq. apply lookup_store_same.
  - rewrite !lookup_store_other by lit_neq. apply lookup_store_same.
  - rewrite !lookup_store_other by lit_neq. apply lookup_store_same.
  - apply lookup_store_same.
Qed.

(* ================================================================== *)
(** * Case-insensitive comparison *)
(* ================================================================== *)

Lemma lower_char_same (x y : char) :
  N.eqb (lower_char x) (lower_char y) = same_letter x y.
Proof.
  unfold lower_char, same_letter, is_upper.
  destruct (65 <=? x)%N eqn:X1, (x <=? 90)%N eqn:X2,
           (65 <=? y)%N eqn:Y1, (y <=? 90)%N eqn:Y2; cbn [andb orb];
    repeat match goal with
           | H : (_ <=? _)%N = true |- _ => apply N.leb_le in H
           | H : (_ <=? _)%N = false |- _ => apply N.leb_gt in H
           end;
    repeat match goal with
           | |- context [N.eqb ?a ?b] =>
               let E := fresh "E" in
               destruct (N.eqb a b) eqn:E;
               [apply N.eqb_eq in E | apply N.eqb_neq in E]
           end; cbn [orb]; try reflexivity; exfalso; lia.
Qed.

Lemma lower_caseless (a b : pystr) :
  PyStr.eqb (PyStr.lower a) (PyStr.lower b) = caseless_eqb a b.
Proof.
  revert b. induction a as [|x a IH]; intros [|y b]; simpl; try reflexivity.
  rewrite lower_char_same, IH. reflexivity.
Qed.

(** The test of the program, [name.lower() == "precondition"], is the
    case-insensitive comparison of the name with "precondition". *)
Lemma lower_eq_precondition (n : pystr) :
  PyStr.eqb (PyStr.lower n) (lit "precondition")
  = caseless_eqb n (lit "precondition").
Proof.
  change (lit "precondition") with (PyStr.lower (lit "precondition")) at 1.
  apply lower_caseless.
Qed.

(* ================================================================== *)
(** * Reading members of well-shaped documents *)
(* ================================================================== *)

Lemma get_member (d : list (pystr * pyval)) (k : string) :
  Py.get (VDict d) (lit k) VNone = Ok (member d k).
Proof. reflexivity. Qed.

Lemma empty_or_cases (shape : pyval -> bool) (v : pyval) :
  empty_or shape v = true ->
  Py.truthy v = false \/ (Py.truthy v = true /\ shape v = true).
Proof.
  unfold empty_or. destruct (Py.truthy v); simpl; intros H; [right | left]; auto.
Qed.

Lemma falsy_text_of (v : pyval) : Py.truthy v = false -> text_of v = [].
Proof. destruct v as [| | |s| |]; try reflexivity. destruct s; [reflexivity | discriminate]. Qed.

Lemma falsy_items_of (v : pyval) : Py.truthy v = false -> items_of v = [].
Proof. destruct v as [| | | |l|]; try reflexivity. destruct l; [reflexivity | discriminate]. Qed.

Lemma strip_text_or_empty (v : pyval) :
  empty_or is_text v = true ->
  Py.strip (Py.or_ v (VStr [])) = Ok (PyStr.strip (text_of v)).
Proof.
  intros H. unfold Py.or_.
  destruct (empty_or_cases _ _ H) as [Hf | [Ht Hs]].
  - rewrite Hf, (falsy_text_of _ Hf). reflexivity.
  - rewrite Ht. destruct v; try discriminate. reflexivity.
Qed.

Lemma iter_list_or_empty (shape : pyval -> bool) (v : pyval) :
  empty_or (list_of shape) v = true ->
  Py.iter (Py.or_ v (VList [])) = Ok (items_of v) /\
  forallb shape (items_of v) = true /\
  Py.truthy (Py.or_ v (VList [])) = nonempty_list (items_of v).
Proof.
  intros H. unfold Py.or_.
  destruct (empty_or_cases _ _ H) as [Hf | [Ht Hs]].
  - rewrite Hf, (falsy_items_of _ Hf). repeat split.
  - rewrite Ht. destruct v as [| | | |l|]; try discriminate.
    simpl in *. repeat split; assumption.
Qed.

(* ================================================================== *)
(** * The step precondition *)
(* ================================================================== *)

Lemma falsy_not_precondition (cf : pyval) :
  Py.truthy cf = false -> names_precondition cf = false.
Proof.
  destruct cf as [| | | | |d]; try reflexivity.
  destruct d; [reflexivity | discriminate].
Qed.

(** The scan with [break] finds the first field named "precondition". *)
Lemma find_precondition_first (cfs : list pyval) :
  forallb (empty_or field_ok) cfs = true ->
  find_precondition cfs
  = Ok (VStr match find names_precondition cfs with
             | Some cf => member_text cf "value"
             | None => []
             end).
Proof.
  induction cfs as [|cf cfs IH]; intros H.
  - reflexivity.
  - cbn [forallb] in H. apply andb_true_iff in H as [Hcf Hcfs].
    specialize (IH Hcfs). cbn [find_precondition find].
    destruct (empty_or_cases _ _ Hcf) as [Hf | [Ht Hok]].
    + rewrite Hf, (falsy_not_precondition _ Hf). exact IH.
    + rewrite Ht. destruct cf as [| | | | |d]; try discriminate.
      unfold field_ok in Hok. unfold names_precondition.
      unfold names_precondition in Hok.
      cbn [Py.get]. destruct (Py.lookup (lit "name") d) as [name|] eqn:En.
      * destruct name as [| | |n| |]; try discriminate.
        cbn [bind Py.lower]. rewrite lower_eq_precondition.
        destruct (caseless_eqb n (lit "precondition")) eqn:Ec.
        -- cbn [bind]. unfold member_text.
           destruct (empty_or_cases _ _ Hok) as [Hvf | [Hvt Hvs]].
           ++ unfold member in *.
              destruct (Py.lookup (lit "value") d) as [v|]; cbn [bind].
              ** unfold Py.or_. rewrite Hvf, (falsy_text_of _ Hvf). reflexivity.
              ** reflexivity.
           ++ unfold member in *.
              destruct (Py.lookup (lit "value") d) as [v|]; [|discriminate].
              cbn [bind]. unfold Py.or_. rewrite Hvt.
              destruct v; try discriminate. reflexivity.
        -- exact IH.
      * cbn [bind Py.lower]. exact IH.
Qed.

(** One round of the loop over the steps appends the row of that step. *)
Lemma step_body_row (base : list (pystr * pyval)) (idx : Z) (rows : list pyval)
  (step : pyval) :
  step_ok step = true ->
  exists row,
    step_body base (idx, rows) step = Ok (idx + 1, rows ++ [row]) /\
    row_of_step base idx step row.
Proof.
  intros Hok. destruct step as [| | | | |d]; try discriminate.
  unfold step_ok in Hok.
  apply andb_true_iff in Hok as [Hok Hres].
  apply andb_true_iff in Hok as [Hcfs Hact].
  destruct (iter_list_or_empty _ _ Hcfs) as (Hiter & Hfields & _).
  unfold step_body.
  rewrite (get_member d "customFields"). cbn [bind].
  rewrite Hiter. cbn [bind].
  rewrite (find_precondition_first _ Hfields). cbn [bind Py.strip].
  rewrite (get_member d "action"). cbn [bind].
  rewrite (strip_text_or_empty _ Hact). cbn [bind].
  rewrite (get_member d "result"). cbn [bind].
  rewrite (strip_text_or_empty _ Hres). cbn [bind].
  eexists. split; [reflexivity|].
  unfold row_of_step.
  match goal with
  | |- context [VDict (Py.update base [(_, ?n); (_, ?p); (_, ?a); (_, ?e)])] =>
      destruct (step_columns_of_update base n p a e) as (Hb & Hn & Hp & Ha & He)
  end.
  cbv zeta in *.
  split; [exact Hb|]. split; [exact Hn|]. split; [|split; [exact Ha | exact He]].
  rewrite Hp. unfold first_precondition, custom_fields_of.
  destruct (find names_precondition (items_of (member d "customFields")));
    reflexivity.
Qed.

(** C7: the Step Precondition of a step is the trimmed value of the
    first of its custom fields, in declaration order, whose name equals
    "precondition" up to case, and the empty string when no field has
    that name.  [step_ok] is the shape of a Step: a mapping whose action
    and result are texts, whose custom fields have text names and whose
    "precondition" fields have text values (any of them may be absent or
    empty). *)
Theorem step_precondition_first_caseless_match
  (base : list (pystr * pyval)) (idx : Z) (rows : list pyval) (step : pyval) :
  step_ok step = true ->
  exists row,
    step_body base (idx, rows) step = Ok (idx + 1, rows ++ [row]) /\
    column row "Step Precondition"
    = Some (VStr match find names_precondition (custom_fields_of step) with
                 | Some cf => PyStr.strip (member_text cf "value")
                 | None => []
                 end).
Proof.
  intros Hok. destruct (step_body_row base idx rows step Hok) as (row & Hrun & Hrow).
  exists row. split; [exact Hrun|].
  destruct Hrow as (_ & _ & Hp & _). exact Hp.
Qed.

Lemma step_precondition_first_caseless_match_witness :
  step_ok sample_step = true /\
  exists row,
    step_body [] (1, []) sample_step = Ok (2, [row]) /\
    column row "Step Precondition" = Some (txt "logged in").
Proof.
  split; [reflexivity|].
  exact (step_precondition_first_caseless_match [] 1 [] sample_step eq_refl).
Defined.

(** The three spellings of the name are all found; another name is not. *)
Example precondition_name_any_case :
  step_precondition_column (step_named "Precondition") = Some (txt "p") /\
  step_precondition_column (step_named "PRECONDITION") = Some (txt "p") /\
  step_precondition_column (step_named "precondition") = Some (txt "p") /\
  step_precondition_column (step_named "Pre-condition") = Some (VStr []).
Proof. repeat split; reflexivity. Qed.

(** With two fields named "precondition" the first one is taken. *)
Example precondition_first_of_two :
  step_precondition_column sample_step = Some (txt "logged in").
Proof. reflexivity. Qed.

(* ================================================================== *)
(** * The flattener *)
(* ================================================================== *)

Lemma for_each_total {A S : Type} (P : A -> Prop) (body : S -> A -> result S)
  (xs : list A) :
  (forall acc x, P x -> exists acc', body acc x = Ok acc') ->
  Forall P xs ->
  forall acc, exists r, for_each body xs acc = Ok r.
Proof.
  intros Hbody Hxs. induction Hxs as [|x xs Hx _ IH]; intros acc; simpl.
  - eexists. reflexivity.
  - destruct (Hbody acc x Hx) as [acc' E]. rewrite E. simpl. apply IH.
Qed.

Lemma or_mapping (shape : pyval -> bool) (v : pyval) :
  (forall x, shape x = true -> is_mapping x = true) ->
  empty_or shape v = true ->
  exists d, Py.or_ v (VDict []) = VDict d /\
            (d = [] \/ (v = VDict d /\ shape v = true)).
Proof.
  intros Hshape H. unfold Py.or_.
  destruct (empty_or_cases _ _ H) as [Hf | [Ht Hs]].
  - rewrite Hf. exists []. auto.
  - rewrite Ht. pose proof (Hshape _ Hs) as Hm.
    destruct v; try discriminate. eexists. auto.
Qed.

Lemma join_texts (sep : pystr) (ls : list pyval) :
  forallb is_text ls = true -> exists s, Py.join sep (VList ls) = Ok s.
Proof.
  intros H. unfold Py.join. cbn [Py.iter bind].
  destruct (for_each_total (fun v => is_text v = true)
              (fun acc item => match item with
                               | VStr s => Ok (acc ++ [s])
                               | _ => Raise TypeError
                               end) ls) with (acc := @nil pystr) as [parts E].
  - intros acc x Hx. destruct x; try discriminate. eexists. reflexivity.
  - apply Forall_forall. rewrite forallb_forall in H. exact H.
  - rewrite E. eexists. reflexivity.
Qed.

Lemma precondition_body_total (acc : list pystr * list pystr) (p : pyval) :
  empty_or precondition_ok p = true ->
  exists acc', precondition_body acc p = Ok acc'.
Proof.
  intros H. destruct acc as [titles defs]. unfold precondition_body.
  destruct (empty_or_cases _ _ H) as [Hf | [Ht Hok]].
  - rewrite Hf. eexists. reflexivity.
  - rewrite Ht. cbn [negb]. destruct p as [| | | | |d]; try discriminate.
    unfold precondition_ok in Hok. apply andb_true_iff in Hok as [Hj Hd].
    rewrite (get_member d "jira"). cbn [bind].
    destruct (or_mapping is_mapping (member d "jira")) as (jd & -> & _);
      [auto | assumption |].
    rewrite (get_member jd "key"). cbn [bind].
    rewrite (get_member jd "summary"). cbn [bind].
    rewrite (get_member d "definition"). cbn [bind].
    destruct (empty_or_cases _ _ Hd) as [Hdf | [Hdt Hds]].
    + rewrite Hdf. eexists. reflexivity.
    + rewrite Hdt. destruct (member d "definition"); try discriminate.
      eexists. reflexivity.
Qed.

Lemma join_texts_value (sep : pystr) (ls : list pyval) :
  forallb is_text ls = true ->
  Py.join sep (VList ls) = Ok (PyStr.join sep (List.map text_of ls)).
Proof.
  intros H. unfold Py.join. cbn [Py.iter bind].
  assert (Hloop : forall acc,
            for_each (fun acc item => match item with
                                      | VStr s => Ok (acc ++ [s])
                                      | _ => Raise TypeError
                                      end) ls acc
            = Ok (acc ++ List.map text_of ls)).
  { induction ls as [|x ls IH]; intros acc.
    - cbn. rewrite app_nil_r. reflexivity.
    - cbn [forallb] in H. apply andb_true_iff in H as [Hx Hls].
      destruct x; try discriminate. cbn [for_each bind List.map text_of].
      rewrite (IH Hls), <- app_assoc. reflexivity. }
  rewrite Hloop. reflexivity.
Qed.

Lemma precondition_body_value (titles defs : list pystr) (p : pyval) :
  empty_or precondition_ok p = true ->
  precondition_body (titles, defs) p
  = Ok (titles ++ opt_list (precondition_title p),
        defs ++ opt_list (precondition_definition p)).
Proof.
  intros H. unfold precondition_body.
  destruct (empty_or_cases _ _ H) as [Hf | [Ht Hok]].
  - rewrite Hf. cbn [negb].
    assert (precondition_title p = None /\ precondition_definition p = None)
      as [-> ->].
    { destruct p as [| | | | |d]; try (split; reflexivity).
      destruct d; [split; reflexivity | discriminate]. }
    cbn [opt_list]. rewrite !app_nil_r. reflexivity.
  - rewrite Ht. cbn [negb]. destruct p as [| | | | |d]; try discriminate.
    unfold precondition_ok in Hok. apply andb_true_iff in Hok as [Hj Hd].
    rewrite (get_member d "jira"). cbn [bind].
    unfold precondition_title, precondition_definition.
    destruct (or_mapping is_mapping (member d "jira")) as (jd & -> & _);
      [auto | assumption |].
    rewrite (get_member jd "key"). cbn [bind].
    rewrite (get_member jd "summary"). cbn [bind].
    rewrite (get_member d "definition"). cbn [bind].
    destruct (empty_or_cases _ _ Hd) as [Hdf | [Hdt Hds]].
    + rewrite Hdf. cbn [opt_list]. rewrite app_nil_r.
      destruct (Py.truthy (member jd "key") && Py.truthy (member jd "summary"));
        cbn [opt_list]; rewrite ?app_nil_r; reflexivity.
    + rewrite Hdt. destruct (member d "definition"); try discriminate.
      cbn [normalize_definition Py.split bind text_of opt_list].
      destruct (Py.truthy (member jd "key") && Py.truthy (member jd "summary"));
        cbn [opt_list]; rewrite ?app_nil_r; reflexivity.
Qed.

Lemma preconditions_loop_value (ps : list pyval) :
  forallb (empty_or precondition_ok) ps = true ->
  forall titles defs,
    for_each precondition_body ps (titles, defs)
    = Ok (titles ++ choose precondition_title ps,
          defs ++ choose precondition_definition ps).
Proof.
  induction ps as [|p ps IH]; intros H titles defs.
  - cbn. rewrite !app_nil_r. reflexivity.
  - cbn [forallb] in H. apply andb_true_iff in H as [Hp Hps].
    cbn [for_each]. rewrite (precondition_body_value _ _ _ Hp). cbn [bind].
    rewrite (IH Hps). unfold choose. cbn [flat_map].
    rewrite <- !app_assoc. reflexivity.
Qed.

(** The record-level columns [base_row] computes for a well-shaped
    Record. *)
Lemma base_row_value (test : pyval) :
  record_ok test = true -> base_row test = Ok (record_columns test).
Proof.
  intros H. destruct test as [| | | | |d]; try discriminate.
  unfold record_ok in H.
  apply andb_true_iff in H as [H _].
  apply andb_true_iff in H as [Hjira Hpre].
  unfold record_columns, base_row, labels_of, jira_of, issue_preconditions_of.
  rewrite (get_member d "jira"). cbn [bind].
  destruct (or_mapping jira_ok (member d "jira")) as (jd & -> & Hjd);
    [intros x; destruct x; simpl; congruence | assumption |].
  assert (Hlabels : empty_or (list_of is_text) (member jd "labels") = true).
  { destruct Hjd as [-> | [Ej Hj]]; [reflexivity|].
    rewrite Ej in Hj. exact Hj. }
  rewrite (get_member jd "labels"). cbn [bind].
  unfold CUSTOM_FIELDS_TO_EXPORT. cbn [for_each].
  rewrite (get_member jd "customfield_10138"). cbn [bind].
  destruct (format_total (member jd "customfield_10138")) as [s1 E1].
  rewrite E1. cbn [bind].
  rewrite (get_member jd "customfield_10167"). cbn [bind].
  destruct (format_total (member jd "customfield_10167")) as [s2 E2].
  rewrite E2. cbn [bind].
  rewrite (get_member d "preconditions"). cbn [bind].
  destruct (or_mapping preconditions_ok (member d "preconditions"))
    as (pd & -> & Hpd);
    [intros x; destruct x; simpl; congruence | assumption |].
  assert (Hresults :
            empty_or (list_of (empty_or precondition_ok)) (member pd "results")
            = true).
  { destruct Hpd as [-> | [Ep Hp]]; [reflexivity|].
    rewrite Ep in Hp. exact Hp. }
  rewrite (get_member pd "results"). cbn [bind].
  destruct (iter_list_or_empty _ _ Hresults) as (-> & Hps & _). cbn [bind].
  rewrite (preconditions_loop_value _ Hps). cbn [bind app].
  destruct (iter_list_or_empty _ _ Hlabels) as (_ & Hls & _).
  assert (Hor : Py.or_ (member jd "labels") (VList [])
                = VList (items_of (member jd "labels"))).
  { unfold Py.or_. destruct (empty_or_cases _ _ Hlabels) as [Hf | [Ht Hs]].
    - rewrite Hf, (falsy_items_of _ Hf). reflexivity.
    - rewrite Ht. destruct (member jd "labels"); try discriminate. reflexivity. }
  rewrite Hor.
  change (Py.get (VDict jd) (lit "key") (VStr [])) with (Ok (member_or_empty jd "key")).
  change (Py.get (VDict jd) (lit "summary") (VStr []))
    with (Ok (member_or_empty jd "summary")).
  cbn [bind]. rewrite (join_texts_value _ _ Hls). cbn [bind].
  unfold formatted. rewrite E1, E2. reflexivity.
Qed.


(** The loop over the steps of one Record: one row per step, in step
    order, numbered from [idx]. *)
Lemma steps_loop_rows (base : list (pystr * pyval)) (steps : list pyval) :
  forallb step_ok steps = true ->
  forall idx rows, exists new,
    for_each (step_body base) steps (idx, rows)
    = Ok (idx + Z.of_nat (List.length steps), rows ++ new) /\
    List.length new = List.length steps /\
    forall i step, nth_error steps i = Some step ->
      exists row, nth_error new i = Some row /\
                  row_of_step base (idx + Z.of_nat i) step row.
Proof.
  induction steps as [|step steps IH]; intros Hok idx rows.
  - exists []. cbn [for_each List.length]. rewrite Z.add_0_r, app_nil_r.
    split; [reflexivity|]. split; [reflexivity|].
    intros [|i] s Hs; discriminate.
  - cbn [forallb] in Hok. apply andb_true_iff in Hok as [Hstep Hsteps].
    destruct (step_body_row base idx rows step Hstep) as (row & Hrun & Hrow).
    destruct (IH Hsteps (idx + 1) (rows ++ [row])) as (new & Hloop & Hlen & Hnth).
    exists (row :: new). cbn [for_each]. rewrite Hrun. cbn [bind].
    rewrite Hloop. split; [|split].
    + f_equal. f_equal.
      * cbn [List.length]. lia.
      * rewrite <- app_assoc. reflexivity.
    + cbn [List.length]. congruence.
    + intros [|i] s Hs.
      * cbn [nth_error] in *. injection Hs as <-.
        exists row. split; [reflexivity|].
        rewrite Z.add_0_r. exact Hrow.
      * cbn [nth_error] in *. destruct (Hnth i s Hs) as (r & Hr & Hrs).
        exists r. split; [exact Hr|].
        replace (idx + Z.of_nat (S i)) with (idx + 1 + Z.of_nat i) by lia.
        exact Hrs.
Qed.

(** What one Record appends to the rows. *)
Lemma test_body_block (rows : list pyval) (test : pyval) :
  record_ok test = true ->
  exists block, test_body rows test = Ok (rows ++ block) /\ block_of test block.
Proof.
  intros Hok. pose proof (base_row_value test Hok) as Hbase.
  destruct test as [| | | | |d]; try discriminate.
  unfold record_ok in Hok. apply andb_true_iff in Hok as [_ Hsteps].
  destruct (iter_list_or_empty _ _ Hsteps) as (Hiter & Hall & Htruthy).
  unfold test_body. rewrite Hbase. cbn [bind].
  rewrite (get_member d "steps"). cbn [bind].
  rewrite Htruthy. unfold block_of, steps_of.
  destruct (items_of (member d "steps")) as [|s ss] eqn:Eitems.
  - cbn [nonempty_list negb]. eexists. split; [reflexivity|].
    eexists. split; [reflexivity|].
    apply step_columns_of_update.
  - cbn [nonempty_list negb]. rewrite Hiter. cbn [bind].
    destruct (steps_loop_rows (record_columns (VDict d)) (s :: ss) Hall 1 rows)
      as (new & Hloop & Hlen & Hnth).
    rewrite Hloop. cbn [bind snd].
    exists new. split; [reflexivity|]. split; [exact Hlen|].
    intros i step Hi. destruct (Hnth i step Hi) as (row & Hr & Hrow).
    exists row. split; [exact Hr|].
    rewrite Z.add_comm. exact Hrow.
Qed.

Lemma block_length (test : pyval) (block : list pyval) :
  block_of test block ->
  List.length block = Nat.max 1 (List.length (steps_of test)).
Proof.
  unfold block_of. intros H. destruct (steps_of test) as [|s ss].
  - destruct H as (row & -> & _). reflexivity.
  - destruct H as [Hlen _]. rewrite Hlen. cbn [List.length]. lia.
Qed.

Lemma flatten_loop_blocks (tests : list pyval) :
  forallb record_ok tests = true ->
  forall rows, exists blocks,
    for_each test_body tests rows = Ok (rows ++ List.concat blocks) /\
    Forall2 block_of tests blocks.
Proof.
  induction tests as [|test tests IH]; intros Hok rows.
  - exists []. cbn [for_each List.concat]. rewrite app_nil_r. split; constructor.
  - cbn [forallb] in Hok. apply andb_true_iff in Hok as [Htest Htests].
    destruct (test_body_block rows test Htest) as (block & Hrun & Hblock).
    destruct (IH Htests (rows ++ block)) as (blocks & Hloop & Hblocks).
    exists (block :: blocks). cbn [for_each List.concat].
    rewrite Hrun. cbn [bind]. rewrite Hloop, <- app_assoc.
    split; [reflexivity | constructor; assumption].
Qed.

(** C1: for every sequence of Records, [flatten_rows] returns the
    concatenation, in Record order, of one block of rows per Record.  The
    block of a Record without steps is a single row whose Step #, Step
    Precondition, Action and Expected Result are empty; the block of a
    Record with N > 0 steps has N rows, the i-th made from the i-th step
    and carrying Step # = i, its trimmed action and expected result and
    its step precondition.  Every row of a block has the record-level
    columns of its Record, [record_columns]: Test Key, Summary, the
    joined Labels, the formatted custom fields, and the joined titles and
    definitions of the issue preconditions.  Hence the number of rows is
    the sum over the Records of max(1, number of steps). *)
Theorem flatten_rows_one_block_per_record (tests : list pyval) :
  forallb record_ok tests = true ->
  exists blocks,
    flatten_rows tests = Ok (List.concat blocks) /\
    Forall2 block_of tests blocks /\
    List.length (List.concat blocks)
    = list_sum (List.map (fun t => Nat.max 1 (List.length (steps_of t))) tests).
Proof.
  intros Hok. destruct (flatten_loop_blocks tests Hok []) as (blocks & Hrun & Hblocks).
  exists blocks. split; [exact Hrun|]. split; [exact Hblocks|].
  clear Hrun Hok. induction Hblocks as [|t b ts bs Hb _ IH].
  - reflexivity.
  - cbn [List.concat List.map list_sum]. rewrite length_app, IH.
    rewrite (block_length _ _ Hb). reflexivity.
Qed.

Lemma flatten_rows_one_block_per_record_witness :
  forallb record_ok [sample_record; sample_record_no_steps] = true /\
  exists blocks,
    flatten_rows [sample_record; sample_record_no_steps] = Ok (List.concat blocks) /\
    Forall2 block_of [sample_record; sample_record_no_steps] blocks /\
    List.length (List.concat blocks) = 3%nat.
Proof.
  split; [reflexivity|].
  exact (flatten_rows_one_block_per_record
           [sample_record; sample_record_no_steps] eq_refl).
Defined.

(** The end-to-end example: TEST-1 with two steps gives two rows. *)
Example flatten_rows_end_to_end :
  exists row1 row2,
    flatten_rows [sample_record] = Ok [row1; row2] /\
    column row1 "Test Key" = Some (txt "TEST-1") /\
    column row1 "Step #" = Some (VInt 1) /\
    column row1 "Action" = Some (txt "Enter user") /\
    column row1 "Expected Result" = Some (txt "See dashboard") /\
    column row2 "Step #" = Some (VInt 2) /\
    column row2 "Action" = Some (txt "Click logout") /\
    column row2 "Expected Result" = Some (txt "See login page") /\
    column row2 "Summary" = Some (txt "Login works") /\
    column row2 "Labels" = Some (txt "smoke, ui").
Proof. do 2 eexists. repeat split; reflexivity. Qed.

(** A Record without steps: one row, empty step columns, the issue
    preconditions joined and their definitions normalized. *)
Example flatten_rows_no_steps :
  exists row,
    flatten_rows [sample_record_no_steps] = Ok [row] /\
    column row "Step #" = Some (VStr []) /\
    column row "Components" = Some (txt "API, UI") /\
    column row "Issue Preconditions (keys & titles)"
      = Some (txt "PRE-1 - User exists") /\
    column row "Issue Preconditions Definition"
      = Some (txt "a user exists | db is up").
Proof. eexists. repeat split; reflexivity. Qed.

(* ================================================================== *)
(** * The fetcher *)
(* ================================================================== *)

Section Fetcher.

Variable srv : service.
Variables token jql : pystr.
Variable limit : Z.

Let rq (start : Z) : request := the_request token jql limit start.

(** A page request sends one request and decodes the reply to it. *)
Lemma get_tests_page_run (start : Z) (log : list request) :
  get_tests_page srv token jql limit start log
  = (page_at srv (List.length log) (rq start), log ++ [rq start]).
Proof.
  unfold get_tests_page, gql, io_bind, post, io_ret, page_at, rq, the_request.
  destruct (gql_decode _); reflexivity.
Qed.

Lemma loop_body_run (st : loop_state) (log : list request) :
  loop_body srv token jql limit st log
  = (data <- page_at srv (List.length log) (rq (start st)) ;; take_page limit data st,
     log ++ [rq (start st)]).
Proof.
  unfold loop_body, io_bind. rewrite get_tests_page_run.
  destruct (page_at _ _ _); reflexivity.
Qed.

(** What taking a page does to the loop variables. *)
Lemma take_page_inv (data : pyval) (st st' : loop_state) :
  take_page limit data st = Ok st' ->
  exists results items step,
    Py.get data (lit "results") VNone = Ok results /\
    Py.iter (Py.or_ results (VList [])) = Ok items /\
    reported_limit limit data = Ok step /\
    st' = {| out := out st ++ items; start := start st + step;
             batch := Py.or_ results (VList []) |}.
Proof.
  unfold take_page, reported_limit, Py.add. intros H.
  destruct (Py.get data (lit "results") VNone) as [results|] eqn:E1;
    [|discriminate].
  cbn [bind] in H.
  destruct (Py.iter (Py.or_ results (VList []))) as [items|] eqn:E2;
    [|discriminate].
  cbn [bind] in H.
  destruct (Py.get data (lit "limit") (VInt limit)) as [step|] eqn:E3;
    [|discriminate].
  cbn [bind] in H.
  destruct (Py.as_int step) as [z|] eqn:E4; [|discriminate].
  cbn [bind] in H. injection H as <-.
  exists results, items, z. cbn [bind]. rewrite E4. auto.
Qed.

(** More fuel does not change a finished run. *)
Lemma fetch_loop_more_fuel (fuel : nat) :
  forall total st log r,
    fetch_loop fuel srv token jql limit total st log = Some r ->
    fetch_loop (S fuel) srv token jql limit total st log = Some r.
Proof.
  induction fuel as [|fuel IH]; intros total st log r H; [discriminate|].
  cbn [fetch_loop] in H. cbn [fetch_loop].
  destruct (loop_cond total st) as [[|]|]; try exact H.
  destruct (loop_body srv token jql limit st log) as [[st'|e] log']; try exact H.
  apply IH in H. exact H.
Qed.

Lemma fetch_loop_fuel_le (fuel fuel' : nat) total st log r :
  (fuel <= fuel')%nat ->
  fetch_loop fuel srv token jql limit total st log = Some r ->
  fetch_loop fuel' srv token jql limit total st log = Some r.
Proof.
  intros Hle H. induction Hle; [exact H|].
  apply fetch_loop_more_fuel. assumption.
Qed.

Lemma fetch_all_tests_fuel_le (fuel fuel' : nat) r :
  (fuel <= fuel')%nat ->
  fetch_all_tests fuel srv token jql limit = Some r ->
  fetch_all_tests fuel' srv token jql limit = Some r.
Proof.
  unfold fetch_all_tests. intros Hle.
  destruct (get_tests_page srv token jql limit 0 []) as [[data|e] log];
    [|auto].
  destruct (Py.get data (lit "total") (VInt 0)) as [total|]; [|auto].
  destruct (negb (Py.truthy total)); [auto|].
  destruct (take_page limit data _) as [st|]; [|auto].
  apply fetch_loop_fuel_le. assumption.
Qed.





(** ** Offsets *)






End Fetcher.

(** The loop state after the first page. *)
Lemma fetch_all_tests_enters_loop (fuel : nat) (srv : service)
  (token jql : pystr) (limit : Z) (data total : pyval) (st : loop_state) :
  page_at srv 0 (the_request token jql limit 0) = Ok data ->
  Py.get data (lit "total") (VInt 0) = Ok total ->
  Py.truthy total = true ->
  take_page limit data {| out := []; start := 0; batch := VList [] |} = Ok st ->
  fetch_all_tests fuel srv token jql limit
  = fetch_loop fuel srv token jql limit total st [the_request token jql limit 0].
Proof.
  intros Hp Ht Htruthy Hst. unfold fetch_all_tests.
  rewrite get_tests_page_run. cbn [List.length app].
  rewrite Hp, Ht, Htruthy. cbn [negb]. rewrite Hst. reflexivity.
Qed.





(** The run against the honest sample service, evaluated. *)
Example fetch_three_pages :
  fetch_all_tests 3 (honest_server 250) [] [] 100
  = Some (Ok (records_from 0 250),
          List.map (the_request [] [] 100) [0; 100; 200]).
Proof. vm_compute. reflexivity. Qed.

(** A service that caps the page size at 50 is asked five times, 50
    apart, though 100 records are requested each time. *)
Example fetch_capped_pages :
  fetch_all_tests 5 (paging_server 250 250 50) [] [] 100
  = Some (Ok (records_from 0 250),
          List.map (the_request [] [] 100) [0; 50; 100; 150; 200]).
Proof. vm_compute. reflexivity. Qed.

(** C4: if the first page request raises, whatever the error, the fetch
    returns the empty sequence, raises nothing, and has sent that one
    request only. *)
Theorem first_page_failure_returns_empty
  (fuel : nat) (srv : service) (token jql : pystr) (limit : Z) (e : exn) :
  page_at srv 0 (the_request token jql limit 0) = Raise e ->
  fetch_all_tests fuel srv token jql limit
  = Some (Ok [], [the_request token jql limit 0]).
Proof.
  intros H. unfold fetch_all_tests. rewrite get_tests_page_run.
  cbn [List.length app]. rewrite H. reflexivity.
Qed.

Lemma first_page_failure_returns_empty_witness :
  page_at down_server 0 (the_request [] [] 100 0) = Raise ConnectionError /\
  fetch_all_tests 0 down_server [] [] 100
  = Some (Ok [], [the_request [] [] 100 0]).
Proof.
  split; [reflexivity|].
  apply (first_page_failure_returns_empty 0 down_server [] [] 100 ConnectionError).
  reflexivity.
Defined.

(** Transport, authorization, GraphQL and decoding failures alike. *)
Example first_page_failures :
  page_at unauthorized_server 0 (the_request [] [] 100 0) = Raise HTTPError /\
  page_at graphql_error_server 0 (the_request [] [] 100 0) = Raise RuntimeError /\
  page_at garbage_server 0 (the_request [] [] 100 0) = Raise JSONDecodeError /\
  fetch_all_tests 9 unauthorized_server [] [] 100
    = Some (Ok [], [the_request [] [] 100 0]) /\
  fetch_all_tests 9 graphql_error_server [] [] 100
    = Some (Ok [], [the_request [] [] 100 0]) /\
  fetch_all_tests 9 garbage_server [] [] 100
    = Some (Ok [], [the_request [] [] 100 0]).
Proof. repeat split; reflexivity. Qed.

Lemma take_empty_page (limit : Z) (data : pyval) (st : loop_state) (step : Z) :
  no_records data -> reported_limit limit data = Ok step ->
  take_page limit data st
  = Ok {| out := out st; start := start st + step; batch := VList [] |}.
Proof.
  intros (r & Hr & Hfalsy) Hstep. unfold take_page, reported_limit in *.
  rewrite Hr. cbn [bind]. unfold Py.or_. rewrite Hfalsy. cbn [Py.iter bind].
  destruct (Py.get data (lit "limit") (VInt limit)) as [s|]; [|discriminate].
  cbn [bind] in *. unfold Py.add. rewrite Hstep. cbn [bind].
  rewrite app_nil_r. reflexivity.
Qed.

Lemma loop_cond_after_empty_page (total : pyval) (st : loop_state) (out' : list pyval)
  (start' : Z) :
  loop_cond total st = Ok true ->
  loop_cond total {| out := out'; start := start'; batch := VList [] |} = Ok false.
Proof.
  unfold loop_cond, Py.lt. destruct (Py.as_int total); [|discriminate].
  intros _. cbn [bind start batch Py.truthy]. rewrite andb_false_r. reflexivity.
Qed.

(** C5: when the loop asks for a further page (the offset is below the
    total and the page before had records) and that page arrives with no
    records, the fetch ends there: it returns the records accumulated so
    far and the request of the empty page is the last one sent.  In
    particular, when it is the second page that is empty, the result is
    the first page alone, after two requests. *)
Theorem empty_page_stops_the_fetch :
  (forall fuel srv token jql limit total st log data step,
     loop_cond total st = Ok true ->
     page_at srv (List.length log) (the_request token jql limit (start st)) = Ok data ->
     no_records data ->
     reported_limit limit data = Ok step ->
     fetch_loop (S (S fuel)) srv token jql limit total st log
     = Some (Ok (out st), log ++ [the_request token jql limit (start st)])) /\
  (forall fuel srv token jql limit data0 total st1 data1 step,
     page_at srv 0 (the_request token jql limit 0) = Ok data0 ->
     Py.get data0 (lit "total") (VInt 0) = Ok total ->
     Py.truthy total = true ->
     take_page limit data0 {| out := []; start := 0; batch := VList [] |} = Ok st1 ->
     loop_cond total st1 = Ok true ->
     page_at srv 1 (the_request token jql limit (start st1)) = Ok data1 ->
     no_records data1 ->
     reported_limit limit data1 = Ok step ->
     fetch_all_tests (S (S fuel)) srv token jql limit
     = Some (Ok (out st1),
             [the_request token jql limit 0; the_request token jql limit (start st1)])).
Proof.
  assert (Hloop : forall fuel srv token jql limit total st log data step,
     loop_cond total st = Ok true ->
     page_at srv (List.length log) (the_request token jql limit (start st)) = Ok data ->
     no_records data ->
     reported_limit limit data = Ok step ->
     fetch_loop (S (S fuel)) srv token jql limit total st log
     = Some (Ok (out st), log ++ [the_request token jql limit (start st)])).
  { intros fuel srv token jql limit total st log data step Hc Hp Hn Hs.
    cbn [fetch_loop]. rewrite Hc, loop_body_run, Hp. cbn [bind].
    rewrite (take_empty_page _ _ _ _ Hn Hs).
    rewrite (loop_cond_after_empty_page _ _ _ _ Hc). reflexivity. }
  split; [exact Hloop|].
  intros fuel srv token jql limit data0 total st1 data1 step
    Hp0 Ht Htruthy Hst Hc Hp1 Hn Hs.
  rewrite (fetch_all_tests_enters_loop _ _ _ _ _ _ _ _ Hp0 Ht Htruthy Hst).
  apply (Hloop fuel srv token jql limit total st1
           [the_request token jql limit 0] data1 step Hc Hp1 Hn Hs).
Qed.

(** The service reports 250 records and has 100: the second page is
    empty, the result is the first page, and no third request is sent. *)
Lemma empty_page_stops_the_fetch_witness :
  fetch_all_tests 2 short_server [] [] 100
  = Some (Ok (records_from 0 100),
          [the_request [] [] 100 0; the_request [] [] 100 100]).
Proof.
  refine (proj2 empty_page_stops_the_fetch 0%nat short_server [] [] 100
            (obj [ ("total", VInt 250); ("start", VInt 0); ("limit", VInt 100);
                   ("results", VList (records_from 0 100)) ]%string)
            (VInt 250)
            {| out := records_from 0 100; start := 100;
               batch := VList (records_from 0 100) |}
            (obj [ ("total", VInt 250); ("start", VInt 100); ("limit", VInt 100);
                   ("results", VList []) ]%string)
            100 _ _ _ _ _ _ _ _); try (vm_compute; reflexivity).
  exists (VList []). split; reflexivity.
Defined.

(** C6: when a page request made by the loop raises, the fetch raises
    the same error; the records accumulated so far are not returned.  In
    particular for the second page. *)
Theorem later_page_failure_propagates :
  (forall fuel srv token jql limit total st log e,
     loop_cond total st = Ok true ->
     page_at srv (List.length log) (the_request token jql limit (start st)) = Raise e ->
     fetch_loop (S fuel) srv token jql limit total st log
     = Some (Raise e, log ++ [the_request token jql limit (start st)])) /\
  (forall fuel srv token jql limit data0 total st1 e,
     page_at srv 0 (the_request token jql limit 0) = Ok data0 ->
     Py.get data0 (lit "total") (VInt 0) = Ok total ->
     Py.truthy total = true ->
     take_page limit data0 {| out := []; start := 0; batch := VList [] |} = Ok st1 ->
     loop_cond total st1 = Ok true ->
     page_at srv 1 (the_request token jql limit (start st1)) = Raise e ->
     fetch_all_tests (S fuel) srv token jql limit
     = Some (Raise e,
             [the_request token jql limit 0; the_request token jql limit (start st1)])).
Proof.
  assert (Hloop : forall fuel srv token jql limit total st log e,
     loop_cond total st = Ok true ->
     page_at srv (List.length log) (the_request token jql limit (start st)) = Raise e ->
     fetch_loop (S fuel) srv token jql limit total st log
     = Some (Raise e, log ++ [the_request token jql limit (start st)])).
  { intros fuel srv token jql limit total st log e Hc Hp.
    cbn [fetch_loop]. rewrite Hc, loop_body_run, Hp. reflexivity. }
  split; [exact Hloop|].
  intros fuel srv token jql limit data0 total st1 e Hp0 Ht Htruthy Hst Hc Hp1.
  rewrite (fetch_all_tests_enters_loop _ _ _ _ _ _ _ _ Hp0 Ht Htruthy Hst).
  apply (Hloop fuel srv token jql limit total st1
           [the_request token jql limit 0] e Hc Hp1).
Qed.

(** The second request gets a 500: the fetch raises, the 100 records of
    the first page are lost. *)
Lemma later_page_failure_propagates_witness :
  fetch_all_tests 1 (failing_at 1 250) [] [] 100
  = Some (Raise HTTPError,
          [the_request [] [] 100 0; the_request [] [] 100 100]).
Proof.
  refine (proj2 later_page_failure_propagates 0%nat (failing_at 1 250) [] [] 100
            (obj [ ("total", VInt 250); ("start", VInt 0); ("limit", VInt 100);
                   ("results", VList (records_from 0 100)) ]%string)
            (VInt 250)
            {| out := records_from 0 100; start := 100;
               batch := VList (records_from 0 100) |}
            HTTPError _ _ _ _ _ _); vm_compute; reflexivity.
Defined.

(** A failure of the third request, after two good pages. *)
Example third_page_failure :
  fetch_all_tests 5 (failing_at 2 250) [] [] 100
  = Some (Raise HTTPError, List.map (the_request [] [] 100) [0; 100; 200]).
Proof. vm_compute. reflexivity. Qed.

(* ================================================================== *)
(** * Termination of the pagination loop *)
(* ================================================================== *)

(** The loop never ends against [stuck_server]: every page has a record,
    so the early stop does not apply, and the reported limit 0 keeps the
    offset at 0, below the total 2. *)
Lemma stuck_loop_runs_on (fuel : nat) :
  forall token jql limit acc log,
    fetch_loop fuel stuck_server token jql limit (VInt 2)
      {| out := acc; start := 0; batch := VList [record_no 0] |} log
    = None.
Proof.
  induction fuel as [|fuel IH]; intros token jql limit acc log; [reflexivity|].
  cbn [fetch_loop].
  change (loop_cond (VInt 2)
            {| out := acc; start := 0; batch := VList [record_no 0] |})
    with (Ok true).
  rewrite loop_body_run. cbn [start].
  change (page_at stuck_server (List.length log) (the_request token jql limit 0))
    with (Ok (obj [ ("total", VInt 2); ("start", VInt 0); ("limit", VInt 0);
                    ("results", VList [record_no 0]) ]%string)).
  cbn [bind].
  change (take_page limit _ _)
    with (Ok {| out := acc ++ [record_no 0]; start := 0;
                batch := VList [record_no 0] |}).
  apply IH.
Qed.

(** C9, as stated, fails: there is a service against which the fetch
    does not return, whatever the fuel. *)
Lemma fetch_does_not_always_terminate :
  ~ (forall srv token jql limit,
       exists fuel, fetch_all_tests fuel srv token jql limit <> None).
Proof.
  intros H. destruct (H stuck_server [] [] 100) as [fuel Hfuel].
  apply Hfuel. unfold fetch_all_tests.
  change (get_tests_page stuck_server [] [] 100 0 [])
    with (Ok (obj [ ("total", VInt 2); ("start", VInt 0); ("limit", VInt 0);
                    ("results", VList [record_no 0]) ]%string),
          [the_request [] [] 100 0]).
  cbv iota beta.
  change (Py.get _ (lit "total") (VInt 0)) with (Ok (VInt 2)).
  cbv iota beta. cbn [Py.truthy Z.eqb negb].
  change (take_page 100 _ _)
    with (Ok {| out := [record_no 0]; start := 0; batch := VList [record_no 0] |}).
  apply stuck_loop_runs_on.
Qed.

(** The loop ends once the fuel exceeds the distance to the total by
    two: each round either takes a page with records, which moves the
    offset, or takes a page without records, after which the loop stops. *)
Lemma fetch_loop_terminates (srv : service) (token jql : pystr) (limit : Z) :
  advancing_with_records srv limit ->
  forall fuel total st log,
    (0 < fuel)%nat ->
    (forall t, Py.as_int total = Ok t ->
               (if Py.truthy (batch st) then Z.max 0 (t - start st) + 1 else 0)
               < Z.of_nat fuel) ->
    exists r, fetch_loop fuel srv token jql limit total st log = Some r.
Proof.
  intros Hadv. induction fuel as [|fuel IH]; intros total st log Hpos Hdist;
    [lia|].
  cbn [fetch_loop]. unfold loop_cond, Py.lt.
  destruct (Py.as_int total) as [t|e] eqn:Et; cbn [bind];
    [|eexists; reflexivity].
  destruct (start st <? t) eqn:Elt; cbn [andb]; [|eexists; reflexivity].
  destruct (Py.truthy (batch st)) eqn:Ebatch; [|eexists; reflexivity].
  rewrite loop_body_run.
  destruct (page_at srv (List.length log) (the_request token jql limit (start st)))
    as [data|e] eqn:Ep; cbn [bind]; [|eexists; reflexivity].
  destruct (take_page limit data st) as [st'|e] eqn:Etake;
    [|eexists; reflexivity].
  destruct (take_page_inv _ _ _ _ Etake)
    as (results & items & step & Hres & _ & Hstep & ->).
  apply Z.ltb_lt in Elt. specialize (Hdist t eq_refl). cbv beta iota in Hdist.
  apply IH; [lia|].
  intros t' Ht'. rewrite Et in Ht'. injection Ht' as <-.
  cbn [batch start]. unfold Py.or_.
  destruct (Py.truthy results) eqn:Etruthy.
  - rewrite Etruthy.
    assert (1 <= step)
      by (apply (Hadv (List.length log) (the_request token jql limit (start st))
                   data results step eq_refl Ep Hres Etruthy Hstep)).
    lia.
  - cbn [Py.truthy]. lia.
Qed.

(** C9 (amended): the fetch terminates against every service whose
    pages with records advance the offset, that is, report a limit of at
    least 1 (or no limit, the requested one being at least 1).  Nothing is
    asked of the pages without records, whatever limit they report: the
    early stop ends the loop after such a page.  The total and the page
    contents may be inconsistent in any way. *)
Theorem fetch_terminates_when_pages_with_records_advance
  (srv : service) (token jql : pystr) (limit : Z) :
  advancing_with_records srv limit ->
  exists fuel res log,
    forall fuel', (fuel <= fuel')%nat ->
      fetch_all_tests fuel' srv token jql limit = Some (res, log).
Proof.
  intros Hadv.
  assert (Hrun : exists fuel r, fetch_all_tests fuel srv token jql limit = Some r).
  { unfold fetch_all_tests.
    destruct (get_tests_page srv token jql limit 0 []) as [[data|e] log];
      [|exists 0%nat; eexists; reflexivity].
    destruct (Py.get data (lit "total") (VInt 0)) as [total|];
      [|exists 0%nat; eexists; reflexivity].
    destruct (negb (Py.truthy total)); [exists 0%nat; eexists; reflexivity|].
    destruct (take_page limit data _) as [st|];
      [|exists 0%nat; eexists; reflexivity].
    destruct (Py.as_int total) as [t|e] eqn:Et.
    - exists (S (S (Z.to_nat (t - start st)))).
      apply (fetch_loop_terminates srv token jql limit Hadv); [lia|].
      intros t' Ht'. rewrite Et in Ht'. injection Ht' as <-.
      destruct (Py.truthy (batch st)); lia.
    - exists 1%nat.
      apply (fetch_loop_terminates srv token jql limit Hadv); [lia|].
      intros t' Ht'. rewrite Et in Ht'. discriminate. }
  destruct Hrun as (fuel & [res log] & Hrun).
  exists fuel, res, log. intros fuel' Hle.
  apply (fetch_all_tests_fuel_le _ _ _ _ fuel fuel' _ Hle Hrun).
Qed.

(** Only the first page of [drying_server] has records, and it reports
    the limit 3. *)
Lemma drying_server_advancing (limit : Z) :
  advancing_with_records drying_server limit.
Proof.
  intros n rq data results step _ Hpage Hres Htruthy Hstep.
  unfold page_at, drying_server in Hpage.
  destruct (req_start rq =? 0).
  - change (Ok (obj [ ("total", VInt 250); ("start", VInt 0); ("limit", VInt 3);
                      ("results", VList (records_from 0 3)) ]%string)
            = Ok data) in Hpage.
    injection Hpage as <-.
    change (Ok 3 = Ok step) in Hstep. injection Hstep as <-. lia.
  - change (Ok (obj [ ("total", VInt 250); ("start", VInt (req_start rq));
                      ("limit", VInt 0); ("results", VList []) ]%string)
            = Ok data) in Hpage.
    injection Hpage as <-.
    change (Ok (VList []) = Ok results) in Hres. injection Hres as <-.
    discriminate Htruthy.
Qed.

(** Against [drying_server] the second page is empty and reports the
    limit 0: the run ends there, by the early stop. *)
Lemma fetch_terminates_when_pages_with_records_advance_witness :
  advancing_with_records drying_server 100 /\
  exists fuel res log,
    forall fuel', (fuel <= fuel')%nat ->
      fetch_all_tests fuel' drying_server [] [] 100 = Some (res, log).
Proof.
  split; [apply drying_server_advancing|].
  apply (fetch_terminates_when_pages_with_records_advance drying_server [] [] 100).
  apply drying_server_advancing.
Defined.

Example fetch_from_drying_server :
  fetch_all_tests 2 drying_server [] [] 100
  = Some (Ok (records_from 0 3), List.map (the_request [] [] 100) [0; 3]).
Proof. vm_compute. reflexivity. Qed.

(** The honest service advances when 100 records are requested. *)
Lemma honest_server_advancing (total : Z) : advancing (honest_server total) 100.
Proof.
  intros n rq data step Hlimit Hpage Hstep.
  unfold page_at, honest_server, paging_server in Hpage.
  rewrite Hlimit in Hpage. change (Z.min 100 100) with 100 in Hpage.
  unfold page_reply in Hpage.
  match type of Hpage with
  | context [VList ?l] => set (results := l) in Hpage
  end.
  change (Ok (obj [ ("total", VInt total); ("start", VInt (req_start rq));
                    ("limit", VInt 100); ("results", VList results) ]%string)
          = Ok data) in Hpage.
  injection Hpage as <-.
  change (Ok 100 = Ok step) in Hstep. injection Hstep as <-. lia.
Qed.


(* ================================================================== *)
(** * More on the fetcher *)
(* ================================================================== *)

Lemma collected_snoc (srv : service) (log : list request) (rq : request) :
  forall n,
    collected srv n (log ++ [rq])
    = collected srv n log ++ page_items srv (n + List.length log) rq.
Proof.
  induction log as [|r log IH]; intros n; cbn [collected app List.length].
  - rewrite Nat.add_0_r, app_nil_r. reflexivity.
  - rewrite IH, <- app_assoc, Nat.add_succ_comm. reflexivity.
Qed.

Lemma take_page_items (srv : service) (limit : Z) (n : nat) (rq : request)
  (data : pyval) (st st' : loop_state) :
  page_at srv n rq = Ok data ->
  take_page limit data st = Ok st' ->
  out st' = out st ++ page_items srv n rq.
Proof.
  intros Hp Ht.
  destruct (take_page_inv _ _ _ _ Ht) as (results & items & step & Hr & Hi & _ & ->).
  unfold page_items. rewrite Hp, Hr, Hi. reflexivity.
Qed.

Lemma fetch_loop_collects (srv : service) (token jql : pystr) (limit : Z)
  (fuel : nat) :
  forall total st log recs log',
    out st = collected srv 0 log ->
    fetch_loop fuel srv token jql limit total st log = Some (Ok recs, log') ->
    recs = collected srv 0 log'.
Proof.
  induction fuel as [|fuel IH]; intros total st log recs log' Hinv H;
    [discriminate|].
  cbn [fetch_loop] in H.
  destruct (loop_cond total st) as [[|]|]; [| |discriminate].
  - rewrite loop_body_run in H.
    destruct (page_at srv (List.length log) _) as [data|e] eqn:Ep;
      cbn [bind] in H; [|discriminate].
    destruct (take_page limit data st) as [st'|e] eqn:Et; [|discriminate].
    refine (IH _ _ _ _ _ _ H).
    rewrite (take_page_items _ _ _ _ _ _ _ Ep Et), collected_snoc, Hinv.
    reflexivity.
  - injection H as <- <-. exact Hinv.
Qed.

(** X1: what a run returns is the records of the pages it was sent, page
    after page in request order, with nothing dropped, reordered or
    deduplicated; the one exception is the empty result of a run that
    stopped at its first request. *)
Theorem fetch_returns_pages_in_order
  (fuel : nat) (srv : service) (token jql : pystr) (limit : Z)
  (recs : list pyval) (log : list request) :
  fetch_all_tests fuel srv token jql limit = Some (Ok recs, log) ->
  recs = collected srv 0 log \/
  (recs = [] /\ log = [the_request token jql limit 0]).
Proof.
  unfold fetch_all_tests. rewrite get_tests_page_run. cbn [List.length app].
  destruct (page_at srv 0 _) as [data|e] eqn:Ep.
  - destruct (Py.get data (lit "total") (VInt 0)) as [total|]; [|discriminate].
    destruct (negb (Py.truthy total)).
    + intros H. injection H as <- <-. right. auto.
    + destruct (take_page limit data _) as [st|] eqn:Et; [|discriminate].
      intros H. left. refine (fetch_loop_collects _ _ _ _ _ _ _ _ _ _ _ H).
      rewrite (take_page_items _ _ _ _ _ _ _ Ep Et). cbn [out collected app].
      rewrite app_nil_r. reflexivity.
  - intros H. injection H as <- <-. right. auto.
Qed.

Lemma fetch_returns_pages_in_order_witness :
  fetch_all_tests 5 (paging_server 250 250 50) [] [] 100
    = Some (Ok (records_from 0 250),
            List.map (the_request [] [] 100) [0; 50; 100; 150; 200]) /\
  (records_from 0 250
     = collected (paging_server 250 250 50) 0
         (List.map (the_request [] [] 100) [0; 50; 100; 150; 200]) \/
   (records_from 0 250 = [] /\
    List.map (the_request [] [] 100) [0; 50; 100; 150; 200]
    = [the_request [] [] 100 0])).
Proof.
  split; [vm_compute; reflexivity|].
  apply (fetch_returns_pages_in_order 5 (paging_server 250 250 50) [] [] 100).
  vm_compute. reflexivity.
Defined.

Lemma fetch_loop_requests (srv : service) (token jql : pystr) (limit : Z)
  (fuel : nat) :
  forall total st log res log',
    Forall (request_of token jql limit) log ->
    fetch_loop fuel srv token jql limit total st log = Some (res, log') ->
    Forall (request_of token jql limit) log'.
Proof.
  induction fuel as [|fuel IH]; intros total st log res log' Hinv H;
    [discriminate|].
  assert (Hnext : Forall (request_of token jql limit)
                    (log ++ [the_request token jql limit (start st)])).
  { apply Forall_app. split; [exact Hinv|].
    constructor; [repeat split | constructor]. }
  cbn [fetch_loop] in H.
  destruct (loop_cond total st) as [[|]|].
  - rewrite loop_body_run in H.
    destruct (bind _ _) as [st'|e].
    + apply (IH _ _ _ _ _ Hnext H).
    + injection H as _ <-. exact Hnext.
  - injection H as _ <-. exact Hinv.
  - injection H as _ <-. exact Hinv.
Qed.

Lemma fetch_loop_extends (srv : service) (token jql : pystr) (limit : Z)
  (fuel : nat) :
  forall total st log res log',
    fetch_loop fuel srv token jql limit total st log = Some (res, log') ->
    exists ext, log' = log ++ ext.
Proof.
  induction fuel as [|fuel IH]; intros total st log res log' H; [discriminate|].
  cbn [fetch_loop] in H.
  destruct (loop_cond total st) as [[|]|].
  - rewrite loop_body_run in H.
    destruct (bind _ _) as [st'|e].
    + destruct (IH _ _ _ _ _ H) as [ext ->].
      eexists. rewrite <- app_assoc. reflexivity.
    + injection H as _ <-. eexists. reflexivity.
  - injection H as _ <-. exists []. rewrite app_nil_r. reflexivity.
  - injection H as _ <-. exists []. rewrite app_nil_r. reflexivity.
Qed.

Lemma fetch_all_tests_first_request
  (fuel : nat) (srv : service) (token jql : pystr) (limit : Z)
  (res : result (list pyval)) (log : list request) :
  fetch_all_tests fuel srv token jql limit = Some (res, log) ->
  exists rest, log = the_request token jql limit 0 :: rest.
Proof.
  unfold fetch_all_tests. rewrite get_tests_page_run. cbn [List.length app].
  destruct (page_at srv 0 _) as [data|e].
  - destruct (Py.get data (lit "total") (VInt 0)) as [total|].
    + destruct (negb (Py.truthy total)).
      * intros H. injection H as _ <-. eexists. reflexivity.
      * destruct (take_page limit data _) as [st|].
        -- intros H. destruct (fetch_loop_extends _ _ _ _ _ _ _ _ _ _ H) as [ext ->].
           eexists. reflexivity.
        -- intros H. injection H as _ <-. eexists. reflexivity.
    + intros H. injection H as _ <-. eexists. reflexivity.
  - intros H. injection H as _ <-. eexists. reflexivity.
Qed.

(** X2: every request of a run carries the token, the filter and the
    limit the caller gave, unchanged; the run sends at least one request
    and the first one asks for offset 0. *)
Theorem fetch_requests_carry_the_arguments
  (fuel : nat) (srv : service) (token jql : pystr) (limit : Z)
  (res : result (list pyval)) (log : list request) :
  fetch_all_tests fuel srv token jql limit = Some (res, log) ->
  Forall (request_of token jql limit) log /\
  exists rest, log = the_request token jql limit 0 :: rest.
Proof.
  intros H. split; [|exact (fetch_all_tests_first_request _ _ _ _ _ _ _ H)].
  revert H. unfold fetch_all_tests. rewrite get_tests_page_run.
  cbn [List.length app].
  assert (Hone : Forall (request_of token jql limit)
                   [the_request token jql limit 0])
    by (constructor; [repeat split | constructor]).
  destruct (page_at srv 0 _) as [data|e].
  - destruct (Py.get data (lit "total") (VInt 0)) as [total|].
    + destruct (negb (Py.truthy total)).
      * intros H. injection H as _ <-. exact Hone.
      * destruct (take_page limit data _) as [st|].
        -- apply fetch_loop_requests. exact Hone.
        -- intros H. injection H as _ <-. exact Hone.
    + intros H. injection H as _ <-. exact Hone.
  - intros H. injection H as _ <-. exact Hone.
Qed.

Lemma fetch_requests_carry_the_arguments_witness :
  fetch_all_tests 3 (honest_server 250) (lit "tok") (lit "project = X") 100
    = Some (Ok (records_from 0 250),
            List.map (the_request (lit "tok") (lit "project = X") 100)
              [0; 100; 200]) /\
  Forall (request_of (lit "tok") (lit "project = X") 100)
    (List.map (the_request (lit "tok") (lit "project = X") 100) [0; 100; 200]).
Proof.
  split; [vm_compute; reflexivity|].
  apply (fetch_requests_carry_the_arguments 3 (honest_server 250)
           (lit "tok") (lit "project = X") 100 (Ok (records_from 0 250))).
  vm_compute. reflexivity.
Defined.

Lemma fetch_loop_request_bound (srv : service) (token jql : pystr) (limit : Z) :
  advancing srv limit ->
  forall fuel total t st log res log',
    Py.as_int total = Ok t ->
    fetch_loop fuel srv token jql limit total st log = Some (res, log') ->
    Z.of_nat (List.length log')
    <= Z.of_nat (List.length log) + Z.max 0 (t - start st).
Proof.
  intros Hadv. induction fuel as [|fuel IH];
    intros total t st log res log' Ht H; [discriminate|].
  cbn [fetch_loop] in H. unfold loop_cond, Py.lt in H. rewrite Ht in H.
  cbn [bind] in H.
  destruct (start st <? t) eqn:Elt; cbn [andb] in H;
    [|injection H as _ <-; lia].
  apply Z.ltb_lt in Elt.
  destruct (Py.truthy (batch st)); [|injection H as _ <-; lia].
  rewrite loop_body_run in H.
  destruct (page_at srv (List.length log) _) as [data|e] eqn:Ep;
    cbn [bind] in H.
  - destruct (take_page limit data st) as [st'|e] eqn:Et.
    + destruct (take_page_inv _ _ _ _ Et)
        as (results & items & step & _ & _ & Hstep & ->).
      pose proof (Hadv (List.length log)
                    (the_request token jql limit (start st)) data step
                    eq_refl Ep Hstep) as Hpos.
      specialize (IH _ _ _ _ _ _ Ht H). rewrite length_app in IH.
      cbn [List.length start] in IH. lia.
    + injection H as _ <-. rewrite length_app. cbn [List.length]. lia.
  - injection H as _ <-. rewrite length_app. cbn [List.length]. lia.
Qed.

(** X3: against a service whose pages advance the offset (each reports
    a limit of at least 1), a run never sends more requests than the
    total the first page reported (and one request when that total is
    below 1). *)
Theorem fetch_request_count_bounded
  (fuel : nat) (srv : service) (token jql : pystr) (limit : Z)
  (data total : pyval) (t : Z) (res : result (list pyval)) (log : list request) :
  advancing srv limit ->
  page_at srv 0 (the_request token jql limit 0) = Ok data ->
  Py.get data (lit "total") (VInt 0) = Ok total ->
  Py.as_int total = Ok t ->
  fetch_all_tests fuel srv token jql limit = Some (res, log) ->
  Z.of_nat (List.length log) <= Z.max 1 t.
Proof.
  intros Hadv Hp Htotal Ht. unfold fetch_all_tests.
  rewrite get_tests_page_run. cbn [List.length app]. rewrite Hp, Htotal.
  destruct (negb (Py.truthy total)).
  - intros H. injection H as _ <-. cbn [List.length]. lia.
  - destruct (take_page limit data _) as [st|] eqn:Et.
    + destruct (take_page_inv _ _ _ _ Et)
        as (results & items & step & _ & _ & Hstep & ->).
      pose proof (Hadv 0%nat (the_request token jql limit 0) data step
                    eq_refl Hp Hstep) as Hpos.
      intros H.
      pose proof (fetch_loop_request_bound _ _ _ _ Hadv _ _ _ _ _ _ _ Ht H) as B.
      cbn [List.length start] in B. lia.
    + intros H. injection H as _ <-. cbn [List.length]. lia.
Qed.

Lemma fetch_request_count_bounded_witness :
  advancing (honest_server 250) 100 /\
  fetch_all_tests 3 (honest_server 250) [] [] 100
    = Some (Ok (records_from 0 250),
            List.map (the_request [] [] 100) [0; 100; 200]) /\
  Z.of_nat (List.length (List.map (the_request [] [] 100) [0; 100; 200]))
  <= Z.max 1 250.
Proof.
  split; [apply honest_server_advancing|]. split; [vm_compute; reflexivity|].
  apply (fetch_request_count_bounded 3 (honest_server 250) [] [] 100
           (obj [ ("total", VInt 250); ("start", VInt 0); ("limit", VInt 100);
                  ("results", VList (records_from 0 100)) ]%string)
           (VInt 250) 250 (Ok (records_from 0 250))).
  - apply honest_server_advancing.
  - vm_compute. reflexivity.
  - reflexivity.
  - reflexivity.
  - vm_compute. reflexivity.
Defined.

(** X4: when the first page reports no total, or a total that is 0,
    null or otherwise falsy, the run returns the empty sequence after
    that single request, even if the page carries records. *)
Theorem fetch_without_total_returns_empty
  (fuel : nat) (srv : service) (token jql : pystr) (limit : Z)
  (data total : pyval) :
  page_at srv 0 (the_request token jql limit 0) = Ok data ->
  Py.get data (lit "total") (VInt 0) = Ok total ->
  Py.truthy total = false ->
  fetch_all_tests fuel srv token jql limit
  = Some (Ok [], [the_request token jql limit 0]).
Proof.
  intros Hp Htotal Hfalsy. unfold fetch_all_tests.
  rewrite get_tests_page_run. cbn [List.length app].
  rewrite Hp, Htotal, Hfalsy. reflexivity.
Qed.

Lemma fetch_without_total_returns_empty_witness :
  page_items untotalled_server 0 (the_request [] [] 100 0) = [record_no 0] /\
  fetch_all_tests 9 untotalled_server [] [] 100
  = Some (Ok [], [the_request [] [] 100 0]).
Proof.
  split; [reflexivity|].
  apply (fetch_without_total_returns_empty 9 untotalled_server [] [] 100
           (obj [ ("limit", VInt 100); ("results", VList [record_no 0]) ]%string)
           (VInt 0)); reflexivity.
Defined.

(** X5: only the request itself is guarded on the first page.  When the
    request succeeds but the page is not a mapping (for instance
    [getTests] is null), reading its total raises [AttributeError], and
    the run raises it instead of returning an empty sequence. *)
Theorem fetch_malformed_first_page_raises
  (fuel : nat) (srv : service) (token jql : pystr) (limit : Z) (data : pyval) :
  page_at srv 0 (the_request token jql limit 0) = Ok data ->
  is_mapping data = false ->
  fetch_all_tests fuel srv token jql limit
  = Some (Raise AttributeError, [the_request token jql limit 0]).
Proof.
  intros Hp Hm. unfold fetch_all_tests.
  rewrite get_tests_page_run. cbn [List.length app]. rewrite Hp.
  destruct data; try discriminate; reflexivity.
Qed.

Lemma fetch_malformed_first_page_raises_witness :
  fetch_all_tests 9 null_page_server [] [] 100
  = Some (Raise AttributeError, [the_request [] [] 100 0]).
Proof.
  apply (fetch_malformed_first_page_raises 9 null_page_server [] [] 100 VNone);
    reflexivity.
Defined.

(* ================================================================== *)
(** * [gql] and [get_token] *)
(* ================================================================== *)

Lemma raise_for_status_ok (status : Z) :
  raise_for_status status = Ok tt <-> status_ok status.
Proof.
  unfold raise_for_status, status_ok.
  destruct (400 <=? status) eqn:E1, (status <? 600) eqn:E2; cbn [andb];
    try apply Z.leb_le in E1; try apply Z.leb_gt in E1;
    try apply Z.ltb_lt in E2; try apply Z.ltb_ge in E2;
    split; intros H; try reflexivity; try discriminate; lia.
Qed.

Lemma raise_for_status_cases (status : Z) :
  raise_for_status status = Ok tt \/ raise_for_status status = Raise HTTPError.
Proof. unfold raise_for_status. destruct (_ && _); auto. Qed.

(** X6: [gql] returns exactly when the reply has a status outside
    400..599 and a JSON object body without an [errors] member and with a
    [data] member, which is what it returns.  In every other case it
    raises: in particular on a reply that has [data] and [errors]
    together.  Either way the request is appended to the log. *)
Theorem gql_returns_data_exactly_when
  (srv : service) (token jql : pystr) (limit start : Z)
  (log : list request) (d : pyval) :
  let rq := the_request token jql limit start in
  snd (gql srv token (jql, limit, start) log) = log ++ [rq] /\
  (fst (gql srv token (jql, limit, start) log) = Ok d <->
   exists status j,
     srv (List.length log) rq = Reply status (Some (VDict j)) /\
     status_ok status /\
     Py.lookup (lit "errors") j = None /\
     Py.lookup (lit "data") j = Some d).
Proof.
  cbv zeta. unfold gql, io_bind, post, io_ret.
  fold (the_request token jql limit start).
  destruct (gql_decode (srv (List.length log) _)) eqn:Edec.
  all: split; [reflexivity|]; cbn [fst]; unfold gql_decode in Edec.
  all: destruct (srv (List.length log) (the_request token jql limit start))
         as [|status body] eqn:Esrv.
  all: split.
  all: try (intros (status' & j & Hr & _); discriminate Hr).
  all: try discriminate.
  - intros Heq. injection Heq as ->.
    destruct (raise_for_status_cases status) as [Hs|Hs]; rewrite Hs in Edec;
      [|discriminate].
    cbn [bind] in Edec. destruct body as [j|]; [|discriminate].
    cbn [bind resp_json] in Edec.
    destruct j as [| | |s|l|j]; try discriminate.
    + cbn [Py.contains bind] in Edec.
      destruct (PyStr.contains _ _); discriminate.
    + cbn [Py.contains bind] in Edec. destruct (existsb _ _); discriminate.
    + cbn [Py.contains bind Py.getitem] in Edec.
      destruct (Py.lookup (lit "errors") j) eqn:Eerr; [discriminate|].
      destruct (Py.lookup (lit "data") j) eqn:Edata; [|discriminate].
      injection Edec as ->.
      exists status, j. repeat split; try assumption.
      apply raise_for_status_ok. assumption.
  - intros (status' & j & Hr & Hs & Herr & Hdata).
    injection Hr as <- ->.
    apply raise_for_status_ok in Hs. rewrite Hs in Edec.
    cbn [bind resp_json Py.contains Py.getitem] in Edec.
    rewrite Herr, Hdata in Edec. symmetry. exact Edec.
  - intros (status' & j & Hr & Hs & Herr & Hdata).
    injection Hr as <- ->.
    apply raise_for_status_ok in Hs. rewrite Hs in Edec.
    cbn [bind resp_json Py.contains Py.getitem] in Edec.
    rewrite Herr, Hdata in Edec. discriminate.
Qed.

Lemma gql_returns_data_exactly_when_witness :
  fst (gql (honest_server 3) [] ([], 2, 0) [])
    = Ok (obj [("getTests",
            obj [ ("total", VInt 3); ("start", VInt 0); ("limit", VInt 2);
                  ("results", VList (records_from 0 2)) ])]%string) /\
  fst (gql (fun _ _ => partial_error_reply) [] ([], 2, 0) [])
    = Raise RuntimeError.
Proof.
  split; [|reflexivity].
  apply (proj2 (gql_returns_data_exactly_when (honest_server 3) [] [] 2 0 [] _)).
  exists 200. eexists. split; [reflexivity|].
  split; [left; lia|]. split; reflexivity.
Defined.

(** A body that is a JSON list holding the text [errors] passes the
    membership test; the subscript [j["errors"]] then raises a TypeError
    before the RuntimeError is built.  An object body raises the
    RuntimeError. *)
Example gql_decode_errors_outside_an_object :
  gql_decode (Reply 200 (Some (VList [txt "errors"]))) = Raise TypeError /\
  gql_decode (Reply 200 (Some (txt "errors"))) = Raise TypeError /\
  gql_decode partial_error_reply = Raise RuntimeError.
Proof. repeat split; reflexivity. Qed.

(** X7: [get_token] returns a token exactly when the authentication
    endpoint answers with a status outside 400..599 and a body that is a
    JSON string, the token.  A 200 answer carrying anything else, such as
    an error object, raises. *)
Theorem get_token_returns_exactly_when
  (auth : auth_service) (client_id client_secret token : pystr) :
  get_token auth client_id client_secret = Ok token <->
  exists status,
    auth client_id client_secret = Reply status (Some (VStr token)) /\
    status_ok status.
Proof.
  unfold get_token. split.
  - destruct (auth client_id client_secret) as [|status body]; [discriminate|].
    destruct (raise_for_status_cases status) as [Hs|Hs]; rewrite Hs;
      [|discriminate].
    cbn [bind]. destruct body as [j|]; [|discriminate].
    cbn [bind resp_json]. destruct j; try discriminate.
    intros H. injection H as ->. exists status. split; [reflexivity|].
    apply raise_for_status_ok. assumption.
  - intros (status & -> & Hs). apply raise_for_status_ok in Hs.
    rewrite Hs. reflexivity.
Qed.

Lemma get_token_returns_exactly_when_witness :
  get_token granting_auth (lit "id") (lit "secret") = Ok (lit "eyJhbGciOi") /\
  get_token refusing_auth (lit "id") (lit "secret") = Raise RuntimeError.
Proof.
  split; [|reflexivity].
  apply (proj2 (get_token_returns_exactly_when granting_auth
                  (lit "id") (lit "secret") (lit "eyJhbGciOi"))).
  exists 200. split; [reflexivity | left; lia].
Defined.

(* ================================================================== *)
(** * More on the custom-field formatter *)
(* ================================================================== *)

Lemma filter_map_filter {A B : Type} (p : B -> bool) (f : A -> B) (l : list A) :
  filter p (List.map f (filter (fun x => p (f x)) l)) = filter p (List.map f l).
Proof.
  induction l as [|x l IH]; [reflexivity|].
  cbn [filter List.map]. destruct (p (f x)) eqn:E; cbn [filter List.map].
  - rewrite E, IH. reflexivity.
  - exact IH.
Qed.

(** X8: the elements of a list that format to the empty text (empty
    strings, choice mappings with an empty [value]) leave no trace in the
    result: formatting the list is formatting it without them, so no
    separator is ever written for them. *)
Theorem format_list_ignores_empty_items (l : list pyval) :
  _format_jira_field_value (VList l)
  = _format_jira_field_value
      (VList (filter (fun item => nonempty (item_text item)) l)).
Proof. rewrite !format_list, filter_map_filter. reflexivity. Qed.

(** X9: a null is formatted as the empty text only when it is the field
    value itself.  Inside a choice mapping ([{"value": null}]) or as an
    element of a list it is written as the text "None". *)
Theorem format_null_inside_is_None :
  _format_jira_field_value VNone = Ok [] /\
  (forall d, Py.lookup (lit "value") d = Some VNone ->
             _format_jira_field_value (VDict d) = Ok (lit "None")) /\
  (forall before after,
      _format_jira_field_value (VList (before ++ VNone :: after))
      = Ok (PyStr.join (lit ", ")
              (filter nonempty (List.map item_text before)
               ++ lit "None" :: filter nonempty (List.map item_text after)))).
Proof.
  split; [reflexivity|]. split.
  - intros d H. rewrite (format_choice d VNone H). reflexivity.
  - intros before after. rewrite format_list, map_app, filter_app.
    reflexivity.
Qed.

Lemma format_null_inside_is_None_witness :
  _format_jira_field_value (VDict [(lit "value", VNone)]) = Ok (lit "None") /\
  _format_jira_field_value (VList [VStr (lit "a"); VNone]) = Ok (lit "a, None").
Proof.
  destruct format_null_inside_is_None as (_ & Hd & Hl). split.
  - apply (Hd [(lit "value", VNone)]). reflexivity.
  - exact (Hl [VStr (lit "a")] []).
Defined.

(* ================================================================== *)
(** * More on the flattener *)
(* ================================================================== *)

Lemma for_each_app {A S : Type} (body : S -> A -> result S) (a b : list A) :
  forall acc,
    for_each body (a ++ b) acc = bind (for_each body a acc) (for_each body b).
Proof.
  induction a as [|x a IH]; intros acc; [reflexivity|].
  cbn [app for_each]. destruct (body acc x); [apply IH | reflexivity].
Qed.

(** The rows already collected are only appended to. *)
Lemma step_body_appends (base : list (pystr * pyval)) (idx : Z)
  (rows : list pyval) (step : pyval) :
  step_body base (idx, rows) step
  = bind (step_body base (idx, []) step)
         (fun r => Ok (fst r, rows ++ snd r)).
Proof.
  unfold step_body.
  repeat match goal with
         | |- context [bind ?x _] =>
             match x with
             | bind _ _ => fail 1
             | _ => destruct x; cbn [bind]; try reflexivity
             end
         end.
Qed.

Lemma steps_loop_appends (base : list (pystr * pyval)) (steps : list pyval) :
  forall idx rows,
    for_each (step_body base) steps (idx, rows)
    = bind (for_each (step_body base) steps (idx, []))
           (fun r => Ok (fst r, rows ++ snd r)).
Proof.
  induction steps as [|step steps IH]; intros idx rows.
  - cbn [for_each bind fst snd]. rewrite app_nil_r. reflexivity.
  - cbn [for_each]. rewrite step_body_appends.
    destruct (step_body base (idx, []) step) as [[idx' new]|]; cbn [bind fst snd];
      [|reflexivity].
    rewrite (IH idx' (rows ++ new)), (IH idx' new).
    destruct (for_each (step_body base) steps (idx', [])) as [[idx'' more]|];
      cbn [bind fst snd]; [|reflexivity].
    rewrite app_assoc. reflexivity.
Qed.

Lemma test_body_appends (rows : list pyval) (test : pyval) :
  test_body rows test
  = bind (test_body [] test) (fun block => Ok (rows ++ block)).
Proof.
  unfold test_body.
  destruct (base_row test) as [base|]; cbn [bind]; [|reflexivity].
  destruct (Py.get test (lit "steps") VNone) as [s|]; cbn [bind]; [|reflexivity].
  destruct (negb (Py.truthy (Py.or_ s (VList [])))); [reflexivity|].
  destruct (Py.iter (Py.or_ s (VList []))) as [items|]; cbn [bind];
    [|reflexivity].
  rewrite steps_loop_appends.
  destruct (for_each (step_body base) items (1, [])) as [[idx new]|];
    reflexivity.
Qed.

Lemma flatten_loop_appends (tests : list pyval) :
  forall rows,
    for_each test_body tests rows
    = bind (for_each test_body tests []) (fun new => Ok (rows ++ new)).
Proof.
  induction tests as [|test tests IH]; intros rows.
  - cbn [for_each bind]. rewrite app_nil_r. reflexivity.
  - cbn [for_each]. rewrite test_body_appends.
    destruct (test_body [] test) as [block|]; cbn [bind app]; [|reflexivity].
    rewrite (IH (rows ++ block)), (IH block).
    destruct (for_each test_body tests []) as [more|]; cbn [bind];
      [|reflexivity].
    rewrite app_assoc. reflexivity.
Qed.

Lemma flatten_rows_concat (a b : list pyval) :
  flatten_rows (a ++ b)
  = bind (flatten_rows a)
         (fun rows_a => bind (flatten_rows b) (fun rows_b => Ok (rows_a ++ rows_b))).
Proof.
  unfold flatten_rows. rewrite for_each_app.
  destruct (for_each test_body a []) as [rows_a|]; cbn [bind]; [|reflexivity].
  apply flatten_loop_appends.
Qed.

(** X10: the rows of a Record do not depend on the Records around it:
    flattening a concatenation is flattening both parts and
    concatenating the rows, and it raises when either part does (the
    first part's error when both do). *)
Theorem flatten_rows_app (a b : list pyval) :
  flatten_rows (a ++ b)
  = (rows_a <- flatten_rows a ;;
     rows_b <- flatten_rows b ;;
     Ok (rows_a ++ rows_b)).
Proof. exact (flatten_rows_concat a b). Qed.

(** X11: nothing is returned when one Record cannot be flattened: if a
    test raises, the whole call raises that error, whatever rows the
    tests before it had produced and whatever follows.  A test that is
    not a mapping raises [AttributeError]. *)
Theorem flatten_rows_all_or_nothing :
  (forall before test after rows e,
      flatten_rows before = Ok rows ->
      flatten_rows [test] = Raise e ->
      flatten_rows (before ++ test :: after) = Raise e) /\
  (forall test, is_mapping test = false ->
                flatten_rows [test] = Raise AttributeError).
Proof.
  split.
  - intros before test after rows e Hb Ht.
    change (test :: after) with ([test] ++ after).
    rewrite !flatten_rows_concat, Hb, Ht. reflexivity.
  - intros test Hm. destruct test; try discriminate; reflexivity.
Qed.

Lemma flatten_rows_all_or_nothing_witness :
  flatten_rows [sample_record] <> Raise TypeError /\
  flatten_rows [record_with_numeric_label] = Raise TypeError /\
  flatten_rows [sample_record; record_with_numeric_label; sample_record_no_steps]
    = Raise TypeError /\
  flatten_rows [sample_record; VNone] = Raise AttributeError.
Proof.
  destruct flatten_rows_all_or_nothing as [Hall Hnon].
  split; [discriminate|]. split; [reflexivity|]. split.
  - destruct (flatten_rows [sample_record]) as [rows|e] eqn:E;
      [|vm_compute in E; discriminate].
    apply (Hall [sample_record] record_with_numeric_label [sample_record_no_steps]
             rows TypeError E).
    reflexivity.
  - destruct (flatten_rows [sample_record]) as [rows|e] eqn:E;
      [|vm_compute in E; discriminate].
    apply (Hall [sample_record] VNone [] rows AttributeError E).
    apply (Hnon VNone). reflexivity.
Defined.

(** Ill-typed members raise the error of the operation that meets them. *)
Example flatten_rows_ill_typed :
  flatten_rows [record_with_numeric_label] = Raise TypeError /\
  flatten_rows [record_with_numeric_precondition] = Raise AttributeError.
Proof. split; reflexivity. Qed.

(** ** The shape of the rows *)

Lemma bind_ok {A B : Type} (x : result A) (k : A -> result B) (b : B) :
  bind x k = Ok b -> exists a, x = Ok a /\ k a = Ok b.
Proof. destruct x as [a|e]; [|discriminate]. intros H. exists a. auto. Qed.

(** Take apart a successful chain of binds. *)
Ltac bind_ok_all :=
  repeat match goal with
         | H : bind _ _ = Ok _ |- _ =>
             let a := fresh "v" in
             let E := fresh "E" in
             apply bind_ok in H; destruct H as (a & E & H)
         | H : (let (_, _) := ?p in _) = Ok _ |- _ => destruct p
         | H : (if ?c then _ else _) = Ok _ |- _ => destruct c
         | H : Ok _ = Ok _ |- _ => injection H as H
         | H : Raise _ = Ok _ |- _ => discriminate H
         end.

Lemma base_row_shape (test : pyval) (base : list (pystr * pyval)) :
  base_row test = Ok base -> base_shape base.
Proof.
  unfold base_row, CUSTOM_FIELDS_TO_EXPORT. cbn [for_each]. intros H.
  bind_ok_all. subst. unfold base_shape. do 7 eexists. lazy. reflexivity.
Qed.

Lemma step_body_shape (base : list (pystr * pyval)) (idx idx' : Z)
  (rows rows' : list pyval) (step : pyval) :
  base_shape base -> 1 <= idx ->
  step_body base (idx, rows) step = Ok (idx', rows') ->
  idx' = idx + 1 /\ exists row, rows' = rows ++ [row] /\ row_shape row.
Proof.
  intros (key & summary & labels & c1 & c2 & titles & defs & ->) Hidx H.
  unfold step_body in H. bind_ok_all. subst.
  split; [reflexivity|]. eexists. split; [reflexivity|].
  unfold row_shape. do 11 eexists. split; [lazy; reflexivity|].
  right. exists idx. auto.
Qed.

Lemma steps_loop_shape (base : list (pystr * pyval)) (steps : list pyval) :
  base_shape base ->
  forall idx rows idx' rows',
    1 <= idx -> Forall row_shape rows ->
    for_each (step_body base) steps (idx, rows) = Ok (idx', rows') ->
    Forall row_shape rows'.
Proof.
  intros Hbase. induction steps as [|step steps IH];
    intros idx rows idx' rows' Hidx Hrows H.
  - cbn [for_each] in H. injection H as _ <-. exact Hrows.
  - cbn [for_each] in H. apply bind_ok in H as ([idx1 rows1] & Hstep & Hrest).
    destruct (step_body_shape _ _ _ _ _ _ Hbase Hidx Hstep)
      as (-> & row & -> & Hrow).
    apply (IH (idx + 1) (rows ++ [row]) idx' rows'); [lia | | exact Hrest].
    apply Forall_app. split; [exact Hrows | constructor; [exact Hrow | constructor]].
Qed.

Lemma test_body_shape (rows rows' : list pyval) (test : pyval) :
  Forall row_shape rows ->
  test_body rows test = Ok rows' ->
  Forall row_shape rows'.
Proof.
  intros Hrows H. unfold test_body in H.
  apply bind_ok in H as (base & Hbase & H).
  apply bind_ok in H as (s & _ & H).
  pose proof (base_row_shape _ _ Hbase) as Hshape.
  destruct (negb (Py.truthy (Py.or_ s (VList [])))).
  - injection H as <-. apply Forall_app. split; [exact Hrows|].
    constructor; [|constructor].
    destruct Hshape as (key & summary & labels & c1 & c2 & titles & defs & ->).
    unfold row_shape. do 11 eexists. split; [lazy; reflexivity|].
    left. reflexivity.
  - apply bind_ok in H as (items & _ & H).
    apply bind_ok in H as ([idx new] & Hloop & H).
    injection H as <-. cbn [snd].
    apply (steps_loop_shape base items Hshape 1 rows idx new); [lia | exact Hrows | exact Hloop].
Qed.

Lemma flatten_rows_rows_shaped (tests rows : list pyval) :
  flatten_rows tests = Ok rows -> Forall row_shape rows.
Proof.
  unfold flatten_rows.
  assert (H : forall acc, Forall row_shape acc ->
                for_each test_body tests acc = Ok rows -> Forall row_shape rows).
  { induction tests as [|test tests IH]; intros acc Hacc H.
    - cbn [for_each] in H. injection H as <-. exact Hacc.
    - cbn [for_each] in H. apply bind_ok in H as (acc' & Htest & Hrest).
      apply (IH acc'); [|exact Hrest].
      apply (test_body_shape acc acc' test Hacc Htest). }
  apply H. constructor.
Qed.

(** X12: every row that [flatten_rows] returns is a mapping with the
    same eleven columns in the same order: Test Key, Summary, Labels, the
    two configured custom-field columns, the two issue-precondition
    columns, Step #, Step Precondition, Action and Expected Result.
    Labels, the custom-field columns, the issue-precondition columns and
    the three step texts are always texts; Step # is the empty text or a
    number from 1.  (Test Key and Summary are whatever the issue holds.) *)
Theorem flatten_rows_row_shape (tests rows : list pyval) :
  flatten_rows tests = Ok rows -> Forall row_shape rows.
Proof. exact (flatten_rows_rows_shaped tests rows). Qed.

Lemma flatten_rows_row_shape_witness :
  exists rows,
    flatten_rows [sample_record; sample_record_no_steps] = Ok rows /\
    Forall row_shape rows.
Proof.
  destruct (flatten_rows [sample_record; sample_record_no_steps])
    as [rows|e] eqn:E; [|vm_compute in E; discriminate].
  exists rows. split; [reflexivity|].
  exact (flatten_rows_row_shape [sample_record; sample_record_no_steps] rows E).
Defined.

(** ** The record-level columns *)

(** X13: the record-level columns of a Record.  Test Key and Summary
    are the issue's [key] and [summary] as they are, "" standing in only
    when the member is missing; Labels is the labels joined by ", "; each
    custom-field column is the formatted value of its field; the titles
    column joins by "; " the "KEY - summary" of the issue preconditions
    that have both, and the definitions column joins by " | " the
    normalized definitions of those that have one, each list in
    precondition order and independent of the other. *)
Theorem base_row_columns (test : pyval) :
  record_ok test = true ->
  base_row test
  = Ok [ (lit "Test Key", member_or_empty (jira_of test) "key");
         (lit "Summary", member_or_empty (jira_of test) "summary");
         (lit "Labels",
          VStr (PyStr.join (lit ", ") (List.map text_of (labels_of test))));
         (lit "Components",
          VStr (formatted (member (jira_of test) "customfield_10138")));
         (lit "Custom Field 2",
          VStr (formatted (member (jira_of test) "customfield_10167")));
         (lit "Issue Preconditions (keys & titles)",
          VStr (PyStr.join (lit "; ")
                  (choose precondition_title (issue_preconditions_of test))));
         (lit "Issue Preconditions Definition",
          VStr (PyStr.join (lit " | ")
                  (choose precondition_definition (issue_preconditions_of test)))) ].
Proof. exact (base_row_value test). Qed.

Lemma base_row_columns_witness :
  record_ok sample_record_no_steps = true /\
  (exists base,
     base_row sample_record_no_steps = Ok base /\
     Py.lookup (lit "Issue Preconditions (keys & titles)") base
       = Some (txt "PRE-1 - User exists") /\
     Py.lookup (lit "Issue Preconditions Definition") base
       = Some (txt "a user exists | db is up") /\
     Py.lookup (lit "Components") base = Some (txt "API, UI")) /\
  (exists base,
     base_row record_with_null_key = Ok base /\
     Py.lookup (lit "Test Key") base = Some VNone /\
     Py.lookup (lit "Summary") base = Some (VStr [])).
Proof.
  split; [reflexivity|]. split.
  - eexists. split; [apply (base_row_columns sample_record_no_steps); reflexivity|].
    repeat split; reflexivity.
  - eexists. split; [apply (base_row_columns record_with_null_key); reflexivity|].
    split; reflexivity.
Defined.

(* ================================================================== *)
(** * The field diagnostics *)
(* ================================================================== *)

Lemma str_compare_eq (a b : pystr) : str_compare a b = Eq <-> a = b.
Proof.
  revert b. induction a as [|x a IH]; intros [|y b]; cbn [str_compare];
    split; try congruence; try discriminate.
  - destruct (N.compare x y) eqn:E; try discriminate.
    apply N.compare_eq_iff in E. intros H. apply IH in H. congruence.
  - intros H. injection H as -> ->. rewrite N.compare_refl. apply IH. reflexivity.
Qed.

Lemma str_compare_antisym (a b : pystr) :
  str_compare b a = CompOpp (str_compare a b).
Proof.
  revert b. induction a as [|x a IH]; intros [|y b]; cbn [str_compare];
    try reflexivity.
  rewrite (N.compare_antisym x y).
  destruct (N.compare x y); cbn [CompOpp]; [apply IH | reflexivity | reflexivity].
Qed.

Lemma str_leb_total (a b : pystr) : str_leb a b = false -> str_leb b a = true.
Proof.
  unfold str_leb. rewrite (str_compare_antisym a b).
  destruct (str_compare a b); cbn [CompOpp]; congruence.
Qed.

Lemma in_insert_sorted (x y : pystr) (l : list pystr) :
  In x (insert_sorted y l) <-> x = y \/ In x l.
Proof.
  induction l as [|z l IH]; cbn [insert_sorted In].
  - intuition congruence.
  - destruct (str_leb y z); cbn [In]; rewrite ?IH; intuition congruence.
Qed.

Lemma in_sorted (x : pystr) (l : list pystr) : In x (sorted l) <-> In x l.
Proof.
  induction l as [|y l IH]; cbn [sorted fold_right In]; [tauto|].
  fold (sorted l). rewrite in_insert_sorted, IH. intuition congruence.
Qed.

Lemma insert_sorted_sorted (x : pystr) (l : list pystr) :
  Sorted (fun a b => str_leb a b = true) l ->
  Sorted (fun a b => str_leb a b = true) (insert_sorted x l).
Proof.
  induction l as [|y l IH]; intros Hs; cbn [insert_sorted].
  - constructor; constructor.
  - destruct (str_leb x y) eqn:E.
    + constructor; [exact Hs | constructor; exact E].
    + inversion Hs as [|? ? Hl Hhd]; subst.
      constructor; [apply IH; exact Hl|].
      destruct l as [|z l]; cbn [insert_sorted].
      * constructor. apply str_leb_total. exact E.
      * destruct (str_leb x z).
        -- constructor. apply str_leb_total. exact E.
        -- inversion Hhd; subst. constructor. assumption.
Qed.

Lemma sorted_sorted (l : list pystr) :
  Sorted (fun a b => str_leb a b = true) (sorted l).
Proof.
  induction l as [|x l IH]; cbn [sorted fold_right]; [constructor|].
  apply insert_sorted_sorted. exact IH.
Qed.

Lemma insert_sorted_nodup (x : pystr) (l : list pystr) :
  ~ In x l -> NoDup l -> NoDup (insert_sorted x l).
Proof.
  induction l as [|y l IH]; intros Hx Hl; cbn [insert_sorted].
  - constructor; [tauto | constructor].
  - destruct (str_leb x y).
    + constructor; assumption.
    + inversion Hl; subst. constructor.
      * rewrite in_insert_sorted. cbn [In] in Hx. intuition congruence.
      * apply IH; [cbn [In] in Hx; tauto | assumption].
Qed.

Lemma sorted_nodup (l : list pystr) : NoDup l -> NoDup (sorted l).
Proof.
  induction 1 as [|x l Hx Hl IH]; cbn [sorted fold_right]; [constructor|].
  apply insert_sorted_nodup; [|exact IH].
  fold (sorted l). rewrite in_sorted. exact Hx.
Qed.

Lemma existsb_eqb_in (x : pystr) (l : list pystr) :
  existsb (PyStr.eqb x) l = true <-> In x l.
Proof.
  rewrite existsb_exists. split.
  - intros (y & Hy & E). apply pystr_eqb_eq in E. congruence.
  - intros H. exists x. split; [exact H | apply pystr_eqb_refl].
Qed.

Lemma in_set_of (x : pystr) (l : list pystr) : In x (set_of l) <-> In x l.
Proof.
  induction l as [|y l IH]; cbn [set_of In]; [tauto|].
  destruct (existsb (PyStr.eqb y) l) eqn:E; cbn [In]; rewrite IH.
  - apply existsb_eqb_in in E. intuition congruence.
  - tauto.
Qed.

Lemma set_of_nodup (l : list pystr) : NoDup (set_of l).
Proof.
  induction l as [|y l IH]; cbn [set_of]; [constructor|].
  destruct (existsb (PyStr.eqb y) l) eqn:E; [exact IH|].
  constructor; [|exact IH]. rewrite in_set_of. intros H.
  apply existsb_eqb_in in H. congruence.
Qed.

(** Sorted without repetition is strictly ascending. *)
Lemma sorted_strict (l : list pystr) :
  Sorted (fun a b => str_leb a b = true) l -> NoDup l -> Sorted str_lt l.
Proof.
  induction 1 as [|x l Hl IH Hhd]; intros Hnd; [constructor|].
  inversion Hnd as [|? ? Hx Hnd']; subst.
  constructor; [apply IH; exact Hnd'|].
  destruct Hhd as [|y l Hxy]; constructor.
  unfold str_lt. unfold str_leb in Hxy.
  destruct (str_compare x y) eqn:E; [|reflexivity | discriminate].
  apply str_compare_eq in E. subst. cbn [In] in Hx. tauto.
Qed.

Lemma has_row_in (f : pystr) (diag : diag_table) :
  has_row f diag = true <-> In f (List.map fst diag).
Proof.
  induction diag as [|[g row] diag IH]; cbn [has_row List.map fst In].
  - split; [discriminate | tauto].
  - rewrite orb_true_iff, IH, pystr_eqb_eq. intuition congruence.
Qed.

Lemma set_cell_keys (f : pystr) (k : pyval) (text : pystr) (diag : diag_table) :
  List.map fst (set_cell f k text diag) = List.map fst diag.
Proof.
  induction diag as [|[g row] diag IH]; [reflexivity|].
  cbn [set_cell]. destruct (PyStr.eqb f g); cbn [List.map fst]; congruence.
Qed.

Lemma diagnose_field_keys (jira_info test_key : pyval) (diag diag' : diag_table)
  (f : pystr) :
  diagnose_field jira_info test_key diag f = Ok diag' ->
  List.map fst diag'
  = if has_row f diag then List.map fst diag else List.map fst diag ++ [f].
Proof.
  unfold diagnose_field. intros H. bind_ok_all. subst.
  rewrite set_cell_keys. destruct (has_row f diag); [reflexivity|].
  rewrite map_app. reflexivity.
Qed.

(** The fields of one test: the rows missing from the table are created
    in the order of the field ids. *)
Lemma diagnose_fields_keys (jira_info test_key : pyval) (ids : list pystr) :
  forall pre diag diag',
    NoDup (pre ++ ids) ->
    List.map fst diag = pre ->
    for_each (diagnose_field jira_info test_key) ids diag = Ok diag' ->
    List.map fst diag' = pre ++ ids.
Proof.
  induction ids as [|f ids IH]; intros pre diag diag' Hnd Hkeys H.
  - cbn [for_each] in H. injection H as <-. rewrite app_nil_r. exact Hkeys.
  - cbn [for_each] in H. apply bind_ok in H as (diag1 & Hf & Hrest).
    apply diagnose_field_keys in Hf.
    assert (Hnew : has_row f diag = false).
    { destruct (has_row f diag) eqn:E; [|reflexivity].
      apply has_row_in in E. rewrite Hkeys in E.
      apply NoDup_remove_2 in Hnd. exfalso. apply Hnd.
      apply in_or_app. left. exact E. }
    rewrite Hnew, Hkeys in Hf.
    replace (pre ++ f :: ids) with ((pre ++ [f]) ++ ids)
      by (rewrite <- app_assoc; reflexivity).
    apply (IH (pre ++ [f]) diag1 diag'); [|exact Hf | exact Hrest].
    rewrite <- app_assoc. exact Hnd.
Qed.

Lemma diagnose_fields_keep (jira_info test_key : pyval) (ids : list pystr) :
  forall diag diag',
    (forall f, In f ids -> In f (List.map fst diag)) ->
    for_each (diagnose_field jira_info test_key) ids diag = Ok diag' ->
    List.map fst diag' = List.map fst diag.
Proof.
  induction ids as [|f ids IH]; intros diag diag' Hin H.
  - cbn [for_each] in H. injection H as <-. reflexivity.
  - cbn [for_each] in H. apply bind_ok in H as (diag1 & Hf & Hrest).
    apply diagnose_field_keys in Hf.
    assert (Hold : has_row f diag = true)
      by (apply has_row_in, Hin; left; reflexivity).
    rewrite Hold in Hf. rewrite <- Hf.
    apply (IH diag1 diag'); [|exact Hrest].
    intros g Hg. rewrite Hf. apply Hin. right. exact Hg.
Qed.

Lemma diagnose_tests_keys (ids : list pystr) (tests : list pyval) :
  NoDup ids ->
  forall diag diag',
    List.map fst diag = ids ->
    for_each (diagnose_test ids) tests diag = Ok diag' ->
    List.map fst diag' = ids.
Proof.
  intros Hnd. induction tests as [|test tests IH]; intros diag diag' Hkeys H.
  - cbn [for_each] in H. injection H as <-. exact Hkeys.
  - cbn [for_each] in H. apply bind_ok in H as (diag1 & Htest & Hrest).
    apply (IH diag1 diag'); [|exact Hrest].
    unfold diagnose_test in Htest.
    apply bind_ok in Htest as (j & _ & Htest).
    apply bind_ok in Htest as (k & _ & Htest).
    assert (Hall : forall f, In f ids -> In f (List.map fst diag))
      by (intros f Hf; rewrite Hkeys; exact Hf).
    rewrite (diagnose_fields_keep _ _ _ _ _ Hall Htest). exact Hkeys.
Qed.

Lemma custom_keys_loop (tests : list pyval) :
  forall acc ids,
    for_each custom_keys_body tests acc = Ok ids ->
    forall f, In f ids <-> In f acc \/ observed_field tests f.
Proof.
  induction tests as [|test tests IH]; intros acc ids H f.
  - cbn [for_each] in H. injection H as <-. split; [auto|].
    intros [Hf | (_ & t & j & ks & [] & _)]. exact Hf.
  - cbn [for_each] in H. apply bind_ok in H as (acc1 & Hbody & Hrest).
    rewrite (IH _ _ Hrest f). unfold custom_keys_body in Hbody.
    apply bind_ok in Hbody as (j & Hj & Hbody).
    apply bind_ok in Hbody as (ks & Hks & Hbody). injection Hbody as <-.
    rewrite in_app_iff, filter_In. unfold observed_field. split.
    + intros [[Hacc | [Hin Hpre]] | (Hpre & t & j' & ks' & Ht & Hj' & Hks' & Hin)].
      * left. exact Hacc.
      * right. split; [exact Hpre|]. exists test, j, ks.
        repeat split; try assumption. left. reflexivity.
      * right. split; [exact Hpre|]. exists t, j', ks'.
        repeat split; try assumption. right. exact Ht.
    + intros [Hacc | (Hpre & t & j' & ks' & [Ht | Ht] & Hj' & Hks' & Hin)].
      * left. left. exact Hacc.
      * subst t. rewrite Hj in Hj'. injection Hj' as <-.
        rewrite Hks in Hks'. injection Hks' as <-.
        left. right. split; assumption.
      * right. split; [exact Hpre|]. exists t, j', ks'. repeat split; assumption.
Qed.

(** X14: the rows of the diagnostics table are labelled with the
    [customfield_] keys found in the [jira] mapping of at least one of
    the sampled tests: each such key once, in ascending order of [str]
    (so [customfield_10] comes before [customfield_2]), and no other
    key. *)
Theorem field_diagnostics_rows (tests : list pyval) (diag : diag_table) :
  field_diagnostics tests = Ok diag ->
  Sorted str_lt (List.map fst diag) /\
  forall f, In f (List.map fst diag) <-> observed_field tests f.
Proof.
  unfold field_diagnostics. intros H.
  apply bind_ok in H as (ids & Hids & Htable).
  assert (Hnd : NoDup (sorted (set_of ids)))
    by (apply sorted_nodup, set_of_nodup).
  assert (Hkeys : List.map fst diag = sorted (set_of ids)).
  { destruct tests as [|test tests].
    - cbn [for_each] in *. injection Hids as <-. injection Htable as <-.
      reflexivity.
    - cbn [for_each] in Htable. apply bind_ok in Htable as (diag1 & Htest & Hrest).
      apply (diagnose_tests_keys _ tests Hnd diag1 diag); [|exact Hrest].
      unfold diagnose_test in Htest.
      apply bind_ok in Htest as (j & _ & Htest).
      apply bind_ok in Htest as (k & _ & Htest).
      apply (diagnose_fields_keys j k _ [] [] diag1); [exact Hnd | reflexivity|].
      exact Htest. }
  rewrite Hkeys. split.
  - apply sorted_strict; [apply sorted_sorted | exact Hnd].
  - intros f. rewrite in_sorted, in_set_of.
    rewrite (custom_keys_loop _ _ _ Hids f). cbn [In]. tauto.
Qed.

Lemma field_diagnostics_rows_witness :
  exists diag,
    field_diagnostics [diag_test_1; diag_test_2] = Ok diag /\
    List.map fst diag
      = [lit "customfield_1"; lit "customfield_10"; lit "customfield_2"] /\
    Sorted str_lt (List.map fst diag).
Proof.
  destruct (field_diagnostics [diag_test_1; diag_test_2]) as [diag|e] eqn:E;
    [|vm_compute in E; discriminate].
  exists diag. split; [reflexivity|]. split.
  - vm_compute in E. injection E as <-. reflexivity.
  - exact (proj1 (field_diagnostics_rows [diag_test_1; diag_test_2] diag E)).
Defined.

(** ** The cells of the table *)

Lemma table_lookup_set_cell (g f : pystr) (k : pyval) (text : pystr)
  (diag : diag_table) :
  table_lookup g (set_cell f k text diag)
  = if PyStr.eqb g f
    then option_map (cell_store k text) (table_lookup f diag)
    else table_lookup g diag.
Proof.
  induction diag as [|[h row] diag IH]; cbn [set_cell table_lookup].
  - destruct (PyStr.eqb g f); reflexivity.
  - destruct (PyStr.eqb f h) eqn:Efh; cbn [table_lookup].
    + apply pystr_eqb_eq in Efh. subst h.
      destruct (PyStr.eqb g f); reflexivity.
    + destruct (PyStr.eqb g h) eqn:Egh.
      * apply pystr_eqb_eq in Egh. subst h.
        destruct (PyStr.eqb g f) eqn:Egf; [|reflexivity].
        apply pystr_eqb_eq in Egf. subst g. rewrite pystr_eqb_refl in Efh.
        discriminate.
      * exact IH.
Qed.

Lemma table_lookup_new_row (g f : pystr) (diag : diag_table) :
  table_lookup g (diag ++ [(f, [])])
  = match table_lookup g diag with
    | Some row => Some row
    | None => if PyStr.eqb g f then Some [] else None
    end.
Proof.
  induction diag as [|[h row] diag IH]; cbn [app table_lookup]; [reflexivity|].
  destruct (PyStr.eqb g h); [reflexivity | exact IH].
Qed.

Lemma table_lookup_has_row (f : pystr) (diag : diag_table) :
  has_row f diag = false -> table_lookup f diag = None.
Proof.
  induction diag as [|[h row] diag IH]; cbn [has_row table_lookup];
    [reflexivity|].
  intros H. apply orb_false_iff in H as [-> H]. apply IH. exact H.
Qed.

Lemma table_lookup_has_row_some (f : pystr) (diag : diag_table) :
  has_row f diag = true -> exists row, table_lookup f diag = Some row.
Proof.
  induction diag as [|[h row] diag IH]; cbn [has_row table_lookup];
    [discriminate|].
  destruct (PyStr.eqb f h); [eexists; reflexivity | exact IH].
Qed.

Lemma diagnose_field_lookup (j k : pyval) (diag diag' : diag_table)
  (f g : pystr) :
  diagnose_field j k diag f = Ok diag' ->
  table_lookup g diag'
  = if PyStr.eqb g f
    then Some (cell_store k
                 (formatted match Py.get j f VNone with Ok v => v | Raise _ => VNone end)
                 (row_or_empty f diag))
    else table_lookup g diag.
Proof.
  unfold diagnose_field. intros H.
  apply bind_ok in H as (value & Hv & H).
  apply bind_ok in H as (text & Ht & H).
  destruct (hashable k); [|discriminate]. injection H as <-.
  rewrite Hv. unfold formatted. rewrite Ht.
  rewrite table_lookup_set_cell. unfold row_or_empty.
  destruct (PyStr.eqb g f) eqn:Egf.
  - destruct (has_row f diag) eqn:Eh.
    + destruct (table_lookup_has_row_some _ _ Eh) as [row ->]. reflexivity.
    + rewrite table_lookup_new_row, (table_lookup_has_row _ _ Eh).
      rewrite pystr_eqb_refl. reflexivity.
  - destruct (has_row f diag); [reflexivity|].
    rewrite table_lookup_new_row, Egf.
    destruct (table_lookup g diag); reflexivity.
Qed.

Lemma diagnose_fields_lookup (j k : pyval) (ids : list pystr) :
  NoDup ids ->
  forall diag diag' g,
    for_each (diagnose_field j k) ids diag = Ok diag' ->
    table_lookup g diag'
    = if existsb (PyStr.eqb g) ids
      then Some (cell_store k
                   (formatted match Py.get j g VNone with Ok v => v | Raise _ => VNone end)
                   (row_or_empty g diag))
      else table_lookup g diag.
Proof.
  induction 1 as [|f ids Hf Hnd IH]; intros diag diag' g H.
  - cbn [for_each] in H. injection H as <-. reflexivity.
  - cbn [for_each] in H. apply bind_ok in H as (diag1 & H1 & Hrest).
    rewrite (IH _ _ g Hrest). cbn [existsb].
    pose proof (diagnose_field_lookup _ _ _ _ _ g H1) as Hg.
    destruct (PyStr.eqb g f) eqn:Egf; cbn [orb].
    + apply pystr_eqb_eq in Egf. subst g.
      destruct (existsb (PyStr.eqb f) ids) eqn:Ein.
      * apply existsb_eqb_in in Ein. contradiction.
      * exact Hg.
    + destruct (existsb (PyStr.eqb g) ids); [|exact Hg].
      unfold row_or_empty. rewrite Hg. reflexivity.
Qed.

Lemma diagnose_tests_lookup (ids : list pystr) (tests : list pyval) :
  NoDup ids ->
  forall diag diag' g,
    for_each (diagnose_test ids) tests diag = Ok diag' ->
    table_lookup g diag'
    = if existsb (PyStr.eqb g) ids && nonempty_list tests
      then Some (row_of_field tests g (row_or_empty g diag))
      else table_lookup g diag.
Proof.
  intros Hnd. induction tests as [|test tests IH]; intros diag diag' g H.
  - cbn [for_each] in H. injection H as <-. rewrite andb_false_r. reflexivity.
  - cbn [for_each] in H. apply bind_ok in H as (diag1 & Htest & Hrest).
    rewrite (IH _ _ g Hrest). cbn [nonempty_list]. rewrite andb_true_r.
    unfold diagnose_test in Htest.
    apply bind_ok in Htest as (j & Hj & Htest).
    apply bind_ok in Htest as (k & Hk & Htest).
    pose proof (diagnose_fields_lookup j k ids Hnd _ _ g Htest) as Hg.
    assert (Hkey : diag_key test = k)
      by (unfold diag_key, diag_jira; rewrite Hj, Hk; reflexivity).
    assert (Hval : diag_value test g
                   = match Py.get j g VNone with Ok v => v | Raise _ => VNone end)
      by (unfold diag_value, diag_jira; rewrite Hj; reflexivity).
    destruct (existsb (PyStr.eqb g) ids); cbn [andb].
    + unfold row_of_field. cbn [fold_left]. rewrite Hkey, Hval.
      unfold row_or_empty at 1. rewrite Hg.
      destruct tests; reflexivity.
    + exact Hg.
Qed.

Lemma field_diagnostics_row (tests : list pyval) (diag : diag_table)
  (f : pystr) (row : list (pyval * pystr)) :
  field_diagnostics tests = Ok diag ->
  table_lookup f diag = Some row ->
  row = row_of_field tests f [].
Proof.
  unfold field_diagnostics. intros H Hrow.
  apply bind_ok in H as (ids & _ & Htable).
  rewrite (diagnose_tests_lookup _ tests
             (sorted_nodup _ (set_of_nodup ids)) _ _ f Htable) in Hrow.
  destruct (_ && _); [|discriminate]. injection Hrow as <-. reflexivity.
Qed.

(** Equal keys: an equivalence on the values that can be keys. *)
Lemma key_eqb_refl (k : pyval) : hashable k = true -> key_eqb k k = true.
Proof.
  destruct k as [|b|z|s| |]; try discriminate; intros _; cbn.
  - reflexivity.
  - destruct b; reflexivity.
  - apply Z.eqb_refl.
  - apply pystr_eqb_refl.
Qed.

Lemma key_eqb_meet (a b c : pyval) :
  key_eqb a c = true -> key_eqb b c = true -> key_eqb a b = true.
Proof.
  destruct a as [|x|x|x| |], b as [|y|y|y| |], c as [|z|z|z| |];
    cbn; try discriminate; try reflexivity;
    repeat match goal with b : bool |- _ => destruct b end;
    rewrite ?Z.eqb_eq, ?pystr_eqb_eq; intros; try discriminate; congruence.
Qed.

Lemma cell_lookup_store_same (k : pyval) (text : pystr) (row : list (pyval * pystr)) :
  hashable k = true -> cell_lookup k (cell_store k text row) = Some text.
Proof.
  intros Hk. induction row as [|[k' t'] row IH]; cbn [cell_store cell_lookup].
  - rewrite (key_eqb_refl _ Hk). reflexivity.
  - destruct (key_eqb k k') eqn:E; cbn [cell_lookup]; rewrite E;
      [reflexivity | exact IH].
Qed.

Lemma cell_lookup_store_other (k k' : pyval) (text : pystr)
  (row : list (pyval * pystr)) :
  key_eqb k k' = false ->
  cell_lookup k (cell_store k' text row) = cell_lookup k row.
Proof.
  intros Hne. induction row as [|[k0 t0] row IH]; cbn [cell_store cell_lookup].
  - rewrite Hne. reflexivity.
  - destruct (key_eqb k' k0) eqn:E; cbn [cell_lookup].
    + destruct (key_eqb k k0) eqn:E0; [|reflexivity].
      rewrite (key_eqb_meet _ _ _ E0 E) in Hne. discriminate.
    + rewrite IH. reflexivity.
Qed.

Lemma cell_lookup_later_tests (k : pyval) (text : pystr) (f : pystr)
  (after : list pyval) :
  forall row,
    cell_lookup k row = Some text ->
    (forall later, In later after -> key_eqb k (diag_key later) = false) ->
    cell_lookup k (row_of_field after f row) = Some text.
Proof.
  unfold row_of_field.
  induction after as [|later after IH]; intros row Hrow Hlater; [exact Hrow|].
  cbn [fold_left]. apply IH.
  - rewrite cell_lookup_store_other; [exact Hrow|].
    apply Hlater. left. reflexivity.
  - intros l Hl. apply Hlater. right. exact Hl.
Qed.

(** X15: the cell of a field for a test holds the formatted value that
    test has for the field, the empty text when it has none, under the
    test's key, provided the key can be a dict key (it is not a list or a
    mapping) and no later test of the sample has an equal key (a later
    one would overwrite the cell). *)
Theorem field_diagnostics_cell (before after : list pyval) (test : pyval)
  (diag : diag_table) (f : pystr) (row : list (pyval * pystr)) :
  field_diagnostics (before ++ test :: after) = Ok diag ->
  table_lookup f diag = Some row ->
  hashable (diag_key test) = true ->
  (forall later, In later after ->
                 key_eqb (diag_key test) (diag_key later) = false) ->
  cell_lookup (diag_key test) row = Some (formatted (diag_value test f)).
Proof.
  intros Hrun Hrow Hk Hlater.
  rewrite (field_diagnostics_row _ _ _ _ Hrun Hrow).
  unfold row_of_field. rewrite fold_left_app. cbn [fold_left].
  apply cell_lookup_later_tests; [|exact Hlater].
  apply cell_lookup_store_same. exact Hk.
Qed.

Lemma field_diagnostics_cell_witness :
  exists diag row,
    field_diagnostics [diag_test_1; diag_test_2] = Ok diag /\
    table_lookup (lit "customfield_10") diag = Some row /\
    cell_lookup (txt "T-1") row = Some (lit "High") /\
    cell_lookup (txt "T-2") row = Some [].
Proof.
  destruct (field_diagnostics [diag_test_1; diag_test_2]) as [diag|e] eqn:E;
    [|vm_compute in E; discriminate].
  destruct (table_lookup (lit "customfield_10") diag) as [row|] eqn:Er;
    [|vm_compute in E; injection E as <-; vm_compute in Er; discriminate].
  exists diag, row. split; [reflexivity|]. split; [exact Er|]. split.
  - apply (field_diagnostics_cell [] [diag_test_2] diag_test_1 diag
             (lit "customfield_10") row E Er); [reflexivity|].
    intros later [<- | []]. reflexivity.
  - apply (field_diagnostics_cell [diag_test_1] [] diag_test_2 diag
             (lit "customfield_10") row E Er); [reflexivity|].
    intros later [].
Defined.

(* ================================================================== *)
(** * The errors of the flattener *)
(* ================================================================== *)

Lemma bind_raise {A B : Type} (x : result A) (k : A -> result B) (e : exn) :
  bind x k = Raise e -> x = Raise e \/ exists a, x = Ok a /\ k a = Raise e.
Proof.
  destruct x as [a|e']; cbn [bind]; intros H; [right; exists a; auto|].
  left. injection H as ->. reflexivity.
Qed.

Lemma for_each_raise {A S : Type} (P : exn -> Prop) (body : S -> A -> result S)
  (xs : list A) :
  (forall acc x e, body acc x = Raise e -> P e) ->
  forall acc e, for_each body xs acc = Raise e -> P e.
Proof.
  intros Hbody. induction xs as [|x xs IH]; intros acc e H; [discriminate|].
  cbn [for_each] in H. apply bind_raise in H as [H | (acc' & _ & H)].
  - apply (Hbody _ _ _ H).
  - apply (IH _ _ H).
Qed.

Lemma get_raise x k d e : Py.get x k d = Raise e -> typing_error e.
Proof. destruct x; cbn; intros H; try discriminate; injection H as <-; left; reflexivity. Qed.

Lemma iter_raise x e : Py.iter x = Raise e -> typing_error e.
Proof. destruct x; cbn; intros H; try discriminate; injection H as <-; right; reflexivity. Qed.

Lemma strip_raise x e : Py.strip x = Raise e -> typing_error e.
Proof. destruct x; cbn; intros H; try discriminate; injection H as <-; left; reflexivity. Qed.

Lemma lower_raise x e : Py.lower x = Raise e -> typing_error e.
Proof. destruct x; cbn; intros H; try discriminate; injection H as <-; left; reflexivity. Qed.

Lemma normalize_raise x e : normalize_definition x = Raise e -> typing_error e.
Proof.
  destruct x; cbn; intros H; try discriminate; injection H as <-; left; reflexivity.
Qed.

Lemma format_raise v e : _format_jira_field_value v = Raise e -> typing_error e.
Proof. destruct (format_total v) as [s ->]. discriminate. Qed.

Lemma join_raise sep x e : Py.join sep x = Raise e -> typing_error e.
Proof.
  unfold Py.join. intros H. apply bind_raise in H as [H | (items & _ & H)].
  - apply (iter_raise _ _ H).
  - apply bind_raise in H as [H | (parts & _ & H)]; [|discriminate].
    revert H. apply for_each_raise.
    intros acc item e' H. destruct item; try discriminate;
      injection H as <-; right; reflexivity.
Qed.

(** Take apart a chain of binds that raised. *)
Ltac raise_all :=
  repeat match goal with
         | H : bind _ _ = Raise _ |- _ =>
             let a := fresh "v" in
             let E := fresh "E" in
             apply bind_raise in H; destruct H as [H | (a & E & H)]
         | H : (let (_, _) := ?p in _) = Raise _ |- _ => destruct p
         | H : (if ?c then _ else _) = Raise _ |- _ => destruct c
         | H : Ok _ = Raise _ |- _ => discriminate H
         end.

Ltac raise_leaf :=
  match goal with
  | H : Py.get _ _ _ = Raise _ |- _ => exact (get_raise _ _ _ _ H)
  | H : Py.iter _ = Raise _ |- _ => exact (iter_raise _ _ H)
  | H : Py.strip _ = Raise _ |- _ => exact (strip_raise _ _ H)
  | H : Py.lower _ = Raise _ |- _ => exact (lower_raise _ _ H)
  | H : Py.join _ _ = Raise _ |- _ => exact (join_raise _ _ _ H)
  | H : normalize_definition _ = Raise _ |- _ => exact (normalize_raise _ _ H)
  | H : _format_jira_field_value _ = Raise _ |- _ => exact (format_raise _ _ H)
  end.

Lemma find_precondition_raise cfs e :
  find_precondition cfs = Raise e -> typing_error e.
Proof.
  induction cfs as [|cf cfs IH]; [discriminate|].
  cbn [find_precondition]. intros H. raise_all; try raise_leaf.
  apply IH. exact H.
Qed.

Lemma step_body_raise base acc step e :
  step_body base acc step = Raise e -> typing_error e.
Proof.
  destruct acc as [idx rows]. unfold step_body. intros H.
  raise_all; try raise_leaf.
  match goal with
  | H : find_precondition _ = Raise _ |- _ => exact (find_precondition_raise _ _ H)
  end.
Qed.

Lemma precondition_body_raise acc p e :
  precondition_body acc p = Raise e -> typing_error e.
Proof.
  destruct acc as [titles defs]. unfold precondition_body. intros H.
  raise_all; raise_leaf.
Qed.

Lemma base_row_raise test e : base_row test = Raise e -> typing_error e.
Proof.
  unfold base_row, CUSTOM_FIELDS_TO_EXPORT. cbn [for_each]. intros H.
  raise_all; try raise_leaf.
  match goal with
  | H : for_each precondition_body _ _ = Raise _ |- _ =>
      revert H; apply for_each_raise; intros acc p e'; apply precondition_body_raise
  end.
Qed.

Lemma test_body_raise rows test e : test_body rows test = Raise e -> typing_error e.
Proof.
  unfold test_body. intros H. raise_all; try raise_leaf.
  - match goal with
    | H : base_row _ = Raise _ |- _ => exact (base_row_raise _ _ H)
    end.
  - match goal with
    | H : for_each (step_body _) _ _ = Raise _ |- _ =>
        revert H; apply for_each_raise; intros acc s e'; apply step_body_raise
    end.
Qed.

(** X16: the only errors [flatten_rows] raises are [AttributeError]
    and [TypeError], the two errors of a value of the wrong type; in
    particular never an HTTP error, so a run that fails in the flattener
    ends with exit status 2. *)
Theorem flatten_rows_raises_typing_errors (tests : list pyval) (e : exn) :
  flatten_rows tests = Raise e ->
  typing_error e /\ exit_status (@Uncaught written e) = 2.
Proof.
  intros H.
  assert (Ht : typing_error e).
  { revert H. unfold flatten_rows. apply for_each_raise.
    intros acc test e'. apply test_body_raise. }
  split; [exact Ht|]. destruct Ht as [-> | ->]; reflexivity.
Qed.

Lemma flatten_rows_raises_typing_errors_witness :
  flatten_rows [record_with_numeric_label] = Raise TypeError /\
  typing_error TypeError /\ exit_status (@Uncaught written TypeError) = 2.
Proof.
  split; [reflexivity|].
  apply (flatten_rows_raises_typing_errors [record_with_numeric_label] TypeError).
  reflexivity.
Defined.

(* ================================================================== *)
(** * [run_field_diagnostics] and [main] *)
(* ================================================================== *)

(** X17: the diagnostics send exactly one request, for five tests at
    offset 0, and end with [sys.exit(1)] exactly when that gives no
    sample: the request fails, or the page is not a mapping, or it has no
    records.  (Unlike [fetch_all_tests], a page that is not a mapping is
    caught here: reading [results] is inside the [try].)  This holds
    whatever the spreadsheet writer does. *)
Theorem run_field_diagnostics_exits_without_sample
  (srv : service) (token jql : pystr) (writer : spreadsheet_writer) :
  let rq := the_request token jql 5 0 in
  snd (run_field_diagnostics srv token jql writer) = [rq] /\
  (fst (run_field_diagnostics srv token jql writer) = Exit 1 <->
   (exists e, page_at srv 0 rq = Raise e) \/
   (exists data, page_at srv 0 rq = Ok data /\
                 (is_mapping data = false \/ no_records data))).
Proof.
  cbv zeta. unfold run_field_diagnostics. rewrite get_tests_page_run.
  cbn [List.length app].
  destruct (page_at srv 0 (the_request token jql 5 0)) as [data|e] eqn:Ep;
    cbn [bind].
  - destruct (Py.get data (lit "results") VNone) as [results|e] eqn:Er;
      cbn [bind].
    + assert (Hm : is_mapping data = true)
        by (destruct data; try discriminate; reflexivity).
      assert (Htr : Py.truthy (Py.or_ results (VList [])) = Py.truthy results).
      { unfold Py.or_. destruct (Py.truthy results) eqn:E; [exact E | reflexivity]. }
      rewrite Htr. destruct (Py.truthy results) eqn:Et; cbn [negb].
      * destruct (bind _ _) as [diag|e]; [destruct (writer _)|]; cbn [fst snd];
          (split; [reflexivity|]); (split; [discriminate|]);
          intros [(e' & He) | (d & Hd & [Hnm | (r & Hr & Hf)])];
          try discriminate; injection Hd as <-; congruence.
      * cbn [fst snd]. split; [reflexivity|]. split; [|reflexivity].
        intros _. right. exists data. split; [reflexivity|]. right.
        exists results. auto.
    + cbn [fst snd]. split; [reflexivity|]. split; [|reflexivity].
      intros _. right. exists data. split; [reflexivity|]. left.
      destruct data; try reflexivity. discriminate.
  - cbn [fst snd]. split; [reflexivity|]. split; [|reflexivity].
    intros _. left. exists e. reflexivity.
Qed.

Lemma run_field_diagnostics_exits_without_sample_witness :
  run_field_diagnostics null_page_server [] [] saving_writer
  = (Exit 1, [the_request [] [] 5 0]) /\
  fst (run_field_diagnostics down_server [] [] saving_writer) = Exit 1.
Proof.
  split; [reflexivity|].
  apply (proj2 (proj2 (run_field_diagnostics_exits_without_sample
                         down_server [] [] saving_writer))).
  left. exists ConnectionError. reflexivity.
Defined.

Lemma nonempty_false (s : pystr) : nonempty s = false <-> s = [].
Proof. destruct s; split; intros H; try reflexivity; discriminate. Qed.

Lemma nonempty_false_neq (s : pystr) : s <> [] -> nonempty s = true.
Proof. destruct s; [congruence | reflexivity]. Qed.

(** The soft failure of the first page, from the definition. *)
Lemma first_page_failure_returns_empty_loop
  (fuel : nat) (srv : service) (token jql : pystr) (limit : Z) (e : exn) :
  page_at srv 0 (the_request token jql limit 0) = Raise e ->
  fetch_all_tests fuel srv token jql limit
  = Some (Ok [], [the_request token jql limit 0]).
Proof.
  intros H. unfold fetch_all_tests. rewrite get_tests_page_run.
  cbn [List.length app]. rewrite H. reflexivity.
Qed.



(** X19: a failure of the first page request does not fail the export:
    with complete configuration and a token, the run sends that one
    request and hands the writer a sheet with the columns and no row,
    under the file name of [--outfile].  When the writer saves it the run
    ends with exit status 0; when the writer raises (a file that cannot
    be written), the exception escapes and the exit status is 2. *)
Theorem main_first_page_failure_writes_empty_sheet
  (fuel : nat) (env : environment) (args : arguments)
  (auth : auth_service) (srv : service) (writer : spreadsheet_writer)
  (token : pystr) (e : exn) :
  client_id_of env <> [] -> client_secret_of env <> [] -> jql_of env <> [] ->
  diagnose_fields args = false ->
  get_token auth (client_id_of env) (client_secret_of env) = Ok token ->
  page_at srv 0 (the_request token (jql_of env) (limit_arg args) 0) = Raise e ->
  let sheet := Sheet sheet_columns [] (outfile args) in
  exists o t,
    main fuel env args auth srv writer = Some (o, t) /\
    requests t = [the_request token (jql_of env) (limit_arg args) 0] /\
    (writer sheet = true -> o = Done sheet /\ exit_status o = 0) /\
    (writer sheet = false -> o = Uncaught WriterError /\ exit_status o = 2).
Proof.
  unfold client_id_of, client_secret_of, jql_of, main.
  intros Hid Hsecret Hjql Hmode Htoken Hpage. cbv zeta.
  apply nonempty_false_neq in Hid. apply nonempty_false_neq in Hsecret.
  apply nonempty_false_neq in Hjql.
  rewrite Hid, Hsecret, Hjql. cbn [negb orb]. rewrite Htoken, Hmode.
  rewrite (first_page_failure_returns_empty_loop _ _ _ _ _ _ Hpage).
  change (flatten_rows []) with (@Ok (list pyval) []). cbv beta iota zeta.
  do 2 eexists. split; [reflexivity|]. split; [reflexivity|].
  destruct (writer (Sheet sheet_columns [] (outfile args)));
    split; intros H; try discriminate H; split; reflexivity.
Qed.

Lemma main_first_page_failure_writes_empty_sheet_witness :
  let sheet := Sheet sheet_columns [] (lit "xray_tests.xlsx") in
  (exists o t,
     main 0 sample_env export_args granting_auth down_server saving_writer
     = Some (o, t) /\
     requests t = [the_request (lit "eyJhbGciOi") (lit "project = X") 100 0] /\
     (saving_writer sheet = true -> o = Done sheet /\ exit_status o = 0) /\
     (saving_writer sheet = false ->
      o = Uncaught WriterError /\ exit_status o = 2)) /\
  main 0 sample_env export_args granting_auth down_server saving_writer
  = Some (Done sheet,
          {| auth_calls := [(lit "abcd1234", lit "s3cret")];
             requests := [the_request (lit "eyJhbGciOi") (lit "project = X")
                            100 0] |}) /\
  main 0 sample_env export_args granting_auth down_server failing_writer
  = Some (Uncaught WriterError,
          {| auth_calls := [(lit "abcd1234", lit "s3cret")];
             requests := [the_request (lit "eyJhbGciOi") (lit "project = X")
                            100 0] |}).
Proof.
  cbv zeta. split; [|split; reflexivity].
  apply (main_first_page_failure_writes_empty_sheet 0 sample_env export_args
           granting_auth down_server saving_writer (lit "eyJhbGciOi")
           ConnectionError);
    try reflexivity; vm_compute; discriminate.
Defined.

(** X20: the sheet shows exactly the columns the rows have: every row
    handed to the writer is a mapping whose keys are the sheet's columns,
    each once, in another order (the step columns come before the
    issue-precondition columns in the sheet, after them in the row); so
    no column of a row is dropped and no column of the sheet is blank for
    lack of a key. *)
Theorem main_sheet_columns_match_rows
  (fuel : nat) (env : environment) (args : arguments)
  (auth : auth_service) (srv : service) (writer : spreadsheet_writer)
  (columns : list pystr) (rows : list pyval) (file : pystr) (t : traffic) :
  main fuel env args auth srv writer
  = Some (Done (Sheet columns rows file), t) ->
  NoDup columns /\
  Forall (fun row => exists d, row = VDict d /\
                               Permutation (List.map fst d) columns) rows.
Proof.
  unfold main. intros H.
  destruct (_ || _); [discriminate|].
  destruct (negb _); [discriminate|].
  destruct (get_token _ _ _) as [token|]; [|discriminate].
  destruct (diagnose_fields args).
  - destruct (run_field_diagnostics _ _ _ _) as [[diag|code|e] log]; discriminate.
  - destruct (fetch_all_tests _ _ _ _ _) as [[[tests|e] log]|]; try discriminate.
    destruct (flatten_rows tests) as [rows'|e] eqn:Eflat; [|discriminate].
    cbv zeta in H. destruct (writer _); [|discriminate].
    injection H as <- <- _ _. split.
    + repeat constructor; cbn [In]; intros Hin;
        repeat destruct Hin as [Hin | Hin]; try contradiction;
        vm_compute in Hin; discriminate.
    + apply flatten_rows_rows_shaped in Eflat.
      eapply Forall_impl; [|exact Eflat].
      intros row (key & summary & labels & c1 & c2 & titles & defs & number
                  & pre & action & expected & -> & _).
      eexists. split; [reflexivity|]. cbn [List.map fst].
      change sheet_columns
        with ([ lit "Test Key"; lit "Summary"; lit "Labels";
                lit "Components"; lit "Custom Field 2" ]
              ++ [ lit "Step #"; lit "Step Precondition"; lit "Action";
                   lit "Expected Result" ]
              ++ [ lit "Issue Preconditions (keys & titles)";
                   lit "Issue Preconditions Definition" ]).
      apply (Permutation_app_head
               [ lit "Test Key"; lit "Summary"; lit "Labels";
                 lit "Components"; lit "Custom Field 2" ]).
      apply (Permutation_app_comm
               [ lit "Issue Preconditions (keys & titles)";
                 lit "Issue Preconditions Definition" ]
               [ lit "Step #"; lit "Step Precondition"; lit "Action";
                 lit "Expected Result" ]).
Qed.

Lemma main_sheet_columns_match_rows_witness :
  exists rows t,
    main 5 sample_env export_args granting_auth (honest_server 3) saving_writer
    = Some (Done (Sheet sheet_columns rows (lit "xray_tests.xlsx")), t) /\
    List.length rows = 3%nat /\
    NoDup sheet_columns /\
    Forall (fun row => exists d, row = VDict d /\
                                 Permutation (List.map fst d) sheet_columns) rows.
Proof.
  destruct (main 5 sample_env export_args granting_auth (honest_server 3)
              saving_writer)
    as [[o t]|] eqn:E; [|vm_compute in E; discriminate].
  destruct o as [[columns rows file|diag]|code|e];
    try (vm_compute in E; discriminate).
  assert (Hc : columns = sheet_columns /\ file = lit "xray_tests.xlsx"
               /\ List.length rows = 3%nat).
  { vm_compute in E. injection E as <- <- <- _. repeat split. }
  destruct Hc as (-> & -> & Hlen).
  exists rows, t. split; [reflexivity|]. split; [exact Hlen|].
  exact (main_sheet_columns_match_rows 5 sample_env export_args granting_auth
           (honest_server 3) saving_writer sheet_columns rows
           (lit "xray_tests.xlsx") t E).
Defined.

Lemma width_fold_bounds (cells : list pyval) :
  forall m,
    let r := fold_left
               (fun max_len c =>
                  let v := cell_text c in
                  if Z.of_nat (List.length v) >? max_len
                  then Z.of_nat (List.length v) else max_len)
               cells m in
    m <= r /\
    (forall c, In c cells -> Z.of_nat (List.length (cell_text c)) <= r) /\
    (r = m \/ exists c, In c cells /\ r = Z.of_nat (List.length (cell_text c))).
Proof.
  induction cells as [|c cells IH]; intros m; cbv zeta.
  - cbn [fold_left In]. split; [lia|]. split; [tauto | auto].
  - cbn [fold_left]. cbv zeta.
    destruct (Z.gtb_spec (Z.of_nat (List.length (cell_text c))) m) as [Hgt | Hle].
    + destruct (IH (Z.of_nat (List.length (cell_text c)))) as (H1 & H2 & H3).
      cbv zeta in *. split; [lia|]. split.
      * intros c' [<- | Hc']; [exact H1 | apply H2; exact Hc'].
      * right. destruct H3 as [-> | (c' & Hc' & ->)].
        -- exists c. split; [left; reflexivity | reflexivity].
        -- exists c'. split; [right; exact Hc' | reflexivity].
    + destruct (IH m) as (H1 & H2 & H3). cbv zeta in *.
      split; [exact H1|]. split.
      * intros c' [<- | Hc']; [lia | apply H2; exact Hc'].
      * destruct H3 as [-> | (c' & Hc' & ->)]; [left; reflexivity|].
        right. exists c'. split; [right; exact Hc' | reflexivity].
Qed.

(** X21: the width given to a column is between 12 and 80, and it is
    the length of its longest cell text plus 2 whenever that lies in
    between: every cell of at most 78 characters fits with two to
    spare, and a column whose cells all have at most 10 characters gets
    the width 12. *)
Theorem column_width_bounds (cells : list pyval) :
  12 <= column_width cells <= 80 /\
  (forall c, In c cells ->
             Z.min (Z.of_nat (List.length (cell_text c)) + 2) 80
             <= column_width cells) /\
  ((forall c, In c cells -> Z.of_nat (List.length (cell_text c)) <= 10) ->
   column_width cells = 12).
Proof.
  unfold column_width. cbv zeta.
  destruct (width_fold_bounds cells 10) as (H1 & H2 & H3). cbv zeta in *.
  split; [lia|]. split.
  - intros c Hc. specialize (H2 c Hc). lia.
  - intros Hshort. destruct H3 as [-> | (c & Hc & Hr)]; [reflexivity|].
    specialize (Hshort c Hc). lia.
Qed.

Lemma column_width_bounds_witness :
  column_width [txt "Summary"; txt "Login"; VNone; VInt 12345] = 12 /\
  column_width [txt "Summary"; txt "Login works and more text here"] = 32.
Proof.
  split; [|reflexivity].
  apply (proj2 (proj2 (column_width_bounds
                         [txt "Summary"; txt "Login"; VNone; VInt 12345]))).
  intros c [<- | [<- | [<- | [<- | []]]]]; vm_compute; discriminate.
Defined.

Lemma run_field_diagnostics_log (srv : service) (token jql : pystr)
  (writer : spreadsheet_writer) :
  snd (run_field_diagnostics srv token jql writer) = [the_request token jql 5 0].
Proof.
  unfold run_field_diagnostics. rewrite get_tests_page_run.
  cbn [List.length app].
  destruct (bind _ _) as [tests|e]; [|reflexivity].
  destruct (negb _); [reflexivity|].
  destruct (bind _ _); [destruct (writer _)|]; reflexivity.
Qed.

(** X22: no request reaches the GraphQL endpoint without a token: when
    a run has sent requests, the credentials were posted once, cleaned,
    the authentication endpoint returned a token, and every request
    carries that token, the stripped filter, and the limit of the mode
    (5 for the diagnostics, [--limit] for the export). *)
Theorem main_requests_are_authenticated
  (fuel : nat) (env : environment) (args : arguments)
  (auth : auth_service) (srv : service) (writer : spreadsheet_writer)
  (o : outcome written) (t : traffic) :
  main fuel env args auth srv writer = Some (o, t) ->
  requests t <> [] ->
  exists token,
    get_token auth (client_id_of env) (client_secret_of env) = Ok token /\
    auth_calls t = [(client_id_of env, client_secret_of env)] /\
    Forall (request_of token (jql_of env) (request_limit args)) (requests t).
Proof.
  unfold main, client_id_of, client_secret_of, jql_of, request_limit.
  intros H Hreq.
  destruct (_ || _); [injection H as _ <-; contradiction Hreq; reflexivity|].
  destruct (negb _); [injection H as _ <-; contradiction Hreq; reflexivity|].
  destruct (get_token _ _ _) as [token|e];
    [|injection H as _ <-; contradiction Hreq; reflexivity].
  exists token. split; [reflexivity|].
  destruct (diagnose_fields args).
  - pose proof (run_field_diagnostics_log srv token
                  (PyStr.strip (getenv_or_empty (JIRA_JQL env))) writer) as Hlog.
    destruct (run_field_diagnostics _ _ _ _) as [o' log]. cbn [snd] in Hlog.
    injection H as _ <-. cbn [auth_calls requests]. split; [reflexivity|].
    rewrite Hlog. constructor; [repeat split | constructor].
  - destruct (fetch_all_tests _ _ _ _ _) as [[res log]|] eqn:Ef; [|discriminate].
    assert (Hlog : Forall (request_of token
                             (PyStr.strip (getenv_or_empty (JIRA_JQL env)))
                             (limit_arg args)) log).
    { revert Ef. unfold fetch_all_tests. rewrite get_tests_page_run.
      cbn [List.length app].
      assert (Hone : Forall (request_of token
                               (PyStr.strip (getenv_or_empty (JIRA_JQL env)))
                               (limit_arg args))
                       [the_request token
                          (PyStr.strip (getenv_or_empty (JIRA_JQL env)))
                          (limit_arg args) 0])
        by (constructor; [repeat split | constructor]).
      destruct (page_at srv 0 _) as [data|e].
      - destruct (Py.get data (lit "total") (VInt 0)) as [total|].
        + destruct (negb (Py.truthy total)).
          * intros H'. injection H' as _ <-. exact Hone.
          * destruct (take_page (limit_arg args) data _) as [st|].
            -- apply fetch_loop_requests. exact Hone.
            -- intros H'. injection H' as _ <-. exact Hone.
        + intros H'. injection H' as _ <-. exact Hone.
      - intros H'. injection H' as _ <-. exact Hone. }
    destruct res as [tests|e].
    + destruct (flatten_rows tests); injection H as _ <-;
        cbn [auth_calls requests]; (split; [reflexivity | exact Hlog]).
    + injection H as _ <-. cbn [auth_calls requests].
      split; [reflexivity | exact Hlog].
Qed.

Lemma main_requests_are_authenticated_witness :
  exists o t token,
    main 5 sample_env diagnose_args granting_auth (honest_server 3) saving_writer
    = Some (o, t) /\
    requests t = [the_request (lit "eyJhbGciOi") (lit "project = X") 5 0] /\
    get_token granting_auth (client_id_of sample_env) (client_secret_of sample_env)
      = Ok token /\
    auth_calls t = [(lit "abcd1234", lit "s3cret")] /\
    Forall (request_of token (lit "project = X") 5) (requests t).
Proof.
  destruct (main 5 sample_env diagnose_args granting_auth (honest_server 3)
              saving_writer)
    as [[o t]|] eqn:E; [|vm_compute in E; discriminate].
  assert (Hreq : requests t
                 = [the_request (lit "eyJhbGciOi") (lit "project = X") 5 0])
    by (vm_compute in E; injection E as _ <-; reflexivity).
  destruct (main_requests_are_authenticated 5 sample_env diagnose_args
              granting_auth (honest_server 3) saving_writer o t E)
    as (token & Ht & Ha & Hf).
  { rewrite Hreq. discriminate. }
  exists o, t, token. split; [reflexivity|]. split; [exact Hreq|].
  split; [exact Ht|]. split; [exact Ha | exact Hf].
Defined.

Lemma lstrip_chars_first (chars s : pystr) :
  match first_char (lstrip_chars chars s) with
  | Some c => existsb (N.eqb c) chars = false
  | None => True
  end.
Proof.
  induction s as [|c s IH]; cbn [lstrip_chars]; [exact I|].
  destruct (existsb (N.eqb c) chars) eqn:E; [exact IH | exact E].
Qed.

Lemma lstrip_chars_suffix (chars s : pystr) :
  exists dropped, s = dropped ++ lstrip_chars chars s.
Proof.
  induction s as [|c s IH]; cbn [lstrip_chars]; [exists []; reflexivity|].
  destruct (existsb (N.eqb c) chars).
  - destruct IH as [d Hd]. exists (c :: d). cbn [app]. congruence.
  - exists []. reflexivity.
Qed.

Lemma first_char_app (a b : pystr) :
  a <> [] -> first_char (a ++ b) = first_char a.
Proof. destruct a; [congruence | reflexivity]. Qed.

(** X23: a cleaned credential neither starts nor ends with a quote
    character, whatever the environment holds; an unset variable gives
    the empty text. *)
Theorem clean_credential_unquoted (v : option pystr) :
  not_quote (first_char (clean_credential v)) /\
  not_quote (last_char (clean_credential v)) /\
  clean_credential None = [].
Proof.
  split; [|split; [|reflexivity]].
  - unfold clean_credential, strip_chars.
    set (s := PyStr.strip (getenv_or_empty v)).
    set (l := lstrip_chars quotes s).
    pose proof (lstrip_chars_first quotes s) as Hfirst. fold l in Hfirst.
    destruct (lstrip_chars_suffix quotes (rev l)) as [d Hd].
    set (r := lstrip_chars quotes (rev l)) in *.
    assert (Hl : l = rev r ++ rev d).
    { rewrite <- (rev_involutive l), Hd, rev_app_distr. reflexivity. }
    destruct (rev r) as [|c rr] eqn:Er; [exact I|].
    rewrite Hl in Hfirst. cbn [app first_char] in Hfirst.
    cbn [first_char not_quote]. exact Hfirst.
  - unfold clean_credential, strip_chars, last_char. rewrite rev_involutive.
    pose proof (lstrip_chars_first quotes
                  (rev (lstrip_chars quotes (PyStr.strip (getenv_or_empty v)))))
      as H.
    destruct (first_char _); [exact H | exact I].
Qed.

(** Quotes and blanks around a credential are removed; blanks inside the
    quotes are kept. *)
Example clean_credential_samples :
  clean_credential (Some (lit " 'abcd1234' ")) = lit "abcd1234" /\
  clean_credential (Some (lit "' abcd '")) = lit " abcd " /\
  clean_credential (Some (lit " '' ")) = [].
Proof. repeat split; reflexivity. Qed.




